(** * Credit-default inference pipeline

    A shallow embedding of [credit_default_model/model.py] (artifact
    loading, payload validation and coercion, scoring), of
    [app/services/prediction_service.py] (single and batch orchestration,
    batch size guard) and of the two endpoints of
    [app/api/v1/controllers/prediction_controller.py].

    Pandas frames are column-major, as in pandas itself: a frame is a row
    index plus an ordered association list from column labels to cell lists.
    Python exceptions are values of [exn]; a method that logs or calls the
    estimator returns its trace of effects together with its outcome. *)

From Stdlib Require Import ZArith List String Ascii Bool Lia Permutation.
From Stdlib Require Import DecimalString.
From Stdlib Require Import PrimFloat FloatOps SpecFloat Uint63 FloatAxioms.
Import ListNotations.

#[local] Set Warnings "-inexact-float,-notation-for-abbreviation".

Local Open Scope string_scope.
Local Open Scope list_scope.
Local Open Scope Z_scope.

Notation "s +++ t" := (String.append s t) (at level 60, right associativity).

(** ** Exceptions *)

(** The exception classes that can leave the pipeline.  [ValidationError]
    and [ModelError] are the repository's own ([exceptions.py]),
    [PredictionError] is the service's; the others are raised by Python,
    numpy or pandas and are never constructed by the repository. *)
Inductive exn : Type :=
| ValidationError (msg : string)
| ModelError (msg : string)
| PredictionError (msg : string)
| KeyError (msg : string)
| IndexError (msg : string)
| ValueError (msg : string)
| IntCastingNaNError (msg : string)
| EstimatorException (msg : string).

(** [class ValidationError(ModelError)]: what [except ModelError] catches. *)
Definition isinstance_ModelError (e : exn) : bool :=
  match e with
  | ValidationError _ | ModelError _ => true
  | _ => false
  end.

(** [str(exc)] *)
Definition str_exn (e : exn) : string :=
  match e with
  | ValidationError m | ModelError m | PredictionError m | KeyError m
  | IndexError m | ValueError m | IntCastingNaNError m
  | EstimatorException m => m
  end.

Inductive result (A : Type) : Type :=
| Ok (a : A)
| Raise (e : exn).
Arguments Ok {A} a.
Arguments Raise {A} e.

Definition rbind {A B} (r : result A) (k : A -> result B) : result B :=
  match r with
  | Ok a => k a
  | Raise e => Raise e
  end.

Definition rmap {A B} (f : A -> B) (r : result A) : result B :=
  rbind r (fun a => Ok (f a)).

Notation "'let?' x ':=' r 'in' k" := (rbind r (fun x => k))
  (at level 10, x pattern, r at level 100, k at level 200).

(** ** Cells, columns and frames *)

(** A cell of a raw frame: Python [None], pandas' [pd.NA], an integer
    (within int64), a float64 (NaN included), or a string. *)
Inductive cell : Type :=
| PyNone
| NA
| Int (z : Z)
| Float (f : float)
| Str (s : string).

(** [pd.isnull] on one cell. *)
Definition isnull (c : cell) : bool :=
  match c with
  | PyNone | NA => true
  | Float f => PrimFloat.is_nan f
  | Int _ | Str _ => false
  end.

Definition Series : Type := list cell.

Record DataFrame : Type := mkDataFrame {
  index : list Z;
  data : list (string * Series)
}.

(** [frame.columns] *)
Definition columns (frame : DataFrame) : list string := map fst (data frame).

(** [len(frame)] *)
Definition len (frame : DataFrame) : nat := List.length (index frame).

(** Every column of a frame has one cell per index label. *)
Definition wf_frame (frame : DataFrame) : Prop :=
  Forall (fun kv => List.length (snd kv) = len frame) (data frame).

(** [col in names] *)
Definition mem (col : string) (names : list string) : bool :=
  existsb (String.eqb col) names.

Fixpoint lookup (col : string) (d : list (string * Series)) : option Series :=
  match d with
  | [] => None
  | (k, v) :: d' => if String.eqb col k then Some v else lookup col d'
  end.

Definition repr_str (s : string) : string := "'" +++ s +++ "'".

(** [frame[col]] *)
Definition getitem (frame : DataFrame) (col : string) : result Series :=
  match lookup col (data frame) with
  | Some v => Ok v
  | None => Raise (KeyError (repr_str col))
  end.

(** [frame[cols]] with a list of labels: the projection keeps the order of
    [cols] and the index. *)
Fixpoint getitem_data (d : list (string * Series)) (cols : list string)
  : result (list (string * Series)) :=
  match cols with
  | [] => Ok []
  | c :: cols' =>
      match lookup c d with
      | None => Raise (KeyError (repr_str c))
      | Some v => let? rest := getitem_data d cols' in Ok ((c, v) :: rest)
      end
  end.

Definition getitem_list (frame : DataFrame) (cols : list string) : result DataFrame :=
  let? d := getitem_data (data frame) cols in
  Ok (mkDataFrame (index frame) d).

(** [frame[col] = values] on an existing column. *)
Fixpoint setitem_data (d : list (string * Series)) (col : string) (v : Series)
  : list (string * Series) :=
  match d with
  | [] => [(col, v)]
  | (k, w) :: d' =>
      if String.eqb col k then (k, v) :: d' else (k, w) :: setitem_data d' col v
  end.

Definition setitem (frame : DataFrame) (col : string) (v : Series) : DataFrame :=
  mkDataFrame (index frame) (setitem_data (data frame) col v).

(** ** Strings *)

(** Python's [\s] on ASCII text: tab, newline, vertical tab, form feed,
    carriage return, the four separators 0x1c-0x1f, and space. *)
Definition is_space (a : ascii) : bool :=
  let n := nat_of_ascii a in
  ((9 <=? n) && (n <=? 13) || (28 <=? n) && (n <=? 32))%nat.

(** [re.search(r"^\s*$", s) is not None] *)
Fixpoint blank (s : string) : bool :=
  match s with
  | EmptyString => true
  | String a s' => is_space a && blank s'
  end.

(** [", ".join(xs)] *)
Definition join (sep : string) (xs : list string) : string := String.concat sep xs.

(** [str(n)] for a Python int. *)
Definition str_int (z : Z) : string := NilZero.string_of_int (Z.to_int z).

(** [s.startswith(p)] *)
Definition startswith (s p : string) : bool := String.prefix p s.

Definition dquote : string := String (ascii_of_nat 34) EmptyString.

(** ** Numeric conversion, as pandas and numpy do it *)

(** What one cell converts to. *)
Inductive number : Type :=
| NInt (z : Z)
| NFloat (f : float).

(** The dtype of a converted column: all integers, or float64. *)
Inductive numeric_column : Type :=
| Int64 (v : list Z)
| Float64 (v : list float).

(** The C cast from int64 to float64 (round to nearest even). *)
Definition float_of_int64 (z : Z) : float :=
  if z <? 0 then PrimFloat.opp (PrimFloat.of_uint63 (Uint63.of_Z (- z)))
  else PrimFloat.of_uint63 (Uint63.of_Z z).

(** [np.isfinite] *)
Definition isfinite (f : float) : bool := PrimFloat.is_finite f.

(** The C cast from float64 to int64: truncation toward zero; outside the
    int64 range the x86-64 conversion yields INT64_MIN. *)
Definition int64_of_float (f : float) : Z :=
  match Prim2SF f with
  | S754_finite s m e =>
      let mag := match e with
                 | Zneg k => Z.shiftr (Zpos m) (Zpos k)
                 | _ => Z.shiftl (Zpos m) e
                 end in
      let v := if s then - mag else mag in
      if (- 2 ^ 63 <=? v) && (v <? 2 ^ 63) then v else - 2 ^ 63
  | _ => 0
  end.

Definition number_is_int (n : number) : bool :=
  match n with NInt _ => true | NFloat _ => false end.

Definition number_to_Z (n : number) : Z :=
  match n with NInt z => z | NFloat f => int64_of_float f end.

Definition number_to_float (n : number) : float :=
  match n with NInt z => float_of_int64 z | NFloat f => f end.

(** [Series.astype("int64")] on a numeric column; pandas refuses NaN and
    the infinities before casting. *)
Definition astype_int64 (c : numeric_column) : result (list Z) :=
  match c with
  | Int64 v => Ok v
  | Float64 v =>
      if forallb isfinite v then Ok (map int64_of_float v)
      else Raise (IntCastingNaNError
                    "Cannot convert non-finite values (NA or inf) to integer")
  end.

(** [Series.astype("float64")] on a numeric column. *)
Definition astype_float64 (c : numeric_column) : list float :=
  match c with
  | Int64 v => map float_of_int64 v
  | Float64 v => v
  end.

(** [DataFrame.replace(r"^\s*$", pd.NA, regex=True)]: only string cells are
    matched against the pattern. *)
Definition replace_blank_cell (c : cell) : cell :=
  match c with
  | Str s => if blank s then NA else c
  | _ => c
  end.

Definition replace_blank (frame : DataFrame) : DataFrame :=
  mkDataFrame (index frame)
              (map (fun kv => (fst kv, map replace_blank_cell (snd kv))) (data frame)).

(** [frame.isnull().any(axis=1).any()] *)
Definition any_null (frame : DataFrame) : bool :=
  existsb (fun kv => existsb isnull (snd kv)) (data frame).

Section Runtime.

(** Two routines of the Python runtime are taken as they are: the
    tokenizer with which pandas reads a number off a non-empty string
    ([None] when the string is not a number), and [repr] of a float. *)
Variable floatify : string -> option number.
Variable float_repr : float -> string.

(** One element in [lib.maybe_convert_numeric]: nulls become NaN, the
    empty string too, other strings go through the tokenizer. *)
Definition convert_cell (c : cell) : option number :=
  match c with
  | PyNone | NA => Some (NFloat PrimFloat.nan)
  | Int z => Some (NInt z)
  | Float f => Some (NFloat f)
  | Str s => if String.eqb s EmptyString then Some (NFloat PrimFloat.nan)
             else floatify s
  end.

Definition unparsable_message (c : cell) (pos : nat) : string :=
  "Unable to parse string " +++ dquote
    +++ match c with Str s => s | _ => EmptyString end
    +++ dquote +++ " at position " +++ str_int (Z.of_nat pos).

Fixpoint maybe_convert_numeric (pos : nat) (values : Series) : result (list number) :=
  match values with
  | [] => Ok []
  | c :: rest =>
      match convert_cell c with
      | None => Raise (ValueError (unparsable_message c pos))
      | Some n => let? ns := maybe_convert_numeric (S pos) rest in Ok (n :: ns)
      end
  end.

(** [pd.to_numeric(values, errors="raise")]: int64 when every element is
    an integer, float64 otherwise. *)
Definition to_numeric (values : Series) : result numeric_column :=
  let? ns := maybe_convert_numeric 0 values in
  Ok (if forallb number_is_int ns then Int64 (map number_to_Z ns)
      else Float64 (map number_to_float ns)).

(** [str(x)] of a cell. *)
Definition str_cell (c : cell) : string :=
  match c with
  | PyNone => "None"
  | NA => "<NA>"
  | Int z => str_int z
  | Float f => float_repr f
  | Str s => s
  end.

(** [Series.astype(str)] *)
Definition astype_str (s : Series) : Series := map (fun c => Str (str_cell c)) s.

End Runtime.

(** ** Effects: log records and estimator calls *)

Inductive log_level : Type := DEBUG | INFO | EXCEPTION.

Inductive log_arg : Type :=
| ArgStr (s : string)
| ArgInt (z : Z)
| ArgFloat (f : float).

(** What a method does besides returning: a [LOGGER] call (format string and
    arguments, as the logging module records them), or one invocation of
    the estimator's [predict_proba] on a feature frame. *)
Inductive event : Type :=
| Log (level : log_level) (fmt : string) (args : list log_arg)
| PredictProba (features : DataFrame).

(** A method's run: the events it emitted, in order, and how it ended. *)
Definition M (A : Type) : Type := (list event * result A)%type.

Definition ret {A} (a : A) : M A := ([], Ok a).
Definition raise {A} (e : exn) : M A := ([], Raise e).
Definition lift {A} (r : result A) : M A := ([], r).
Definition emit (ev : event) : M unit := ([ev], Ok tt).

Definition bind {A B} (m : M A) (k : A -> M B) : M B :=
  match m with
  | (tr, Raise e) => (tr, Raise e)
  | (tr, Ok a) => let (tr', r) := k a in (tr ++ tr', r)
  end.

Notation "x <- m ;; k" := (bind m (fun x => k))
  (at level 61, m at next level, right associativity).
Notation "m ;;; k" := (bind m (fun _ => k))
  (at level 61, right associativity).

Definition trace {A} (m : M A) : list event := fst m.
Definition outcome {A} (m : M A) : result A := snd m.

(** ** The estimator *)

(** What [predict_proba] hands back: a numpy array of one or two
    dimensions; a two-dimensional one has [ncols] entries in every row. *)
Inductive ndarray : Type :=
| Array1 (v : list float)
| Array2 (ncols : nat) (rows : list (list float)).

(** The unpickled estimator, of which only [predict_proba] is used. *)
Definition Estimator : Type := DataFrame -> result ndarray.

(** [probabilities[:, 1]] *)
Definition take_column_1 (a : ndarray) : result (list float) :=
  match a with
  | Array1 _ =>
      Raise (IndexError
        "too many indices for array: array is 1-dimensional, but 2 were indexed")
  | Array2 ncols rows =>
      if (ncols <=? 1)%nat
      then Raise (IndexError ("index 1 is out of bounds for axis 1 with size "
                              +++ str_int (Z.of_nat ncols)))
      else Ok (map (fun r => nth 1 r PrimFloat.nan) rows)
  end.

(** A float Series with its index. *)
Record FloatSeries : Type := mkFloatSeries {
  p_index : list Z;
  p_values : list float
}.

(** [pd.Series(values, index=index)] from an array. *)
Definition Series_of_array (values : list float) (idx : list Z) : result FloatSeries :=
  if (List.length values =? List.length idx)%nat then Ok (mkFloatSeries idx values)
  else Raise (ValueError ("Length of values ("
                          +++ str_int (Z.of_nat (List.length values))
                          +++ ") does not match length of index ("
                          +++ str_int (Z.of_nat (List.length idx)) +++ ")")).

(** [a >= b] on float64: false as soon as one side is NaN. *)
Definition float_ge (a b : float) : bool := PrimFloat.leb b a.

(** ** [CreditDefaultModel] *)

Record CreditDefaultModel : Type := mkModel {
  _estimator : Estimator;
  _expected_columns : list string;
  _dtype_map : list (string * string);
  _threshold : float;
  _id_column : string
}.

(** The frame [score] returns: columns [id], [probability], [is_default]
    over the index of the features. *)
Record ScoredFrame : Type := mkScored {
  s_index : list Z;
  id : Series;
  probability : list float;
  is_default : list bool
}.

(** *** Artifact loading: [__init__] *)

Record ModelSettings : Type := mkSettings {
  model_path : string;
  signature_path : string;
  metadata_path : string;
  id_column_name : string
}.

(** The signature and metadata JSON documents, with the keys [__init__]
    reads; a key that is absent is [None]. *)
Record SignatureJson : Type := mkSignature {
  sig_expected_columns : option (list string);
  sig_dtypes : option (list (string * string));
  sig_id_name : option string
}.

Record MetadataJson : Type := mkMetadata {
  md_threshold : option float
}.

(** The three files on disk; [None] when the path does not exist. *)
Record Artifacts : Type := mkArtifacts {
  estimator_file : option Estimator;
  signature_file : option SignatureJson;
  metadata_file : option MetadataJson
}.

Definition _load_estimator (path : string) (file : option Estimator) : result Estimator :=
  match file with
  | None => Raise (ModelError ("Estimator artifact not found at " +++ path +++ "."))
  | Some est => Ok est
  end.

Definition _load_json {A} (path : string) (file : option A) : result A :=
  match file with
  | None => Raise (ModelError ("JSON artifact not found at " +++ path +++ "."))
  | Some doc => Ok doc
  end.

(** [d.get(key, default)] *)
Definition get_default {A} (o : option A) (default : A) : A :=
  match o with Some a => a | None => default end.

(** [signature.get("id_name") or settings.id_column_name] *)
Definition id_name_or (o : option string) (fallback : string) : string :=
  match o with
  | Some s => if String.eqb s EmptyString then fallback else s
  | None => fallback
  end.

Definition init (settings : ModelSettings) (disk : Artifacts) : M CreditDefaultModel :=
  estimator <- lift (_load_estimator (model_path settings) (estimator_file disk)) ;;
  signature <- lift (_load_json (signature_path settings) (signature_file disk)) ;;
  metadata <- lift (_load_json (metadata_path settings) (metadata_file disk)) ;;
  let expected := get_default (sig_expected_columns signature) [] in
  let dtype_map := get_default (sig_dtypes signature) [] in
  match md_threshold metadata with
  | None => raise (ModelError "Model metadata does not declare a probability threshold.")
  | Some metadata_threshold =>
      let id_column := id_name_or (sig_id_name signature) (id_column_name settings) in
      emit (Log INFO
              "Loaded credit default model with %d features, ID column '%s', threshold %.4f"
              [ArgInt (Z.of_nat (List.length expected)); ArgStr id_column;
               ArgFloat metadata_threshold]) ;;;
      ret (mkModel estimator expected dtype_map metadata_threshold id_column)
  end.

Section Model.

Variable floatify : string -> option number.
Variable float_repr : float -> string.

(** *** [_prepare_features] *)

(** [Series.astype("category")]: the labels stay what they are. *)
Definition astype_category (s : Series) : Series := s.

(** The loop over [self._dtype_map.items()] (dictionary order): each
    declared column that is a feature is coerced in place. *)
Fixpoint coerce_dtypes (dtype_map : list (string * string)) (features : DataFrame)
  : result DataFrame :=
  match dtype_map with
  | [] => Ok features
  | (column, dtype) :: rest =>
      if negb (mem column (columns features)) then coerce_dtypes rest features
      else if startswith dtype "int" then
        let? values := getitem features column in
        let? numeric := to_numeric floatify values in
        let? ints := astype_int64 numeric in
        coerce_dtypes rest (setitem features column (map Int ints))
      else if startswith dtype "float" then
        let? values := getitem features column in
        let? numeric := to_numeric floatify values in
        coerce_dtypes rest (setitem features column (map Float (astype_float64 numeric)))
      else if String.eqb dtype "category" then
        let? values := getitem features column in
        coerce_dtypes rest (setitem features column (astype_category values))
      else
        Raise (ValidationError ("Unsupported dtype '" +++ dtype
                                +++ "' for column '" +++ column +++ "'."))
  end.

Definition nonempty {A} (l : list A) : bool :=
  match l with [] => false | _ :: _ => true end.

(** [[col for col in self._expected_columns if col not in frame.columns]] *)
Definition missing_columns (self : CreditDefaultModel) (frame : DataFrame) : list string :=
  filter (fun col => negb (mem col (columns frame))) (_expected_columns self).

(** [[col for col in frame.columns
      if col not in self._expected_columns and col != self._id_column]] *)
Definition extra_columns (self : CreditDefaultModel) (frame : DataFrame) : list string :=
  filter (fun col => negb (mem col (_expected_columns self))
                     && negb (String.eqb col (_id_column self)))
         (columns frame).

Definition _prepare_features (self : CreditDefaultModel) (frame : DataFrame)
  : M (DataFrame * Series) :=
  if negb (mem (_id_column self) (columns frame)) then
    raise (ValidationError ("Missing identifier column: " +++ _id_column self +++ "."))
  else if mem "default" (columns frame) then
    raise (ValidationError "Column 'default' is not allowed in inference payloads.")
  else
    let missing := missing_columns self frame in
    if nonempty missing then
      raise (ValidationError ("Missing columns: " +++ join ", " missing +++ "."))
    else
      let extra := extra_columns self frame in
      (if nonempty extra
       then emit (Log DEBUG "Ignoring extra columns: %s" [ArgStr (join ", " extra)])
       else ret tt) ;;;
      features <- lift (getitem_list frame (_expected_columns self)) ;;
      let features := replace_blank features in
      features <- lift (coerce_dtypes (_dtype_map self) features) ;;
      if any_null features then
        raise (ValidationError "Input payload contains missing values.")
      else
        identifiers <- lift (getitem frame (_id_column self)) ;;
        if existsb isnull identifiers then
          raise (ValidationError "Identifier column contains missing values.")
        else
          ret (features, astype_str float_repr identifiers).

(** *** [_predict_proba], [predict_proba], [score] *)

Definition _predict_proba (self : CreditDefaultModel) (features : DataFrame)
  : M FloatSeries :=
  emit (PredictProba features) ;;;
  probabilities <- lift (_estimator self features) ;;
  lift (let? column := take_column_1 probabilities in
        Series_of_array column (index features)).

(** [pd.Series(series, index=index)] from a Series: pandas realigns on the
    labels, which leaves a Series that already carries [index] as it is;
    a label that the Series lacks reads NaN. *)
Fixpoint label_lookup (l : Z) (idx : list Z) (v : list float) : float :=
  match idx, v with
  | i :: idx', x :: v' => if Z.eqb l i then x else label_lookup l idx' v'
  | _, _ => PrimFloat.nan
  end.

Definition Series_reindex (s : FloatSeries) (idx : list Z) : FloatSeries :=
  if list_eq_dec Z.eq_dec (p_index s) idx then s
  else mkFloatSeries idx (map (fun l => label_lookup l (p_index s) (p_values s)) idx).

Definition predict_proba (self : CreditDefaultModel) (frame : DataFrame)
  : M FloatSeries :=
  fi <- _prepare_features self frame ;;
  let features := fst fi in
  probabilities <- _predict_proba self features ;;
  ret (Series_reindex probabilities (index features)).

(** [score]: the identifiers and the probabilities both carry the index
    of the features, so the frame is built column by column on it. *)
Definition score (self : CreditDefaultModel) (frame : DataFrame) : M ScoredFrame :=
  fi <- _prepare_features self frame ;;
  let features := fst fi in
  let identifiers := snd fi in
  probabilities <- _predict_proba self features ;;
  let probabilities := Series_reindex probabilities (index features) in
  let result_id := astype_str float_repr identifiers in
  let result_probability := p_values probabilities in
  ret (mkScored (index features) result_id result_probability
                (map (fun p => float_ge p (_threshold self)) result_probability)).

End Model.

(** ** [PredictionService] *)

(** [app.core.config.Settings], as far as the service reads it. *)
Record Settings : Type := mkAppSettings {
  max_batch_rows : Z
}.

Record PredictionService : Type := mkService {
  _model : CreditDefaultModel
}.

(** The dictionary [predict_single] returns; [r_id] is [None] when the key
    is left out. *)
Record Prediction : Type := mkPrediction {
  r_probability : float;
  r_is_default : bool;
  r_threshold : float;
  r_id : option string
}.

(** The two [except] clauses around the call of [score]: a validation
    error is re-raised as [PredictionError] with the same text, any other
    model error is logged and re-raised, everything else passes through. *)
Definition except_model_errors {A} (what : string) (m : M A) : M A :=
  match m with
  | (tr, Raise (ValidationError msg)) =>
      (tr, Raise (PredictionError (str_exn (ValidationError msg))))
  | (tr, Raise (ModelError msg)) =>
      (tr ++ [Log EXCEPTION what []], Raise (ModelError msg))
  | _ => m
  end.

(** [range(n)] as index labels. *)
Fixpoint range_from (start : Z) (n : nat) : list Z :=
  match n with
  | O => []
  | S n' => start :: range_from (start + 1) n'
  end.

Definition RangeIndex (n : nat) : list Z := range_from 0 n.

(** [scored.reset_index(drop=True)] *)
Definition reset_index (s : ScoredFrame) : ScoredFrame :=
  mkScored (RangeIndex (List.length (s_index s))) (id s) (probability s) (is_default s).

Section Service.

Variable floatify : string -> option number.
Variable float_repr : float -> string.

(** The readers of pandas and the lower-cased suffix of a file name
    ([Path(filename).suffix.lower()]) are taken as they are. *)
Variable read_csv : string -> result DataFrame.
Variable read_excel : string -> result DataFrame.
Variable suffix_lower : string -> string.

Variable settings : Settings.

(** [pd.DataFrame([payload])]: one row, one column per key. *)
Definition frame_of_payload (payload : list (string * cell)) : DataFrame :=
  mkDataFrame [0] (map (fun kv => (fst kv, [snd kv])) payload).

Definition threshold (self : PredictionService) : float := _threshold (_model self).

Definition service_init (m : CreditDefaultModel) : M PredictionService :=
  let self := mkService m in
  emit (Log INFO "PredictionService initialised using threshold %.4f"
            [ArgFloat (threshold self)]) ;;;
  ret self.

Definition predict_single (self : PredictionService) (payload : list (string * cell))
  : M Prediction :=
  let frame := frame_of_payload payload in
  scored <- except_model_errors "Model failed to process single payload."
              (score floatify float_repr (_model self) frame) ;;
  match probability scored, is_default scored with
  | p :: _, d :: _ =>
      ret (mkPrediction p d (threshold self)
             (match id scored with
              | c :: _ => if isnull c then None else Some (str_cell float_repr c)
              | [] => None
              end))
  | _, _ => raise (IndexError "single positional indexer is out-of-bounds")
  end.

Definition _read_input_file (file_bytes filename : string) : result DataFrame :=
  let extension := suffix_lower filename in
  if String.eqb extension ".csv" then read_csv file_bytes
  else if String.eqb extension ".xls" then read_excel file_bytes
  else Raise (PredictionError "Only CSV and XLS files are supported.").

Definition batch_too_large_message (rows : nat) : string :=
  "Batch size " +++ str_int (Z.of_nat rows) +++ " exceeds limit of "
    +++ str_int (max_batch_rows settings) +++ " rows.".

Definition predict_batch (self : PredictionService) (file_bytes filename : string)
  : M ScoredFrame :=
  dataframe <- lift (_read_input_file file_bytes filename) ;;
  if Z.of_nat (len dataframe) >? max_batch_rows settings then
    raise (PredictionError (batch_too_large_message (len dataframe)))
  else
    scored <- except_model_errors "Model failed to process batch payload."
                (score floatify float_repr (_model self) dataframe) ;;
    ret (reset_index scored).

End Service.

(** [get_prediction_service]: the module-level [_SERVICE_INSTANCE] is passed
    in and handed back; the service is built, from the artifacts on disk,
    only when there is none yet. *)
Definition get_prediction_service (settings : ModelSettings) (disk : Artifacts)
           (_SERVICE_INSTANCE : option PredictionService)
  : M (option PredictionService * PredictionService) :=
  match _SERVICE_INSTANCE with
  | Some service => ret (Some service, service)
  | None =>
      model <- init settings disk ;;
      service <- service_init model ;;
      ret (Some service, service)
  end.

(** ** Notions for the statements *)

(** [sub in s] on strings. *)
Definition contains (s sub : string) : Prop :=
  exists pre post, s = pre +++ sub +++ post.

(** The exceptions that come out of pandas and numpy. *)
Definition library_error (e : exn) : bool :=
  match e with
  | KeyError _ | IndexError _ | ValueError _ | IntCastingNaNError _ => true
  | _ => false
  end.

(** The texts of three validation errors. *)
Definition unsupported_dtype_message (dtype column : string) : string :=
  "Unsupported dtype '" +++ dtype +++ "' for column '" +++ column +++ "'.".

Definition missing_identifier_message (self : CreditDefaultModel) : string :=
  "Missing identifier column: " +++ _id_column self +++ ".".

Definition missing_columns_message (missing : list string) : string :=
  "Missing columns: " +++ join ", " missing +++ ".".

(** A cell that is a null once blanks have been replaced. *)
Definition null_or_blank (c : cell) : bool :=
  match c with
  | Str s => blank s
  | _ => isnull c
  end.

(** Column [col] of the frame holds a null. *)
Definition has_null (col : string) (frame : DataFrame) : Prop :=
  exists cells, lookup col (data frame) = Some cells /\ existsb isnull cells = true.

(** A converted element that is NaN. *)
Definition number_is_nan (n : number) : bool :=
  match n with NInt _ => false | NFloat f => PrimFloat.is_nan f end.

(** The frame with one more column at its right end. *)
Definition with_column (frame : DataFrame) (col : string) (cells : Series) : DataFrame :=
  mkDataFrame (index frame) (data frame ++ [(col, cells)]).

(** The model with another dtype map. *)
Definition with_dtype_map (self : CreditDefaultModel) (dtype_map : list (string * string))
  : CreditDefaultModel :=
  mkModel (_estimator self) (_expected_columns self) dtype_map
          (_threshold self) (_id_column self).

(** The probability column of a scored frame, as a Series on its index. *)
Definition probability_series (scored : ScoredFrame) : FloatSeries :=
  mkFloatSeries (s_index scored) (probability scored).

(** Every cell is a string. *)
Definition all_str (s : Series) : Prop := Forall (fun c => exists t, c = Str t) s.

Section Outcomes.

Variable floatify : string -> option number.
Variable float_repr : float -> string.

(** The outcome of [_prepare_features], without its trace: the checks in
    the order of the method. *)
Definition prepare_outcome (self : CreditDefaultModel) (frame : DataFrame)
  : result (DataFrame * Series) :=
  if negb (mem (_id_column self) (columns frame)) then
    Raise (ValidationError ("Missing identifier column: " +++ _id_column self +++ "."))
  else if mem "default" (columns frame) then
    Raise (ValidationError "Column 'default' is not allowed in inference payloads.")
  else if nonempty (missing_columns self frame) then
    Raise (ValidationError
             ("Missing columns: " +++ join ", " (missing_columns self frame) +++ "."))
  else
    let? projected := getitem_list frame (_expected_columns self) in
    let? features := coerce_dtypes floatify (_dtype_map self) (replace_blank projected) in
    if any_null features then
      Raise (ValidationError "Input payload contains missing values.")
    else
      let? identifiers := getitem frame (_id_column self) in
      if existsb isnull identifiers then
        Raise (ValidationError "Identifier column contains missing values.")
      else Ok (features, astype_str float_repr identifiers).

(** The outcome of [_predict_proba]. *)
Definition proba_outcome (self : CreditDefaultModel) (features : DataFrame)
  : result FloatSeries :=
  let? probabilities := _estimator self features in
  let? column := take_column_1 probabilities in
  Series_of_array column (index features).

(** The outcome of [score]. *)
Definition score_outcome (self : CreditDefaultModel) (frame : DataFrame)
  : result ScoredFrame :=
  let? fi := prepare_outcome self frame in
  let? probabilities := proba_outcome self (fst fi) in
  Ok (mkScored (index (fst fi)) (astype_str float_repr (snd fi)) (p_values probabilities)
               (map (fun p => float_ge p (_threshold self)) (p_values probabilities))).

End Outcomes.

(** ** A concrete instance: the scenario of the specification *)

Module Scenario.

(** A fragment of the number tokenizer, enough for the examples: an
    optional minus sign followed by decimal digits reads as an integer,
    anything else is not a number. *)
Fixpoint digits_value (s : string) (acc : Z) : option Z :=
  match s with
  | EmptyString => Some acc
  | String a s' =>
      let n := nat_of_ascii a in
      if ((48 <=? n) && (n <=? 57))%nat
      then digits_value s' (10 * acc + Z.of_nat (n - 48))
      else None
  end.

Definition floatify (s : string) : option number :=
  match s with
  | EmptyString => None
  | String a s' =>
      if Ascii.eqb a "-"%char then
        match s' with
        | EmptyString => None
        | _ => option_map (fun z => NInt (- z)) (digits_value s' 0)
        end
      else option_map NInt (digits_value s 0)
  end.

(** [repr] restricted to the floats that hold an integer of magnitude below
    10^16, the ones an identifier column read as float64 holds; any other
    float is rendered as NaN is. *)
Definition float_repr (f : float) : string :=
  if isfinite f && PrimFloat.eqb (float_of_int64 (int64_of_float f)) f
     && (Z.abs (int64_of_float f) <? 10 ^ 16)
  then str_int (int64_of_float f) +++ ".0"
  else "nan".

(** An estimator that answers every row with the pair (0.27, 0.73). *)
Definition binary_estimator : Estimator :=
  fun features => Ok (Array2 2 (map (fun _ => [0.27%float; 0.73%float]) (index features))).

(** One with three classes, and one with a single output column. *)
Definition three_class_estimator : Estimator :=
  fun features =>
    Ok (Array2 3 (map (fun _ => [0.2%float; 0.3%float; 0.5%float]) (index features))).

Definition one_column_estimator : Estimator :=
  fun features => Ok (Array2 1 (map (fun _ => [0.73%float]) (index features))).

Definition model_settings : ModelSettings :=
  mkSettings "models/cat_model_v1.0.0.pkl"
             "models/cat_model_v1.0.0_input_signature.json"
             "models/cat_model_v1.0.0_metadata.json"
             "ID".

(** Expected columns LIMIT_BAL and AGE, declared float and int; no
    [id_name]; threshold 0.5. *)
Definition signature : SignatureJson :=
  mkSignature (Some ["LIMIT_BAL"; "AGE"])
              (Some [("LIMIT_BAL", "float"); ("AGE", "int")])
              None.

Definition disk (est : Estimator) : Artifacts :=
  mkArtifacts (Some est) (Some signature) (Some (mkMetadata (Some 0.5%float))).

Definition model_with (est : Estimator) : CreditDefaultModel :=
  mkModel est ["LIMIT_BAL"; "AGE"] [("LIMIT_BAL", "float"); ("AGE", "int")]
          0.5%float "ID".

Definition model : CreditDefaultModel := model_with binary_estimator.

(** The single row [{ID: 1001, LIMIT_BAL: '200000', AGE: '35'}]. *)
Definition payload : list (string * cell) :=
  [("ID", Int 1001); ("LIMIT_BAL", Str "200000"); ("AGE", Str "35")].

(** A batch of two rows. *)
Definition batch : DataFrame :=
  mkDataFrame [0; 1]
    [("ID", [Int 1001; Int 1002]);
     ("LIMIT_BAL", [Int 200000; Int 50000]);
     ("AGE", [Int 35; Int 41])].

(** The same batch, the second row with an empty AGE. *)
Definition batch_empty_age : DataFrame :=
  mkDataFrame [0; 1]
    [("ID", [Int 1001; Int 1002]);
     ("LIMIT_BAL", [Int 200000; Int 50000]);
     ("AGE", [Int 35; Str EmptyString])].

(** The batch with a first AGE that is not a number. *)
Definition batch_bad_age : DataFrame :=
  mkDataFrame [0; 1]
    [("ID", [Int 1001; Int 1002]);
     ("LIMIT_BAL", [Int 200000; Int 50000]);
     ("AGE", [Str "abc"; Int 41])].

(** Signatures that declare more than the two features: a dtype for a
    column NOTE that is not expected, and a dtype that is not supported
    for AGE. *)
Definition dtypes_with_note : list (string * string) :=
  [("LIMIT_BAL", "float"); ("AGE", "int"); ("NOTE", "string")].

Definition dtypes_string_age : list (string * string) :=
  [("LIMIT_BAL", "float"); ("AGE", "string")].

(** A frame of 60001 rows without any column. *)
Definition oversized : DataFrame := mkDataFrame (RangeIndex (Z.to_nat 60001)) [].

End Scenario.

(** ** The HTTP controllers *)

(** How an endpoint ends: the body of the 200 response, or the
    [HTTPException] it raised. *)
Inductive reply (A : Type) : Type :=
| Reply (body : A)
| HTTPException (status_code : Z) (detail : string).
Arguments Reply {A} body.
Arguments HTTPException {A} status_code detail.

(** What an endpoint emits: the events of the service it called, its own
    [LOGGER.exception] record among them, and its [LOGGER.warning] records. *)
Inductive http_event : Type :=
| Emitted (ev : event)
| LogWarning (fmt : string) (args : list log_arg).

(** The [StreamingResponse] of the batch endpoint. *)
Record StreamingResponse : Type := mkStreamingResponse {
  media_type : string;
  content_disposition : string;
  content : string
}.

(** The two [except] clauses of an endpoint: a [PredictionError] is logged
    as a warning and becomes a 422 whose detail is its text; any other
    exception is logged and becomes a 500 with a fixed detail. *)
Definition except_http {A} (rejected unexpected failed : string) (m : M A)
  : list http_event * reply A :=
  match m with
  | (tr, Ok a) => (map Emitted tr, Reply a)
  | (tr, Raise (PredictionError msg)) =>
      (map Emitted tr ++ [LogWarning rejected [ArgStr (str_exn (PredictionError msg))]],
       HTTPException 422 (str_exn (PredictionError msg)))
  | (tr, Raise _) =>
      (map Emitted tr ++ [Emitted (Log EXCEPTION unexpected [])],
       HTTPException 500 failed)
  end.

(** [x or default] on an optional string. *)
Definition or_default (o : option string) (default : string) : string :=
  match o with
  | Some s => if String.eqb s EmptyString then default else s
  | None => default
  end.

Module Controller.

Section Endpoints.

Variable floatify : string -> option number.
Variable float_repr : float -> string.
Variable read_csv : string -> result DataFrame.
Variable read_excel : string -> result DataFrame.
Variable suffix_lower : string -> string.
Variable settings : Settings.

(** [DataFrame.to_csv(buffer, index=False)] is taken as it is. *)
Variable to_csv : ScoredFrame -> string.

(** [POST /predictions]: [payload] is the dictionary that
    [payload.model_dump()] yields. *)
Definition predict_single (service : PredictionService) (payload : list (string * cell))
  : list http_event * reply Prediction :=
  except_http "Single prediction rejected: %s"
              "Unexpected error during single prediction."
              "Prediction failed."
              (predict_single floatify float_repr service payload).

(** [POST /predictions/batch]: [file_bytes] is what [file.read()] returns,
    [filename] is [file.filename], and [utcnow] is the clock reading
    [datetime.utcnow().strftime("%Y%m%dT%H%M%S")], taken when the scoring is
    over. *)
Definition predict_batch (service : PredictionService) (file_bytes : string)
           (filename : option string) (utcnow : string)
  : list http_event * reply StreamingResponse :=
  except_http "Batch prediction rejected: %s"
              "Unexpected error during batch prediction."
              "Batch prediction failed."
              (dataframe <- predict_batch floatify float_repr read_csv read_excel
                                          suffix_lower settings service file_bytes
                                          (or_default filename "batch.csv") ;;
               let timestamp := utcnow in
               let name := "predictions_" +++ timestamp +++ ".csv" in
               ret (mkStreamingResponse
                      "text/csv"
                      ("attachment; filename=" +++ dquote +++ name +++ dquote)
                      (to_csv dataframe))).

End Endpoints.

End Controller.

(** ** More notions for the statements *)

(** The event is a call of the estimator. *)
Definition is_PredictProba (ev : event) : bool :=
  match ev with
  | PredictProba _ => true
  | Log _ _ _ => false
  end.


(** What the cells of a coerced column are, by declared dtype. *)
Definition is_Int (c : cell) : Prop := exists z, c = Int z.
Definition is_Float (c : cell) : Prop := exists f, c = Float f.

Definition typed (dtype : string) (cells : Series) : Prop :=
  if startswith dtype "int" then Forall is_Int cells
  else if startswith dtype "float" then Forall is_Float cells
  else True.

(** A frame without rows: no index label and no cell. *)
Definition empty_frame (frame : DataFrame) : Prop :=
  index frame = [] /\ Forall (fun kv => snd kv = []) (data frame).

(** The declared dtype is one the loop handles. *)
Definition supported (dtype : string) : bool :=
  startswith dtype "int" || startswith dtype "float" || String.eqb dtype "category".


Section LoopBody.

Variable floatify : string -> option number.

(** What one turn of the loop of [_prepare_features] makes of the cells of
    a column, by the dtype declared for it. *)
Definition coerce_column (column dtype : string) (values : Series) : result Series :=
  if startswith dtype "int" then
    let? numeric := to_numeric floatify values in
    let? ints := astype_int64 numeric in
    Ok (map Int ints)
  else if startswith dtype "float" then
    let? numeric := to_numeric floatify values in
    Ok (map Float (astype_float64 numeric))
  else if String.eqb dtype "category" then Ok (astype_category values)
  else Raise (ValidationError (unsupported_dtype_message dtype column)).

End LoopBody.

(** A cell is kept, or gives way to a null or to a blank string. *)
Definition kept_or_blanked (old new : cell) : Prop :=
  new = old \/ null_or_blank new = true.

(** * Properties *)

(** ** The run of a method, taken apart *)

Lemma outcome_bind {A B} (m : M A) (k : A -> M B) :
  outcome (bind m k) = rbind (outcome m) (fun a => outcome (k a)).
Proof.
  destruct m as [tr [a | e]]; simpl; [ destruct (k a) | ]; reflexivity.
Qed.

Lemma trace_bind_silent {A B} (m : M A) (k : A -> M B) :
  (forall a, trace (k a) = []) -> trace (bind m k) = trace m.
Proof.
  intros Hk; destruct m as [tr [a | e]]; cbn [bind trace fst]; [ | reflexivity ].
  specialize (Hk a); destruct (k a) as [tr' r]; cbn [trace fst] in *; subst.
  apply app_nil_r.
Qed.

(** Closes a goal which says that a computation without [emit] has an
    empty trace. *)
Ltac silent :=
  repeat first
    [ reflexivity
    | rewrite trace_bind_silent; [ reflexivity | intros ]
    | match goal with
      | |- context [if ?b then _ else _] => destruct b
      end ].

Lemma rbind_ok_inv {A B} (r : result A) (k : A -> result B) (b : B) :
  rbind r k = Ok b -> exists a, r = Ok a /\ k a = Ok b.
Proof.
  destruct r as [a | e]; simpl; [ eauto | discriminate ].
Qed.

Lemma mem_In (col : string) (names : list string) :
  mem col names = true <-> In col names.
Proof.
  unfold mem; rewrite existsb_exists; split.
  - intros [x [Hin Heq]]; apply String.eqb_eq in Heq; subst; assumption.
  - intros Hin; exists col; split; [ assumption | apply String.eqb_refl ].
Qed.

Lemma nonempty_false {A} (l : list A) : nonempty l = false -> l = [].
Proof. destruct l; [ reflexivity | discriminate ]. Qed.

(** ** Frames: projection and assignment keep labels and index *)

Lemma getitem_data_columns (d : list (string * Series)) (cols : list string) d' :
  getitem_data d cols = Ok d' -> map fst d' = cols.
Proof.
  revert d'; induction cols as [| c cols IH]; simpl; intros d' H.
  - injection H as <-; reflexivity.
  - destruct (lookup c d) as [v |]; [ | discriminate ].
    destruct (getitem_data d cols) as [rest | e]; simpl in H; [ | discriminate ].
    injection H as <-; simpl; f_equal; apply IH; reflexivity.
Qed.

Lemma lookup_Some_mem (col : string) (d : list (string * Series)) :
  mem col (map fst d) = true -> exists v, lookup col d = Some v.
Proof.
  induction d as [| [k w] d IH]; simpl; [ discriminate | ].
  destruct (String.eqb col k); simpl; eauto.
Qed.


Lemma setitem_data_columns (d : list (string * Series)) (col : string) (v : Series) :
  mem col (map fst d) = true -> map fst (setitem_data d col v) = map fst d.
Proof.
  induction d as [| [k w] d IH]; simpl; [ discriminate | ].
  destruct (String.eqb col k); simpl; [ reflexivity | ].
  intros H; f_equal; apply IH; assumption.
Qed.

Lemma setitem_columns (frame : DataFrame) (col : string) (v : Series) :
  mem col (columns frame) = true -> columns (setitem frame col v) = columns frame.
Proof. apply setitem_data_columns. Qed.

Lemma replace_blank_columns (frame : DataFrame) :
  columns (replace_blank frame) = columns frame.
Proof.
  unfold columns, replace_blank; simpl; rewrite map_map; reflexivity.
Qed.

Section Pipeline.

Variable floatify : string -> option number.
Variable float_repr : float -> string.

Lemma coerce_dtypes_shape (dtype_map : list (string * string)) :
  forall features features',
    coerce_dtypes floatify dtype_map features = Ok features' ->
    columns features' = columns features /\ index features' = index features.
Proof.
  induction dtype_map as [| [column dtype] rest IH]; intros features features' H.
  - injection H as <-; split; reflexivity.
  - cbn [coerce_dtypes] in H.
    destruct (mem column (columns features)) eqn:Hmem; cbn [negb] in H;
      [ | apply IH; assumption ].
    destruct (startswith dtype "int").
    { apply rbind_ok_inv in H as [values [_ H]].
      apply rbind_ok_inv in H as [numeric [_ H]].
      apply rbind_ok_inv in H as [ints [_ H]].
      apply IH in H as [Hc Hi]; rewrite Hc, Hi, setitem_columns by assumption.
      split; reflexivity. }
    destruct (startswith dtype "float").
    { apply rbind_ok_inv in H as [values [_ H]].
      apply rbind_ok_inv in H as [numeric [_ H]].
      apply IH in H as [Hc Hi]; rewrite Hc, Hi, setitem_columns by assumption.
      split; reflexivity. }
    destruct (String.eqb dtype "category"); [ | discriminate ].
    apply rbind_ok_inv in H as [values [_ H]].
    apply IH in H as [Hc Hi]; rewrite Hc, Hi, setitem_columns by assumption.
    split; reflexivity.
Qed.

Lemma outcome_prepare_features (self : CreditDefaultModel) (frame : DataFrame) :
  outcome (_prepare_features floatify float_repr self frame) = prepare_outcome floatify float_repr self frame.
Proof.
  unfold _prepare_features, prepare_outcome.
  destruct (negb (mem (_id_column self) (columns frame))); [ reflexivity | ].
  destruct (mem "default" (columns frame)); [ reflexivity | ].
  destruct (nonempty (missing_columns self frame)); [ reflexivity | ].
  rewrite outcome_bind.
  assert (Hlog : outcome
            (if nonempty (extra_columns self frame)
             then emit (Log DEBUG "Ignoring extra columns: %s"
                            [ArgStr (join ", " (extra_columns self frame))])
             else ret tt) = Ok tt)
    by (destruct (nonempty (extra_columns self frame)); reflexivity).
  rewrite Hlog; cbn [rbind].
  rewrite outcome_bind; cbn [outcome lift snd].
  destruct (getitem_list frame (_expected_columns self)) as [projected | e];
    cbn [rbind]; [ | reflexivity ].
  rewrite outcome_bind; cbn [outcome lift snd].
  destruct (coerce_dtypes floatify (_dtype_map self) (replace_blank projected))
    as [features | e]; cbn [rbind]; [ | reflexivity ].
  destruct (any_null features); [ reflexivity | ].
  rewrite outcome_bind; cbn [outcome lift snd].
  destruct (getitem frame (_id_column self)) as [identifiers | e];
    cbn [rbind]; [ | reflexivity ].
  destruct (existsb isnull identifiers); reflexivity.
Qed.

Lemma outcome__predict_proba (self : CreditDefaultModel) (features : DataFrame) :
  outcome (_predict_proba self features) = proba_outcome self features.
Proof.
  unfold _predict_proba, proba_outcome.
  rewrite outcome_bind; cbn [outcome emit snd rbind].
  rewrite outcome_bind; cbn [outcome lift snd].
  destruct (_estimator self features); reflexivity.
Qed.

Lemma Series_of_array_index (values : list float) (idx : list Z) (s : FloatSeries) :
  Series_of_array values idx = Ok s ->
  p_index s = idx /\ p_values s = values /\ List.length values = List.length idx.
Proof.
  unfold Series_of_array.
  destruct (Nat.eqb_spec (List.length values) (List.length idx)); [ | discriminate ].
  intros H; injection H as <-; auto.
Qed.

Lemma Series_reindex_same (s : FloatSeries) : Series_reindex s (p_index s) = s.
Proof.
  unfold Series_reindex.
  destruct (list_eq_dec Z.eq_dec (p_index s) (p_index s)); [ reflexivity | contradiction ].
Qed.

Lemma proba_outcome_inv (self : CreditDefaultModel) (features : DataFrame) s :
  proba_outcome self features = Ok s ->
  exists a column,
    _estimator self features = Ok a /\ take_column_1 a = Ok column /\
    s = mkFloatSeries (index features) column /\
    List.length column = len features.
Proof.
  unfold proba_outcome; intros H.
  apply rbind_ok_inv in H as [a [Ha H]].
  apply rbind_ok_inv in H as [column [Hc H]].
  exists a, column; repeat split; try assumption.
  - apply Series_of_array_index in H as [Hi [Hv _]].
    destruct s; simpl in *; subst; reflexivity.
  - apply Series_of_array_index in H as [_ [_ Hl]]; exact Hl.
Qed.

Lemma outcome_score (self : CreditDefaultModel) (frame : DataFrame) :
  outcome (score floatify float_repr self frame) = score_outcome floatify float_repr self frame.
Proof.
  unfold score, score_outcome.
  rewrite outcome_bind, outcome_prepare_features.
  destruct (prepare_outcome floatify float_repr self frame) as [fi | e]; cbn [rbind]; [ | reflexivity ].
  rewrite outcome_bind, outcome__predict_proba.
  destruct (proba_outcome self (fst fi)) as [s | e] eqn:Hs; cbn [rbind]; [ | reflexivity ].
  apply proba_outcome_inv in Hs as [a [column [_ [_ [-> _]]]]].
  change (index (fst fi)) with (p_index (mkFloatSeries (index (fst fi)) column)) at 1.
  rewrite Series_reindex_same; reflexivity.
Qed.

End Pipeline.

Lemma outcome_except_ok {A} (what : string) (m : M A) (a : A) :
  outcome (except_model_errors what m) = Ok a <-> outcome m = Ok a.
Proof.
  destruct m as [tr [x | e]]; simpl; [ tauto | ].
  destruct e; simpl; split; discriminate.
Qed.

Lemma init_ok_inv (settings : ModelSettings) (disk : Artifacts) (self : CreditDefaultModel) :
  outcome (init settings disk) = Ok self ->
  exists est sg md,
    estimator_file disk = Some est /\ signature_file disk = Some sg /\
    metadata_file disk = Some md /\
    md_threshold md = Some (_threshold self) /\
    _estimator self = est /\
    _expected_columns self = get_default (sig_expected_columns sg) [] /\
    _dtype_map self = get_default (sig_dtypes sg) [] /\
    _id_column self = id_name_or (sig_id_name sg) (id_column_name settings).
Proof.
  unfold init; destruct disk as [[est |] [sg |] [[[t |]] |]]; simpl; try discriminate.
  intros H; injection H as <-; simpl.
  exists est, sg, (mkMetadata (Some t)); repeat split; reflexivity.
Qed.

Section Scoring.

Variable floatify : string -> option number.
Variable float_repr : float -> string.

Lemma score_ok_inv (self : CreditDefaultModel) (frame : DataFrame) (scored : ScoredFrame) :
  outcome (score floatify float_repr self frame) = Ok scored ->
  exists features identifiers a column,
    prepare_outcome floatify float_repr self frame = Ok (features, identifiers) /\
    _estimator self features = Ok a /\
    take_column_1 a = Ok column /\
    List.length column = len features /\
    scored = mkScored (index features) (astype_str float_repr identifiers) column
               (map (fun p => float_ge p (_threshold self)) column).
Proof.
  rewrite outcome_score; unfold score_outcome; intros H.
  apply rbind_ok_inv in H as [[features identifiers] [Hp H]].
  apply rbind_ok_inv in H as [s [Hs H]]; cbn [fst snd] in *.
  apply proba_outcome_inv in Hs as [a [column [Ha [Hc [-> Hl]]]]].
  injection H as <-.
  exists features, identifiers, a, column; repeat split; assumption.
Qed.

(** C1.  A model that [__init__] loaded carries the threshold of the
    metadata document; in every frame it scores, the [is_default] column is
    the probability column compared, row by row, with [>=] against that
    threshold; the record [predict_single] returns has the same threshold
    and the flag [probability >= threshold]; and the service singleton,
    once built around that model, is the one every later request gets. *)
Theorem score_is_default_ge_threshold :
  forall (settings : ModelSettings) (disk : Artifacts) (self : CreditDefaultModel),
    outcome (init settings disk) = Ok self ->
    (exists metadata, metadata_file disk = Some metadata /\
                      md_threshold metadata = Some (_threshold self)) /\
    (forall frame scored,
        outcome (score floatify float_repr self frame) = Ok scored ->
        is_default scored
        = map (fun p => float_ge p (_threshold self)) (probability scored)) /\
    (forall payload r,
        outcome (predict_single floatify float_repr (mkService self) payload) = Ok r ->
        r_threshold r = _threshold self /\
        r_is_default r = float_ge (r_probability r) (r_threshold r)) /\
    (forall instance state service,
        outcome (get_prediction_service settings disk instance) = Ok (state, service) ->
        state = Some service /\
        (instance = None -> _model service = self) /\
        (forall known, instance = Some known -> service = known)).
Proof.
  intros settings disk self Hinit.
  pose proof Hinit as Hloaded.
  apply init_ok_inv in Hinit as [est [sg [md [_ [_ [Hmd [Ht _]]]]]]].
  split; [ exists md; split; assumption | split; [ | split ] ].
  - intros frame scored H.
    apply score_ok_inv in H as [f [i [a [column [_ [_ [_ [_ ->]]]]]]]]; reflexivity.
  - intros payload r H; unfold predict_single in H.
    rewrite outcome_bind in H; apply rbind_ok_inv in H as [scored [Hs H]].
    apply outcome_except_ok, score_ok_inv in Hs
      as [f [i [a [column [_ [_ [_ [_ ->]]]]]]]].
    cbn [probability is_default id] in H.
    destruct column as [| p column]; cbn [map] in H; [ discriminate | ].
    injection H as <-; split; reflexivity.
  - intros [known |] state service H.
    + cbn in H; injection H as <- <-.
      split; [ reflexivity | split; [ discriminate | ] ].
      intros k Hk; injection Hk as <-; reflexivity.
    + unfold get_prediction_service in H.
      rewrite outcome_bind, Hloaded in H; cbn in H; injection H as <- <-.
      split; [ reflexivity | split; [ reflexivity | discriminate ] ].
Qed.

End Scoring.

(** The scenario of the specification: the loaded model scores the row
    with probability 0.73, which is at least 0.5. *)
Lemma score_is_default_ge_threshold_scenario :
  (exists metadata,
      metadata_file (Scenario.disk Scenario.binary_estimator) = Some metadata /\
      md_threshold metadata = Some 0.5%float) /\
  is_default {| s_index := [0]; id := [Str "1001"];
                probability := [0.73%float]; is_default := [true] |}
  = [float_ge 0.73%float 0.5%float] /\
  (r_threshold (mkPrediction 0.73%float true 0.5%float (Some "1001")) = 0.5%float /\
   true = float_ge 0.73%float 0.5%float).
Proof.
  pose proof (score_is_default_ge_threshold Scenario.floatify Scenario.float_repr
                Scenario.model_settings (Scenario.disk Scenario.binary_estimator)
                Scenario.model eq_refl) as [Hmd [Hscore [Hsingle _]]].
  split; [ exact Hmd | split ].
  - exact (Hscore (frame_of_payload Scenario.payload) _ eq_refl).
  - exact (Hsingle Scenario.payload _ eq_refl).
Defined.

(** ** What an accepted payload went through *)

Lemma lookup_In (col : string) (d : list (string * Series)) (v : Series) :
  lookup col d = Some v -> In (col, v) d.
Proof.
  induction d as [| [k w] d IH]; simpl; [ discriminate | ].
  destruct (String.eqb_spec col k) as [-> | _].
  - intros H; injection H as ->; left; reflexivity.
  - intros H; right; apply IH; assumption.
Qed.

Lemma getitem_length (frame : DataFrame) (col : string) (v : Series) :
  wf_frame frame -> getitem frame col = Ok v -> List.length v = len frame.
Proof.
  unfold wf_frame, getitem; intros Hwf H.
  destruct (lookup col (data frame)) as [w |] eqn:Hl; [ | discriminate ].
  injection H as ->; apply lookup_In in Hl.
  rewrite Forall_forall in Hwf; exact (Hwf _ Hl).
Qed.

Lemma getitem_list_shape (frame projected : DataFrame) (cols : list string) :
  getitem_list frame cols = Ok projected ->
  columns projected = cols /\ index projected = index frame.
Proof.
  unfold getitem_list; intros H; apply rbind_ok_inv in H as [d [Hd H]].
  injection H as <-; split; [ apply (getitem_data_columns _ _ _ Hd) | reflexivity ].
Qed.

Section Validation.

Variable floatify : string -> option number.
Variable float_repr : float -> string.

Lemma astype_str_idempotent (s : Series) :
  astype_str float_repr (astype_str float_repr s) = astype_str float_repr s.
Proof. unfold astype_str; rewrite map_map; reflexivity. Qed.

Lemma prepare_outcome_ok_inv (self : CreditDefaultModel) (frame features : DataFrame)
      (identifiers : Series) :
  prepare_outcome floatify float_repr self frame = Ok (features, identifiers) ->
  mem (_id_column self) (columns frame) = true /\
  mem "default" (columns frame) = false /\
  missing_columns self frame = [] /\
  exists projected raw,
    getitem_list frame (_expected_columns self) = Ok projected /\
    coerce_dtypes floatify (_dtype_map self) (replace_blank projected) = Ok features /\
    any_null features = false /\
    getitem frame (_id_column self) = Ok raw /\
    existsb isnull raw = false /\
    identifiers = astype_str float_repr raw.
Proof.
  unfold prepare_outcome.
  destruct (mem (_id_column self) (columns frame)); cbn [negb]; [ | discriminate ].
  destruct (mem "default" (columns frame)); [ discriminate | ].
  destruct (nonempty (missing_columns self frame)) eqn:Hm; [ discriminate | ].
  apply nonempty_false in Hm; intros H.
  apply rbind_ok_inv in H as [projected [Hp H]].
  apply rbind_ok_inv in H as [feats [Hc H]].
  destruct (any_null feats) eqn:Hn; [ discriminate | ].
  apply rbind_ok_inv in H as [raw [Hr H]].
  destruct (existsb isnull raw) eqn:Hi; [ discriminate | ].
  injection H as <- <-.
  repeat split; try assumption; exists projected, raw; repeat split; assumption.
Qed.

Lemma prepare_outcome_shape (self : CreditDefaultModel) (frame features : DataFrame)
      (identifiers : Series) :
  prepare_outcome floatify float_repr self frame = Ok (features, identifiers) ->
  columns features = _expected_columns self /\ index features = index frame.
Proof.
  intros H.
  apply prepare_outcome_ok_inv in H
    as [_ [_ [_ [projected [raw [Hp [Hc _]]]]]]].
  apply coerce_dtypes_shape in Hc as [Hcols Hidx].
  apply getitem_list_shape in Hp as [Hpc Hpi].
  rewrite Hcols, Hidx, replace_blank_columns; cbn [replace_blank index].
  split; assumption.
Qed.

(** C2.  On a well-formed batch, whatever [score] returns is a frame over
    the index of the input with one identifier, one probability and one flag
    per input row, the identifiers being those of the input, rendered by
    [str], in input order.  And [score] does return when the batch passes
    validation and the estimator answers with one row of at least two
    columns per feature row: the probabilities are then the second entries
    of these rows, in the estimator's order. *)
Theorem score_one_record_per_row_in_order :
  forall (self : CreditDefaultModel) (frame : DataFrame),
    wf_frame frame ->
    (forall scored,
        outcome (score floatify float_repr self frame) = Ok scored ->
        s_index scored = index frame /\
        List.length (id scored) = len frame /\
        List.length (probability scored) = len frame /\
        List.length (is_default scored) = len frame /\
        exists raw_ids,
          getitem frame (_id_column self) = Ok raw_ids /\
          id scored = map (fun c => Str (str_cell float_repr c)) raw_ids) /\
    (forall features identifiers ncols rows,
        outcome (_prepare_features floatify float_repr self frame)
        = Ok (features, identifiers) ->
        _estimator self features = Ok (Array2 ncols rows) ->
        (2 <= ncols)%nat ->
        List.length rows = len features ->
        exists scored,
          outcome (score floatify float_repr self frame) = Ok scored /\
          probability scored = map (fun r => nth 1 r PrimFloat.nan) rows).
Proof.
  intros self frame Hwf; split.
  - intros scored H.
    apply score_ok_inv in H
      as [features [identifiers [a [column [Hprep [_ [_ [Hlen ->]]]]]]]].
    pose proof (prepare_outcome_shape _ _ _ _ Hprep) as [_ Hidx].
    apply prepare_outcome_ok_inv in Hprep
      as [_ [_ [_ [projected [raw [_ [_ [_ [Hraw [_ ->]]]]]]]]]].
    assert (Hlen' : len features = len frame) by (unfold len; rewrite Hidx; reflexivity).
    cbn [s_index id probability is_default].
    rewrite astype_str_idempotent; unfold astype_str.
    rewrite !length_map, (getitem_length _ _ _ Hwf Hraw), Hlen, Hlen'.
    repeat split; try assumption; try reflexivity.
    exists raw; split; [ assumption | reflexivity ].
  - intros features identifiers ncols rows Hprep Hest Hn Hrows.
    rewrite outcome_prepare_features in Hprep.
    eexists; split.
    + rewrite outcome_score; unfold score_outcome, proba_outcome.
      rewrite Hprep; cbn [rbind fst snd]; rewrite Hest; cbn [rbind take_column_1].
      destruct (Nat.leb_spec ncols 1) as [Hle | _]; [ lia | ].
      cbn [rbind]; unfold Series_of_array.
      rewrite length_map, Hrows; fold (len features).
      rewrite Nat.eqb_refl; cbn [rbind p_values]; reflexivity.
    + reflexivity.
Qed.

End Validation.

(** The batch of two rows of the scenario: two records, in input order. *)
Lemma score_one_record_per_row_in_order_scenario :
  (s_index (mkScored [0; 1] [Str "1001"; Str "1002"] [0.73%float; 0.73%float]
                     [true; true]) = index Scenario.batch /\
   List.length [Str "1001"; Str "1002"] = len Scenario.batch /\
   List.length [0.73%float; 0.73%float] = len Scenario.batch /\
   List.length [true; true] = len Scenario.batch /\
   exists raw_ids,
     getitem Scenario.batch "ID" = Ok raw_ids /\
     [Str "1001"; Str "1002"]
     = map (fun c => Str (str_cell Scenario.float_repr c)) raw_ids) /\
  (exists scored,
      outcome (score Scenario.floatify Scenario.float_repr Scenario.model Scenario.batch)
      = Ok scored /\
      probability scored = [0.73%float; 0.73%float]).
Proof.
  assert (Hwf : wf_frame Scenario.batch) by (repeat constructor).
  pose proof (score_one_record_per_row_in_order Scenario.floatify Scenario.float_repr
                Scenario.model Scenario.batch Hwf) as [Hany Hreturns].
  split.
  - exact (Hany _ eq_refl).
  - refine (Hreturns _ _ 2%nat [[0.27%float; 0.73%float]; [0.27%float; 0.73%float]]
                     eq_refl eq_refl _ eq_refl).
    lia.
Defined.

(** ** Messages *)

Lemma append_nil_r (s : string) : s +++ EmptyString = s.
Proof. induction s as [| a s IH]; simpl; [ | rewrite IH ]; reflexivity. Qed.

Lemma append_assoc (s t u : string) : (s +++ t) +++ u = s +++ t +++ u.
Proof. induction s as [| a s IH]; simpl; [ | rewrite IH ]; reflexivity. Qed.

Lemma contains_wrap (s sub a b : string) :
  contains s sub -> contains (a +++ s +++ b) sub.
Proof.
  intros [pre [post ->]]; exists (a +++ pre), (post +++ b).
  rewrite !append_assoc; reflexivity.
Qed.

Lemma join_contains (sep : string) (xs : list string) (c : string) :
  In c xs -> contains (join sep xs) c.
Proof.
  unfold join; induction xs as [| x xs IH]; [ contradiction | ].
  intros [-> | Hin].
  - destruct xs as [| y xs]; cbn [concat].
    + exists EmptyString, EmptyString; rewrite append_nil_r; reflexivity.
    + exists EmptyString, (sep +++ concat sep (y :: xs)); reflexivity.
  - destruct xs as [| y xs]; [ contradiction | ].
    change (concat sep (x :: y :: xs)) with (x +++ sep +++ concat sep (y :: xs)).
    rewrite <- (append_nil_r (concat sep (y :: xs))), <- append_assoc.
    apply contains_wrap, IH, Hin.
Qed.

(** ** Which exceptions the coercion loop raises *)

Section Coercion.

Variable floatify : string -> option number.

Lemma maybe_convert_numeric_raise (values : Series) :
  forall pos e, maybe_convert_numeric floatify pos values = Raise e ->
                exists m, e = ValueError m.
Proof.
  induction values as [| c rest IH]; intros pos e; cbn [maybe_convert_numeric].
  - discriminate.
  - destruct (convert_cell floatify c) as [n |].
    + destruct (maybe_convert_numeric floatify (S pos) rest) as [ns | e'] eqn:Hr;
        cbn [rbind]; [ discriminate | ].
      intros H; injection H as <-; eapply IH; eassumption.
    + intros H; injection H as <-; eauto.
Qed.

Lemma to_numeric_raise (values : Series) (e : exn) :
  to_numeric floatify values = Raise e -> exists m, e = ValueError m.
Proof.
  unfold to_numeric.
  destruct (maybe_convert_numeric floatify 0 values) as [ns | e'] eqn:H;
    cbn [rbind]; [ discriminate | ].
  intros H'; injection H' as <-; eapply maybe_convert_numeric_raise; eassumption.
Qed.

Lemma astype_int64_raise (c : numeric_column) (e : exn) :
  astype_int64 c = Raise e -> exists m, e = IntCastingNaNError m.
Proof.
  destruct c as [v | v]; cbn [astype_int64]; [ discriminate | ].
  destruct (forallb isfinite v); [ discriminate | ].
  intros H; injection H as <-; eauto.
Qed.

Lemma getitem_raise (frame : DataFrame) (col : string) (e : exn) :
  getitem frame col = Raise e -> exists m, e = KeyError m.
Proof.
  unfold getitem; destruct (lookup col (data frame)); [ discriminate | ].
  intros H; injection H as <-; eauto.
Qed.

(** The loop raises a [ValidationError] for an unsupported dtype only; what
    else it raises comes from pandas. *)
Lemma coerce_dtypes_raise (dtype_map : list (string * string)) :
  forall features e,
    coerce_dtypes floatify dtype_map features = Raise e ->
    library_error e = true \/
    exists column dtype,
      In (column, dtype) dtype_map /\
      e = ValidationError (unsupported_dtype_message dtype column).
Proof.
  induction dtype_map as [| [column dtype] rest IH]; intros features e H.
  - discriminate.
  - assert (Hrest : forall f, coerce_dtypes floatify rest f = Raise e ->
              library_error e = true \/
              exists column0 dtype0,
                In (column0, dtype0) ((column, dtype) :: rest) /\
                e = ValidationError (unsupported_dtype_message dtype0 column0)).
    { intros f Hf; apply IH in Hf as [Hl | [c [d [Hin He]]]]; [ left; assumption | ].
      right; exists c, d; split; [ right; assumption | assumption ]. }
    cbn [coerce_dtypes] in H.
    destruct (mem column (columns features)); cbn [negb] in H; [ | eauto ].
    destruct (startswith dtype "int").
    { destruct (getitem features column) as [values | e1] eqn:Hg; cbn [rbind] in H;
        [ | injection H as <-; apply getitem_raise in Hg as [m ->]; left; reflexivity ].
      destruct (to_numeric floatify values) as [numeric | e1] eqn:Hn; cbn [rbind] in H;
        [ | injection H as <-; apply to_numeric_raise in Hn as [m ->]; left; reflexivity ].
      destruct (astype_int64 numeric) as [ints | e1] eqn:Ha; cbn [rbind] in H;
        [ eauto | injection H as <-; apply astype_int64_raise in Ha as [m ->];
                  left; reflexivity ]. }
    destruct (startswith dtype "float").
    { destruct (getitem features column) as [values | e1] eqn:Hg; cbn [rbind] in H;
        [ | injection H as <-; apply getitem_raise in Hg as [m ->]; left; reflexivity ].
      destruct (to_numeric floatify values) as [numeric | e1] eqn:Hn; cbn [rbind] in H;
        [ eauto | injection H as <-; apply to_numeric_raise in Hn as [m ->];
                  left; reflexivity ]. }
    destruct (String.eqb dtype "category").
    { destruct (getitem features column) as [values | e1] eqn:Hg; cbn [rbind] in H;
        [ eauto | injection H as <-; apply getitem_raise in Hg as [m ->];
                  left; reflexivity ]. }
    injection H as <-; right; exists column, dtype; split; [ left | ]; reflexivity.
Qed.

End Coercion.

Lemma getitem_list_raise (frame : DataFrame) (cols : list string) (e : exn) :
  getitem_list frame cols = Raise e -> exists m, e = KeyError m.
Proof.
  unfold getitem_list.
  assert (H : forall d, getitem_data d cols = Raise e -> exists m, e = KeyError m).
  { intros d; induction cols as [| c cols IH]; cbn [getitem_data]; [ discriminate | ].
    destruct (lookup c d); [ | intros H; injection H as <-; eauto ].
    destruct (getitem_data d cols); cbn [rbind]; [ discriminate | ].
    intros H; injection H as <-; apply IH; reflexivity. }
  destruct (getitem_data (data frame) cols) eqn:Hd; cbn [rbind]; [ discriminate | ].
  intros H'; injection H' as <-; eapply H; eassumption.
Qed.

Lemma missing_columns_spec (self : CreditDefaultModel) (frame : DataFrame) (c : string) :
  In c (missing_columns self frame) <->
  In c (_expected_columns self) /\ ~ In c (columns frame).
Proof.
  unfold missing_columns; rewrite filter_In, negb_true_iff, <- (mem_In c (columns frame)).
  destruct (mem c (columns frame)); split; intros [H1 H2]; split;
    try assumption; try discriminate; try reflexivity.
  exfalso; apply H2; reflexivity.
Qed.

Section ValidationOrder.

Variable floatify : string -> option number.
Variable float_repr : float -> string.

(** C3.  The checks run in the order of the method.  A payload without the
    identifier column is refused with the missing-identifier message,
    whatever else it lacks.  With the identifier present and no label
    column, a payload that lacks expected columns is refused with the
    missing-columns message.  And whenever the failure reported is the
    missing-columns one, its message is the list of all the expected columns
    that the payload lacks: each of them occurs in it. *)
Theorem validation_first_failing_check_wins :
  forall (self : CreditDefaultModel) (frame : DataFrame),
    (mem (_id_column self) (columns frame) = false ->
     outcome (_prepare_features floatify float_repr self frame)
     = Raise (ValidationError (missing_identifier_message self))) /\
    (mem (_id_column self) (columns frame) = true ->
     mem "default" (columns frame) = false ->
     missing_columns self frame <> [] ->
     outcome (_prepare_features floatify float_repr self frame)
     = Raise (ValidationError (missing_columns_message (missing_columns self frame)))) /\
    (forall m,
        outcome (_prepare_features floatify float_repr self frame)
        = Raise (ValidationError m) ->
        startswith m "Missing columns: " = true ->
        mem (_id_column self) (columns frame) = true /\
        m = missing_columns_message (missing_columns self frame) /\
        forall c, In c (_expected_columns self) -> ~ In c (columns frame) ->
                  In c (missing_columns self frame) /\ contains m c).
Proof.
  intros self frame; rewrite outcome_prepare_features; unfold prepare_outcome.
  split; [ | split ].
  - intros ->; reflexivity.
  - intros -> -> Hm; cbn [negb].
    destruct (missing_columns self frame); [ contradiction | reflexivity ].
  - intros m H Hpre.
    destruct (mem (_id_column self) (columns frame)); cbn [negb] in H;
      [ | injection H as <-; discriminate ].
    destruct (mem "default" (columns frame)); [ injection H as <-; discriminate | ].
    destruct (nonempty (missing_columns self frame)).
    + injection H as <-; split; [ reflexivity | split; [ reflexivity | ] ].
      intros c Hexp Habs.
      assert (Hin : In c (missing_columns self frame))
        by (apply missing_columns_spec; split; assumption).
      split; [ assumption | ].
      unfold missing_columns_message.
      apply (contains_wrap _ _ "Missing columns: " "."), join_contains, Hin.
    + exfalso.
      destruct (getitem_list frame (_expected_columns self)) as [projected | e] eqn:Hp;
        cbn [rbind] in H;
        [ | injection H as ->; apply getitem_list_raise in Hp as [k Hk]; discriminate ].
      destruct (coerce_dtypes floatify (_dtype_map self) (replace_blank projected))
        as [features | e] eqn:Hc; cbn [rbind] in H.
      * destruct (any_null features); [ injection H as <-; discriminate | ].
        destruct (getitem frame (_id_column self)) as [ids | e] eqn:Hg; cbn [rbind] in H;
          [ | injection H as ->; apply getitem_raise in Hg as [k Hk]; discriminate ].
        destruct (existsb isnull ids); [ injection H as <-; discriminate | discriminate ].
      * injection H as ->.
        apply coerce_dtypes_raise in Hc as [Hl | [column [dtype [_ He]]]];
          [ discriminate | ].
        injection He as ->; discriminate.
Qed.

End ValidationOrder.

(** A payload with neither ID nor AGE is refused for the identifier; one
    with ID alone is refused for LIMIT_BAL and AGE together. *)
Lemma validation_first_failing_check_wins_scenario :
  outcome (_prepare_features Scenario.floatify Scenario.float_repr Scenario.model
             (mkDataFrame [0] [("LIMIT_BAL", [Int 200000])]))
  = Raise (ValidationError "Missing identifier column: ID.") /\
  outcome (_prepare_features Scenario.floatify Scenario.float_repr Scenario.model
             (mkDataFrame [0] [("ID", [Int 1001])]))
  = Raise (ValidationError "Missing columns: LIMIT_BAL, AGE.") /\
  (In "AGE" ["LIMIT_BAL"; "AGE"] /\ contains "Missing columns: LIMIT_BAL, AGE." "AGE").
Proof.
  pose proof (validation_first_failing_check_wins Scenario.floatify Scenario.float_repr
                Scenario.model (mkDataFrame [0] [("LIMIT_BAL", [Int 200000])]))
    as [Hid _].
  pose proof (validation_first_failing_check_wins Scenario.floatify Scenario.float_repr
                Scenario.model (mkDataFrame [0] [("ID", [Int 1001])]))
    as [_ [Hcols Hall]].
  split; [ exact (Hid eq_refl) | split ].
  - apply (Hcols eq_refl eq_refl); discriminate.
  - apply (Hall _ (Hcols eq_refl eq_refl ltac:(discriminate)) eq_refl).
    + right; left; reflexivity.
    + intros [H | []]; discriminate.
Defined.

(** ** The batch size guard *)

Section BatchGuard.

Variable floatify : string -> option number.
Variable float_repr : float -> string.
Variable read_csv : string -> result DataFrame.
Variable read_excel : string -> result DataFrame.
Variable suffix_lower : string -> string.
Variable settings : Settings.

(** A batch that comes back went through the guard and through [score];
    only its index is renumbered. *)
Lemma predict_batch_ok_inv (self : PredictionService) (file_bytes filename : string)
      (out : ScoredFrame) :
  outcome (predict_batch floatify float_repr read_csv read_excel suffix_lower settings
                         self file_bytes filename) = Ok out ->
  exists dataframe scored,
    _read_input_file read_csv read_excel suffix_lower file_bytes filename = Ok dataframe /\
    Z.of_nat (len dataframe) <= max_batch_rows settings /\
    outcome (score floatify float_repr (_model self) dataframe) = Ok scored /\
    out = reset_index scored.
Proof.
  unfold predict_batch; rewrite outcome_bind; cbn [outcome lift snd].
  destruct (_read_input_file read_csv read_excel suffix_lower file_bytes filename)
    as [dataframe | e]; cbn [rbind]; [ | discriminate ].
  destruct (Z.gtb_spec (Z.of_nat (len dataframe)) (max_batch_rows settings)) as [Hgt | Hle];
    [ discriminate | ].
  rewrite outcome_bind; intros H; apply rbind_ok_inv in H as [scored [Hs H]].
  apply outcome_except_ok in Hs; injection H as <-.
  exists dataframe, scored; repeat split; assumption.
Qed.

(** C6.  Once the upload has been read, a frame with more rows than
    [max_batch_rows] ends the request with [PredictionError]; the message
    holds the row count and the limit; the run emits nothing (no estimator
    call, no log record) and is the same whatever model the service holds
    and whatever the columns of the frame, so no validation took part. *)
Theorem predict_batch_too_large :
  forall (self : PredictionService) (file_bytes filename : string) (dataframe : DataFrame),
    _read_input_file read_csv read_excel suffix_lower file_bytes filename = Ok dataframe ->
    Z.of_nat (len dataframe) > max_batch_rows settings ->
    predict_batch floatify float_repr read_csv read_excel suffix_lower settings
                  self file_bytes filename
    = ([], Raise (PredictionError (batch_too_large_message settings (len dataframe)))) /\
    contains (batch_too_large_message settings (len dataframe))
             (str_int (Z.of_nat (len dataframe))) /\
    contains (batch_too_large_message settings (len dataframe))
             (str_int (max_batch_rows settings)) /\
    forall other : PredictionService,
      predict_batch floatify float_repr read_csv read_excel suffix_lower settings
                    other file_bytes filename
      = predict_batch floatify float_repr read_csv read_excel suffix_lower settings
                      self file_bytes filename.
Proof.
  intros self file_bytes filename dataframe Hread Hgt.
  assert (Hrun : forall s : PredictionService,
             predict_batch floatify float_repr read_csv read_excel suffix_lower settings
                           s file_bytes filename
             = ([], Raise (PredictionError
                             (batch_too_large_message settings (len dataframe))))).
  { intros s; unfold predict_batch; rewrite Hread; cbn [lift bind].
    destruct (Z.gtb_spec (Z.of_nat (len dataframe)) (max_batch_rows settings));
      [ reflexivity | lia ]. }
  split; [ apply Hrun | split; [ | split ] ].
  - exists "Batch size ",
      (" exceeds limit of " +++ str_int (max_batch_rows settings) +++ " rows.").
    reflexivity.
  - exists ("Batch size " +++ str_int (Z.of_nat (len dataframe)) +++ " exceeds limit of "),
      " rows.".
    unfold batch_too_large_message; rewrite !append_assoc; reflexivity.
  - intros other; rewrite !Hrun; reflexivity.
Qed.

End BatchGuard.

(** The text of the refusal for 60001 rows against a limit of 60000. *)
Lemma oversized_message :
  batch_too_large_message (mkAppSettings 60000) (len Scenario.oversized)
  = "Batch size 60001 exceeds limit of 60000 rows.".
Proof. vm_compute; reflexivity. Qed.

(** 60001 rows against a limit of 60000, in a file without any of the
    columns the model wants: refused for its size. *)
Lemma predict_batch_too_large_scenario :
  predict_batch Scenario.floatify Scenario.float_repr
                (fun _ => Ok Scenario.oversized)
                (fun _ => Raise (ValueError "not a spreadsheet"))
                (fun _ => ".csv") (mkAppSettings 60000)
                (mkService Scenario.model) "rows" "batch.csv"
  = ([], Raise (PredictionError
                  (batch_too_large_message (mkAppSettings 60000) (len Scenario.oversized)))).
Proof.
  exact (proj1 (predict_batch_too_large Scenario.floatify Scenario.float_repr
                  (fun _ => Ok Scenario.oversized)
                  (fun _ => Raise (ValueError "not a spreadsheet"))
                  (fun _ => ".csv") (mkAppSettings 60000)
                  (mkService Scenario.model) "rows" "batch.csv"
                  Scenario.oversized eq_refl ltac:(vm_compute; reflexivity))).
Defined.

(** ** Estimators that are not binary *)

(** Column 1 is taken from any output of two columns or more. *)
Lemma _predict_proba_wide_output (self : CreditDefaultModel) (features : DataFrame)
      (ncols : nat) (rows : list (list float)) :
  _estimator self features = Ok (Array2 ncols rows) ->
  (2 <= ncols)%nat ->
  List.length rows = len features ->
  outcome (_predict_proba self features)
  = Ok (mkFloatSeries (index features) (map (fun r => nth 1 r PrimFloat.nan) rows)).
Proof.
  intros Hest Hn Hrows; rewrite outcome__predict_proba; unfold proba_outcome.
  rewrite Hest; cbn [rbind take_column_1].
  destruct (Nat.leb_spec ncols 1) as [Hle | _]; [ lia | ].
  cbn [rbind]; unfold Series_of_array.
  rewrite length_map, Hrows; fold (len features); rewrite Nat.eqb_refl; reflexivity.
Qed.

(** An output of fewer than two columns ends in numpy's [IndexError]. *)
Lemma _predict_proba_narrow_output (self : CreditDefaultModel) (features : DataFrame)
      (ncols : nat) (rows : list (list float)) :
  _estimator self features = Ok (Array2 ncols rows) ->
  (ncols <= 1)%nat ->
  exists m, outcome (_predict_proba self features) = Raise (IndexError m).
Proof.
  intros Hest Hn; rewrite outcome__predict_proba; unfold proba_outcome.
  rewrite Hest; cbn [rbind take_column_1].
  destruct (Nat.leb_spec ncols 1) as [_ | Hgt]; [ cbn [rbind]; eauto | lia ].
Qed.

(** C7.  [_predict_proba] does not look at the shape of what the estimator
    returns before it indexes column 1.  With a three-column output, [score]
    succeeds and reports column 1; with a one-column output it ends in
    numpy's [IndexError], which is not a [ModelError]; with two columns the
    second one is taken. *)
Theorem score_non_binary_estimator :
  outcome (score Scenario.floatify Scenario.float_repr
             (Scenario.model_with Scenario.three_class_estimator) Scenario.batch)
  = Ok (mkScored [0; 1] [Str "1001"; Str "1002"] [0.3%float; 0.3%float] [false; false]) /\
  outcome (score Scenario.floatify Scenario.float_repr
             (Scenario.model_with Scenario.one_column_estimator) Scenario.batch)
  = Raise (IndexError "index 1 is out of bounds for axis 1 with size 1") /\
  isinstance_ModelError (IndexError "index 1 is out of bounds for axis 1 with size 1")
  = false /\
  outcome (score Scenario.floatify Scenario.float_repr Scenario.model Scenario.batch)
  = Ok (mkScored [0; 1] [Str "1001"; Str "1002"] [0.73%float; 0.73%float] [true; true]).
Proof. repeat split; vm_compute; reflexivity. Qed.

(** ** Nulls survive the coercion loop or stop it *)

Lemma null_or_blank_replaced (c : cell) :
  isnull (replace_blank_cell c) = null_or_blank c.
Proof.
  destruct c as [| | z | f | s]; try reflexivity.
  simpl; destruct (blank s); reflexivity.
Qed.

Lemma lookup_map_values (g : Series -> Series) (col : string) (d : list (string * Series)) :
  lookup col (map (fun kv => (fst kv, g (snd kv))) d) = option_map g (lookup col d).
Proof.
  induction d as [| [k v] d IH]; simpl; [ reflexivity | ].
  destruct (String.eqb col k); [ reflexivity | exact IH ].
Qed.

Lemma lookup_setitem_same (d : list (string * Series)) (col : string) (v : Series) :
  lookup col (setitem_data d col v) = Some v.
Proof.
  induction d as [| [k w] d IH]; simpl.
  - rewrite String.eqb_refl; reflexivity.
  - destruct (String.eqb col k) eqn:Hk; simpl; rewrite Hk; [ reflexivity | exact IH ].
Qed.

Lemma lookup_setitem_other (d : list (string * Series)) (col other : string) (v : Series) :
  String.eqb other col = false ->
  lookup other (setitem_data d col v) = lookup other d.
Proof.
  intros Hne; induction d as [| [k w] d IH]; simpl.
  - rewrite Hne; reflexivity.
  - destruct (String.eqb_spec col k) as [-> | Hk]; simpl.
    + rewrite Hne; reflexivity.
    + destruct (String.eqb other k); [ reflexivity | exact IH ].
Qed.

Lemma getitem_data_lookup (d d' : list (string * Series)) (cols : list string) (col : string) :
  getitem_data d cols = Ok d' -> In col cols -> lookup col d' = lookup col d.
Proof.
  revert d'; induction cols as [| c cols IH]; intros d' H Hin; [ contradiction | ].
  cbn [getitem_data] in H.
  destruct (lookup c d) as [v |] eqn:Hv; [ | discriminate ].
  destruct (getitem_data d cols) as [rest | e]; cbn [rbind] in H; [ | discriminate ].
  injection H as <-; simpl.
  destruct (String.eqb_spec col c) as [-> | Hne]; [ symmetry; exact Hv | ].
  destruct Hin as [-> | Hin]; [ contradiction | apply IH; [ reflexivity | assumption ] ].
Qed.

Lemma any_null_of_has_null (col : string) (frame : DataFrame) :
  has_null col frame -> any_null frame = true.
Proof.
  intros [cells [Hl Hn]]; unfold any_null; apply existsb_exists.
  exists (col, cells); split; [ apply lookup_In; assumption | exact Hn ].
Qed.

Section Nulls.

Variable floatify : string -> option number.

Lemma maybe_convert_numeric_null (values : Series) :
  forall pos ns,
    maybe_convert_numeric floatify pos values = Ok ns ->
    existsb isnull values = true ->
    existsb number_is_nan ns = true.
Proof.
  induction values as [| c rest IH]; intros pos ns H Hnull; [ discriminate | ].
  cbn [maybe_convert_numeric] in H.
  destruct (convert_cell floatify c) as [n |] eqn:Hc; [ | discriminate ].
  destruct (maybe_convert_numeric floatify (S pos) rest) as [ns' | e] eqn:Hr;
    cbn [rbind] in H; [ | discriminate ].
  injection H as <-; cbn [existsb] in *.
  apply orb_true_iff in Hnull as [Hc0 | Hrest].
  - apply orb_true_iff; left.
    destruct c as [| | z | f | s]; try discriminate; cbn in Hc;
      injection Hc as <-; [ reflexivity | reflexivity | exact Hc0 ].
  - apply orb_true_iff; right; eapply IH; eassumption.
Qed.

Lemma has_nan_not_all_int (ns : list number) :
  existsb number_is_nan ns = true -> forallb number_is_int ns = false.
Proof.
  induction ns as [| n ns IH]; [ discriminate | ].
  cbn [existsb forallb]; destruct n as [z | f]; cbn; [ exact IH | reflexivity ].
Qed.

Lemma has_nan_floats (ns : list number) :
  forallb number_is_int ns = false ->
  existsb number_is_nan ns = true ->
  existsb PrimFloat.is_nan (map number_to_float ns) = true.
Proof.
  intros _; induction ns as [| n ns IH]; [ discriminate | ].
  cbn [existsb map]; destruct n as [z | f]; cbn [number_is_nan number_to_float].
  - rewrite orb_false_l; intros H; rewrite (IH H); apply orb_true_r.
  - intros H; apply orb_true_iff in H as [H | H];
      [ rewrite H; reflexivity | rewrite (IH H); apply orb_true_r ].
Qed.

(** A column with a null converts to float64 with a NaN in it. *)
Lemma to_numeric_null (values : Series) (numeric : numeric_column) :
  to_numeric floatify values = Ok numeric ->
  existsb isnull values = true ->
  exists v, numeric = Float64 v /\ existsb PrimFloat.is_nan v = true.
Proof.
  unfold to_numeric; intros H Hnull.
  apply rbind_ok_inv in H as [ns [Hns H]].
  pose proof (maybe_convert_numeric_null _ _ _ Hns Hnull) as Hnan.
  pose proof (has_nan_not_all_int _ Hnan) as Hint.
  rewrite Hint in H; injection H as <-.
  eexists; split; [ reflexivity | apply has_nan_floats; assumption ].
Qed.

Lemma nan_not_finite (v : list float) :
  existsb PrimFloat.is_nan v = true -> forallb isfinite v = false.
Proof.
  induction v as [| f v IH]; [ discriminate | ].
  cbn [existsb forallb]; intros H; apply orb_true_iff in H as [H | H].
  - unfold isfinite at 1, PrimFloat.is_finite; rewrite H; reflexivity.
  - rewrite (IH H); apply andb_false_r.
Qed.

Lemma existsb_isnull_Float (v : list float) :
  existsb isnull (map Float v) = existsb PrimFloat.is_nan v.
Proof. induction v as [| f v IH]; cbn; [ | rewrite IH ]; reflexivity. Qed.

(** The loop over the declared dtypes never clears a null: it either
    raises or leaves the column with a null in it. *)
Lemma coerce_dtypes_keeps_null (col : string) (dtype_map : list (string * string)) :
  forall features features',
    has_null col features ->
    coerce_dtypes floatify dtype_map features = Ok features' ->
    has_null col features'.
Proof.
  induction dtype_map as [| [column dtype] rest IH]; intros features features' Hnull H.
  - injection H as <-; exact Hnull.
  - cbn [coerce_dtypes] in H.
    destruct (mem column (columns features)); cbn [negb] in H; [ | eauto ].
    destruct Hnull as [cells [Hl Hn]].
    assert (Hother : forall v, String.eqb col column = false ->
                               has_null col (setitem features column v)).
    { intros v Hne; exists cells; split; [ | exact Hn ].
      cbn [setitem data]; rewrite lookup_setitem_other; assumption. }
    assert (Hsame : forall v, existsb isnull v = true ->
                              has_null column (setitem features column v)).
    { intros v Hv; exists v; split; [ apply lookup_setitem_same | exact Hv ]. }
    unfold getitem in H.
    destruct (String.eqb_spec col column) as [<- | Hne].
    + rewrite Hl in H; cbn [rbind] in H.
      destruct (startswith dtype "int").
      { apply rbind_ok_inv in H as [numeric [Hnum H]].
        apply to_numeric_null in Hnum as [v [-> Hv]]; [ | exact Hn ].
        cbn [astype_int64] in H; rewrite (nan_not_finite _ Hv) in H; discriminate. }
      destruct (startswith dtype "float").
      { apply rbind_ok_inv in H as [numeric [Hnum H]].
        apply to_numeric_null in Hnum as [v [-> Hv]]; [ | exact Hn ].
        eapply IH; [ | exact H ].
        apply Hsame; cbn [astype_float64]; rewrite existsb_isnull_Float; exact Hv. }
      destruct (String.eqb dtype "category"); [ | discriminate ].
      eapply IH; [ | exact H ]; apply Hsame; exact Hn.
    + apply String.eqb_neq in Hne.
      destruct (startswith dtype "int").
      { apply rbind_ok_inv in H as [values [_ H]].
        apply rbind_ok_inv in H as [numeric [_ H]].
        apply rbind_ok_inv in H as [ints [_ H]].
        eapply IH; [ | exact H ]; apply Hother; reflexivity. }
      destruct (startswith dtype "float").
      { apply rbind_ok_inv in H as [values [_ H]].
        apply rbind_ok_inv in H as [numeric [_ H]].
        eapply IH; [ | exact H ]; apply Hother; reflexivity. }
      destruct (String.eqb dtype "category"); [ | discriminate ].
      apply rbind_ok_inv in H as [values [_ H]].
      eapply IH; [ | exact H ]; apply Hother; reflexivity.
Qed.

End Nulls.

(** ** Extra columns *)

Lemma mem_app_one (x extra : string) (l : list string) :
  mem x (l ++ [extra]) = mem x l || String.eqb x extra.
Proof.
  unfold mem; rewrite existsb_app; cbn [existsb]; rewrite orb_false_r; reflexivity.
Qed.

Lemma columns_with_column (frame : DataFrame) (col : string) (cells : Series) :
  columns (with_column frame col cells) = columns frame ++ [col].
Proof. unfold columns, with_column; cbn [data]; rewrite map_app; reflexivity. Qed.

Lemma lookup_app_other (d : list (string * Series)) (col extra : string) (cells : Series) :
  String.eqb col extra = false ->
  lookup col (d ++ [(extra, cells)]) = lookup col d.
Proof.
  intros Hne; induction d as [| [k w] d IH]; simpl.
  - rewrite Hne; reflexivity.
  - destruct (String.eqb col k); [ reflexivity | exact IH ].
Qed.

Lemma mem_false_neq (x : string) (l : list string) (c : string) :
  mem x l = false -> In c l -> String.eqb c x = false.
Proof.
  intros Hm Hin; apply String.eqb_neq; intros ->.
  apply mem_In in Hin; congruence.
Qed.

Lemma getitem_data_app_other (d : list (string * Series)) (cols : list string)
      (extra : string) (cells : Series) :
  mem extra cols = false ->
  getitem_data (d ++ [(extra, cells)]) cols = getitem_data d cols.
Proof.
  intros Hm; induction cols as [| c cols IH]; [ reflexivity | ].
  cbn [getitem_data].
  rewrite lookup_app_other by (apply (mem_false_neq extra (c :: cols)); [ exact Hm | left; reflexivity ]).
  rewrite IH; [ reflexivity | ].
  unfold mem in *; cbn [existsb] in Hm; apply orb_false_iff in Hm as [_ Hm]; exact Hm.
Qed.

Section ExtraColumns.

Variable floatify : string -> option number.
Variable float_repr : float -> string.

(** Validation does not see a column that is neither expected, nor the
    identifier, nor the label. *)
Lemma prepare_outcome_with_column (self : CreditDefaultModel) (frame : DataFrame)
      (extra : string) (cells : Series) :
  mem extra (_expected_columns self) = false ->
  String.eqb (_id_column self) extra = false ->
  String.eqb "default" extra = false ->
  prepare_outcome floatify float_repr self (with_column frame extra cells)
  = prepare_outcome floatify float_repr self frame.
Proof.
  intros Hexp Hid Hlabel; unfold prepare_outcome.
  assert (Hmissing : missing_columns self (with_column frame extra cells)
                     = missing_columns self frame).
  { unfold missing_columns; apply filter_ext_in; intros c Hc.
    rewrite columns_with_column, mem_app_one,
      (mem_false_neq extra _ c Hexp Hc), orb_false_r; reflexivity. }
  rewrite Hmissing, columns_with_column, !mem_app_one, Hid, Hlabel, !orb_false_r.
  unfold getitem_list, getitem, with_column; cbn [data index].
  rewrite getitem_data_app_other by exact Hexp.
  rewrite lookup_app_other by exact Hid; reflexivity.
Qed.

Lemma any_null_false (frame : DataFrame) (col : string) (cells : Series) (c : cell) :
  any_null frame = false -> In (col, cells) (data frame) -> In c cells -> isnull c = false.
Proof.
  intros Hnull Hcol Hc; destruct (isnull c) eqn:Hn; [ | reflexivity ].
  assert (Hex : any_null frame = true); [ | congruence ].
  apply existsb_exists; exists (col, cells); split; [ assumption | ].
  apply existsb_exists; exists c; split; assumption.
Qed.

(** What [score] emits: the log records of the validation, then one call
    of the estimator on the prepared features, if there are any. *)
Lemma trace_score (self : CreditDefaultModel) (frame : DataFrame) :
  trace (score floatify float_repr self frame)
  = trace (_prepare_features floatify float_repr self frame)
    ++ match outcome (_prepare_features floatify float_repr self frame) with
       | Ok fi => [PredictProba (fst fi)]
       | Raise _ => []
       end.
Proof.
  unfold score.
  destruct (_prepare_features floatify float_repr self frame) as [tr [fi | e]];
    cbn [bind trace outcome fst snd]; [ | rewrite app_nil_r; reflexivity ].
  unfold _predict_proba; cbn [bind emit lift].
  destruct (_estimator self (fst fi)) as [a | e]; cbn; [ | reflexivity ].
  destruct (take_column_1 a) as [column | e]; cbn; [ | reflexivity ].
  destruct (Series_of_array column (index (fst fi))); reflexivity.
Qed.

(** Validation emits log records only, and at most the one that lists the
    columns it ignores. *)
Lemma trace_prepare_features (self : CreditDefaultModel) (frame : DataFrame) :
  trace (_prepare_features floatify float_repr self frame) = []
  \/ trace (_prepare_features floatify float_repr self frame)
     = [Log DEBUG "Ignoring extra columns: %s"
            [ArgStr (join ", " (extra_columns self frame))]]
       /\ extra_columns self frame <> [].
Proof.
  unfold _prepare_features.
  destruct (negb (mem (_id_column self) (columns frame))); [ left; reflexivity | ].
  destruct (mem "default" (columns frame)); [ left; reflexivity | ].
  destruct (nonempty (missing_columns self frame)); [ left; reflexivity | ].
  rewrite trace_bind_silent.
  - destruct (extra_columns self frame) as [| x xs]; cbn [nonempty];
      [ left; reflexivity | right; split; [ reflexivity | discriminate ] ].
  - intros _; silent.
Qed.

End ExtraColumns.

Section PreparedFeatures.

Variable floatify : string -> option number.
Variable float_repr : float -> string.

(** A null or a blank string in an expected column: the payload is never
    accepted, so no number is ever made up for that cell. *)
Lemma null_feature_never_accepted (self : CreditDefaultModel) (frame : DataFrame)
      (col : string) (cells : Series) :
  In col (_expected_columns self) ->
  lookup col (data frame) = Some cells ->
  existsb null_or_blank cells = true ->
  exists e, outcome (_prepare_features floatify float_repr self frame) = Raise e.
Proof.
  intros Hexp Hl Hblank.
  destruct (outcome (_prepare_features floatify float_repr self frame))
    as [[features identifiers] | e] eqn:H; [ exfalso | eauto ].
  rewrite outcome_prepare_features in H.
  apply prepare_outcome_ok_inv in H
    as [_ [_ [_ [projected [raw [Hp [Hc [Hnull _]]]]]]]].
  assert (Hhas : has_null col (replace_blank projected)).
  { unfold getitem_list in Hp; apply rbind_ok_inv in Hp as [d [Hd Hp]].
    injection Hp as <-.
    exists (map replace_blank_cell cells); split.
    - unfold replace_blank; cbn [data].
      rewrite (lookup_map_values (map replace_blank_cell)),
        (getitem_data_lookup _ _ _ _ Hd Hexp), Hl; reflexivity.
    - rewrite existsb_exists in *; destruct Hblank as [c [Hin Hc0]].
      exists (replace_blank_cell c); split; [ apply in_map; assumption | ].
      rewrite null_or_blank_replaced; assumption. }
  pose proof (coerce_dtypes_keeps_null floatify col _ _ _ Hhas Hc) as Hkept.
  apply any_null_of_has_null in Hkept; congruence.
Qed.

(** C8.  When a payload is accepted, the features have exactly the expected
    columns, in the order of the signature, over the index of the payload,
    and no cell of them is null; a column of the payload that is not
    expected is not among them; and one more column that is neither
    expected, nor the identifier, nor the label changes nothing to the
    outcome.  The frame on which the estimator is called is that one. *)
Theorem prepared_features_expected_columns_no_nulls :
  forall (self : CreditDefaultModel) (frame : DataFrame),
    (forall features identifiers,
        outcome (_prepare_features floatify float_repr self frame)
        = Ok (features, identifiers) ->
        columns features = _expected_columns self /\
        index features = index frame /\
        (forall col cells c,
            In (col, cells) (data features) -> In c cells -> isnull c = false) /\
        (forall col, In col (columns frame) -> ~ In col (_expected_columns self) ->
                     ~ In col (columns features)) /\
        (forall extra cells,
            mem extra (_expected_columns self) = false ->
            String.eqb (_id_column self) extra = false ->
            String.eqb "default" extra = false ->
            outcome (_prepare_features floatify float_repr self
                       (with_column frame extra cells))
            = Ok (features, identifiers))) /\
    (forall features,
        In (PredictProba features) (trace (score floatify float_repr self frame)) ->
        columns features = _expected_columns self /\
        forall col cells c,
          In (col, cells) (data features) -> In c cells -> isnull c = false).
Proof.
  intros self frame.
  assert (Hok : forall features identifiers,
             outcome (_prepare_features floatify float_repr self frame)
             = Ok (features, identifiers) ->
             columns features = _expected_columns self /\
             index features = index frame /\
             forall col cells c,
               In (col, cells) (data features) -> In c cells -> isnull c = false).
  { intros features identifiers H; rewrite outcome_prepare_features in H.
    pose proof (prepare_outcome_shape _ _ _ _ _ _ H) as [Hcols Hidx].
    apply prepare_outcome_ok_inv in H as [_ [_ [_ [p [raw [_ [_ [Hnull _]]]]]]]].
    repeat split; try assumption.
    intros col cells c; apply any_null_false; assumption. }
  split.
  - intros features identifiers H.
    destruct (Hok _ _ H) as [Hcols [Hidx Hnull]].
    repeat split; try assumption.
    + intros col _ Hnot; rewrite Hcols; exact Hnot.
    + intros extra cells Hexp Hid Hlabel.
      rewrite outcome_prepare_features, prepare_outcome_with_column by assumption.
      rewrite <- outcome_prepare_features; exact H.
  - intros features Hin; rewrite trace_score in Hin.
    apply in_app_or in Hin as [Hin | Hin].
    + destruct (trace_prepare_features floatify float_repr self frame) as [Ht | [Ht _]];
        rewrite Ht in Hin; [ contradiction | ].
      destruct Hin as [Hin | []]; discriminate.
    + destruct (outcome (_prepare_features floatify float_repr self frame))
        as [[f ids] | e] eqn:H; [ | contradiction ].
      destruct Hin as [Hin | []]; injection Hin as <-; cbn [fst].
      destruct (Hok _ _ eq_refl) as [Hcols [_ Hnull]]; split; assumption.
Qed.

End PreparedFeatures.

(** The batch of the scenario: the features are LIMIT_BAL then AGE, without
    nulls, also when the payload carries one more column NOTE. *)
Lemma prepared_features_expected_columns_no_nulls_scenario :
  columns (mkDataFrame [0; 1] [("LIMIT_BAL", [Float 200000; Float 50000]);
                               ("AGE", [Int 35; Int 41])])
  = ["LIMIT_BAL"; "AGE"] /\
  isnull (Int 41) = false /\
  outcome (_prepare_features Scenario.floatify Scenario.float_repr Scenario.model
             (with_column Scenario.batch "NOTE" [Str "vip"; Str EmptyString]))
  = Ok (mkDataFrame [0; 1] [("LIMIT_BAL", [Float 200000; Float 50000]);
                            ("AGE", [Int 35; Int 41])],
        [Str "1001"; Str "1002"]).
Proof.
  pose proof (proj1 (prepared_features_expected_columns_no_nulls
                       Scenario.floatify Scenario.float_repr Scenario.model
                       Scenario.batch) _ _ eq_refl)
    as [Hcols [_ [Hnull [_ Hextra]]]].
  split; [ exact Hcols | split ].
  - apply (Hnull "AGE" [Int 35; Int 41] (Int 41)).
    + right; left; reflexivity.
    + right; left; reflexivity.
  - exact (Hextra "NOTE" [Str "vip"; Str EmptyString] eq_refl eq_refl eq_refl).
Defined.

(** ** [predict_proba] against [score] *)

Section Agreement.

Variable floatify : string -> option number.
Variable float_repr : float -> string.

(** C9.  On every frame, [predict_proba] runs as [score] does and then
    keeps the probability column: same log records, same estimator call,
    same exception if one is raised, and on success the same values on the
    same index.  In particular an exception raised by the validation is the
    outcome of both. *)
Theorem predict_proba_agrees_with_score :
  forall (self : CreditDefaultModel) (frame : DataFrame),
    predict_proba floatify float_repr self frame
    = (scored <- score floatify float_repr self frame ;; ret (probability_series scored))
    /\
    outcome (predict_proba floatify float_repr self frame)
    = rmap probability_series (outcome (score floatify float_repr self frame))
    /\
    (forall e,
        outcome (_prepare_features floatify float_repr self frame) = Raise e ->
        outcome (predict_proba floatify float_repr self frame) = Raise e /\
        outcome (score floatify float_repr self frame) = Raise e).
Proof.
  intros self frame.
  assert (Hrun : predict_proba floatify float_repr self frame
                 = (scored <- score floatify float_repr self frame ;;
                    ret (probability_series scored))).
  { unfold predict_proba, score.
    destruct (_prepare_features floatify float_repr self frame) as [tr [fi | e]];
      cbn [bind]; [ | reflexivity ].
    unfold _predict_proba; cbn [bind emit lift].
    destruct (_estimator self (fst fi)) as [a | e]; cbn [bind rbind app];
      [ | reflexivity ].
    destruct (take_column_1 a) as [column | e]; cbn [bind rbind app]; [ | reflexivity ].
    destruct (Series_of_array column (index (fst fi))) as [s | e] eqn:Hs;
      cbn [bind ret app]; [ | reflexivity ].
    apply Series_of_array_index in Hs as [Hidx _].
    rewrite <- Hidx, Series_reindex_same, !app_nil_r.
    unfold probability_series; cbn [s_index probability]; destruct s; reflexivity. }
  split; [ exact Hrun | split ].
  - rewrite Hrun, outcome_bind; reflexivity.
  - intros e He; rewrite Hrun, outcome_bind.
    assert (Hs : outcome (score floatify float_repr self frame) = Raise e)
      by (unfold score; rewrite outcome_bind, He; reflexivity).
    rewrite Hs; split; reflexivity.
Qed.

End Agreement.

(** A payload without the identifier column: the same validation error
    from both; the batch of the scenario: the same probabilities. *)
Lemma predict_proba_agrees_with_score_scenario :
  (outcome (predict_proba Scenario.floatify Scenario.float_repr Scenario.model
              (mkDataFrame [0] [("LIMIT_BAL", [Int 200000])]))
   = Raise (ValidationError "Missing identifier column: ID.") /\
   outcome (score Scenario.floatify Scenario.float_repr Scenario.model
              (mkDataFrame [0] [("LIMIT_BAL", [Int 200000])]))
   = Raise (ValidationError "Missing identifier column: ID.")) /\
  outcome (predict_proba Scenario.floatify Scenario.float_repr Scenario.model
             Scenario.batch)
  = Ok (mkFloatSeries [0; 1] [0.73%float; 0.73%float]).
Proof.
  split.
  - exact (proj2 (proj2 (predict_proba_agrees_with_score
                           Scenario.floatify Scenario.float_repr Scenario.model
                           (mkDataFrame [0] [("LIMIT_BAL", [Int 200000])])))
                 _ eq_refl).
  - rewrite (proj1 (proj2 (predict_proba_agrees_with_score
                             Scenario.floatify Scenario.float_repr Scenario.model
                             Scenario.batch))).
    reflexivity.
Defined.

(** ** Identifiers *)

Lemma getitem_data_setitem_other (d : list (string * Series)) (cols : list string)
      (col : string) (v : Series) :
  mem col cols = false ->
  getitem_data (setitem_data d col v) cols = getitem_data d cols.
Proof.
  intros Hm; induction cols as [| c cols IH]; [ reflexivity | ].
  cbn [getitem_data].
  rewrite lookup_setitem_other
    by (apply (mem_false_neq col (c :: cols)); [ exact Hm | left; reflexivity ]).
  rewrite IH; [ reflexivity | ].
  unfold mem in *; cbn [existsb] in Hm; apply orb_false_iff in Hm as [_ Hm]; exact Hm.
Qed.

Lemma all_str_not_null (s : Series) : all_str s -> existsb isnull s = false.
Proof.
  induction 1 as [| c s [t ->] _ IH]; [ reflexivity | exact IH ].
Qed.

Section Identifiers.

Variable floatify : string -> option number.
Variable float_repr : float -> string.

Lemma all_str_astype_str (s : Series) : all_str s -> astype_str float_repr s = s.
Proof.
  induction 1 as [| c s [t ->] _ IH]; [ reflexivity | ].
  cbn [astype_str map str_cell]; f_equal; exact IH.
Qed.

(** C10.  The identifiers that validation returns are the cells of the
    identifier column of the raw payload, rendered by [str]: the blanks
    of the payload are replaced in the features only.  So when the
    identifier is not itself a feature, an accepted payload stays accepted
    if its identifiers are replaced by any strings, empty or blank ones
    included, and the records come back with these strings as they are. *)
Theorem blank_identifier_kept_verbatim :
  forall (self : CreditDefaultModel) (frame : DataFrame),
    (forall features identifiers raw,
        outcome (_prepare_features floatify float_repr self frame)
        = Ok (features, identifiers) ->
        getitem frame (_id_column self) = Ok raw ->
        identifiers = map (fun c => Str (str_cell float_repr c)) raw) /\
    (forall scored ids,
        mem (_id_column self) (_expected_columns self) = false ->
        outcome (score floatify float_repr self frame) = Ok scored ->
        all_str ids ->
        outcome (score floatify float_repr self (setitem frame (_id_column self) ids))
        = Ok (mkScored (s_index scored) ids (probability scored) (is_default scored))).
Proof.
  intros self frame; split.
  - intros features identifiers raw H Hraw.
    rewrite outcome_prepare_features in H.
    apply prepare_outcome_ok_inv in H
      as [_ [_ [_ [p [raw' [_ [_ [_ [Hraw' [_ ->]]]]]]]]]].
    rewrite Hraw in Hraw'; injection Hraw' as <-; reflexivity.
  - intros scored ids Hfeat H Hstr.
    apply score_ok_inv in H
      as [features [identifiers [a [column [Hprep [Hest [Hcol [Hlen ->]]]]]]]].
    apply prepare_outcome_ok_inv in Hprep
      as [Hid [Hlabel [Hmissing [p [raw [Hp [Hc [Hnull _]]]]]]]].
    rewrite outcome_score; unfold score_outcome, prepare_outcome.
    assert (Hcols : columns (setitem frame (_id_column self) ids) = columns frame)
      by (apply setitem_columns; exact Hid).
    assert (Hmiss : missing_columns self (setitem frame (_id_column self) ids) = [])
      by (unfold missing_columns in *; rewrite Hcols; exact Hmissing).
    rewrite Hmiss, Hcols, Hid, Hlabel; cbn [negb nonempty].
    unfold getitem_list, getitem in *; cbn [setitem data index].
    rewrite getitem_data_setitem_other by exact Hfeat.
    rewrite Hp; cbn [rbind]; rewrite Hc; cbn [rbind]; rewrite Hnull.
    rewrite lookup_setitem_same; cbn [rbind].
    rewrite (all_str_not_null _ Hstr); cbn [rbind fst snd].
    unfold proba_outcome; rewrite Hest; cbn [rbind]; rewrite Hcol; cbn [rbind].
    unfold Series_of_array; fold (len features); rewrite Hlen, Nat.eqb_refl.
    cbn [rbind p_values s_index probability is_default].
    rewrite !(all_str_astype_str _ Hstr); reflexivity.
Qed.

End Identifiers.

(** The batch of the scenario with an empty and a whitespace-only
    identifier: both rows are scored and carry these strings. *)
Lemma blank_identifier_kept_verbatim_scenario :
  outcome (score Scenario.floatify Scenario.float_repr Scenario.model
             (setitem Scenario.batch "ID" [Str EmptyString; Str "  "]))
  = Ok (mkScored [0; 1] [Str EmptyString; Str "  "] [0.73%float; 0.73%float]
                 [true; true]) /\
  [Str "1001"; Str "1002"]
  = map (fun c => Str (str_cell Scenario.float_repr c)) [Int 1001; Int 1002].
Proof.
  pose proof (blank_identifier_kept_verbatim Scenario.floatify Scenario.float_repr
                Scenario.model Scenario.batch) as [Hraw Hblank].
  split.
  - apply (Hblank (mkScored [0; 1] [Str "1001"; Str "1002"] [0.73%float; 0.73%float]
                            [true; true])
                  [Str EmptyString; Str "  "] eq_refl eq_refl).
    repeat constructor; eexists; reflexivity.
  - exact (Hraw _ _ _ eq_refl eq_refl).
Defined.

(** A single payload whose identifier is the empty string. *)
Example predict_single_empty_identifier :
  outcome (predict_single Scenario.floatify Scenario.float_repr
             (mkService Scenario.model)
             [("ID", Str EmptyString); ("LIMIT_BAL", Str "200000"); ("AGE", Str "35")])
  = Ok (mkPrediction 0.73%float true 0.5%float (Some EmptyString)).
Proof. vm_compute; reflexivity. Qed.

(** ** Declared dtypes *)

Section DeclaredDtypes.

Variable floatify : string -> option number.
Variable float_repr : float -> string.

Lemma coerce_dtypes_app (pre rest : list (string * string)) :
  forall features,
    coerce_dtypes floatify (pre ++ rest) features
    = (let? coerced := coerce_dtypes floatify pre features in
       coerce_dtypes floatify rest coerced).
Proof.
  induction pre as [| [column dtype] pre IH]; intros features; [ reflexivity | ].
  cbn [app coerce_dtypes].
  destruct (mem column (columns features)); cbn [negb]; [ | apply IH ].
  destruct (startswith dtype "int").
  { destruct (getitem features column) as [values | e]; cbn [rbind]; [ | reflexivity ].
    destruct (to_numeric floatify values) as [numeric | e]; cbn [rbind]; [ | reflexivity ].
    destruct (astype_int64 numeric) as [ints | e]; cbn [rbind]; [ apply IH | reflexivity ]. }
  destruct (startswith dtype "float").
  { destruct (getitem features column) as [values | e]; cbn [rbind]; [ | reflexivity ].
    destruct (to_numeric floatify values) as [numeric | e]; cbn [rbind];
      [ apply IH | reflexivity ]. }
  destruct (String.eqb dtype "category"); [ | reflexivity ].
  destruct (getitem features column) as [values | e]; cbn [rbind]; [ apply IH | reflexivity ].
Qed.

(** A cell that the tokenizer refuses stops the conversion of its column. *)
Lemma maybe_convert_numeric_unparsable (values : Series) :
  forall pos,
    (exists c, In c values /\ convert_cell floatify c = None) ->
    exists m, maybe_convert_numeric floatify pos values = Raise (ValueError m).
Proof.
  induction values as [| c rest IH]; intros pos [bad [Hin Hbad]]; [ contradiction | ].
  cbn [maybe_convert_numeric].
  destruct (convert_cell floatify c) as [n |] eqn:Hc; [ | eauto ].
  destruct Hin as [-> | Hin]; [ congruence | ].
  destruct (IH (S pos)) as [m ->]; [ eauto | ].
  cbn [rbind]; eauto.
Qed.

Lemma to_numeric_unparsable (values : Series) :
  (exists c, In c values /\ convert_cell floatify c = None) ->
  exists m, to_numeric floatify values = Raise (ValueError m).
Proof.
  intros H; unfold to_numeric.
  destruct (maybe_convert_numeric_unparsable values 0 H) as [m ->]; cbn [rbind]; eauto.
Qed.

(** A dtype declared for a column that is not a feature is passed over. *)
Lemma coerce_dtypes_skip (pre post : list (string * string)) (column dtype : string)
      (features : DataFrame) :
  mem column (columns features) = false ->
  coerce_dtypes floatify (pre ++ (column, dtype) :: post) features
  = coerce_dtypes floatify (pre ++ post) features.
Proof.
  intros Hm; rewrite !coerce_dtypes_app.
  destruct (coerce_dtypes floatify pre features) as [coerced | e] eqn:Hpre;
    cbn [rbind]; [ | reflexivity ].
  apply coerce_dtypes_shape in Hpre as [Hcols _].
  cbn [coerce_dtypes]; rewrite Hcols, Hm; reflexivity.
Qed.

(** Where the run stands when the loop reaches an entry for an expected
    column, the checks and the earlier entries being passed. *)
Lemma outcome_prepare_at_entry (self : CreditDefaultModel) (frame : DataFrame)
      (pre post : list (string * string)) (column dtype : string)
      (projected coerced : DataFrame) :
  _dtype_map self = pre ++ (column, dtype) :: post ->
  mem (_id_column self) (columns frame) = true ->
  mem "default" (columns frame) = false ->
  missing_columns self frame = [] ->
  getitem_list frame (_expected_columns self) = Ok projected ->
  coerce_dtypes floatify pre (replace_blank projected) = Ok coerced ->
  mem column (_expected_columns self) = true ->
  mem column (columns coerced) = true /\
  outcome (_prepare_features floatify float_repr self frame)
  = (let? features := coerce_dtypes floatify ((column, dtype) :: post) coerced in
     if any_null features
     then Raise (ValidationError "Input payload contains missing values.")
     else
       let? identifiers := getitem frame (_id_column self) in
       if existsb isnull identifiers
       then Raise (ValidationError "Identifier column contains missing values.")
       else Ok (features, astype_str float_repr identifiers)).
Proof.
  intros Hmap Hid Hlabel Hmissing Hp Hpre Hexp; split.
  - apply coerce_dtypes_shape in Hpre as [Hcols _].
    apply getitem_list_shape in Hp as [Hpc _].
    rewrite Hcols, replace_blank_columns, Hpc; exact Hexp.
  - rewrite outcome_prepare_features; unfold prepare_outcome.
    rewrite Hid, Hlabel, Hmissing, Hp; cbn [negb nonempty rbind].
    rewrite Hmap, coerce_dtypes_app, Hpre; reflexivity.
Qed.

(** A null in a column declared int*: the cast raises, and the check for
    missing values is not reached. *)
Lemma null_int_cell_cast_error (self : CreditDefaultModel) (frame : DataFrame)
      (pre post : list (string * string)) (column dtype : string)
      (projected coerced : DataFrame) (values : Series) (numeric : numeric_column) :
  _dtype_map self = pre ++ (column, dtype) :: post ->
  mem (_id_column self) (columns frame) = true ->
  mem "default" (columns frame) = false ->
  missing_columns self frame = [] ->
  getitem_list frame (_expected_columns self) = Ok projected ->
  coerce_dtypes floatify pre (replace_blank projected) = Ok coerced ->
  mem column (_expected_columns self) = true ->
  startswith dtype "int" = true ->
  getitem coerced column = Ok values ->
  existsb isnull values = true ->
  to_numeric floatify values = Ok numeric ->
  outcome (_prepare_features floatify float_repr self frame)
  = Raise (IntCastingNaNError "Cannot convert non-finite values (NA or inf) to integer").
Proof.
  intros Hmap Hid Hlabel Hmissing Hp Hpre Hexp Hint Hvalues Hnull Hnum.
  destruct (outcome_prepare_at_entry self frame pre post column dtype projected coerced
              Hmap Hid Hlabel Hmissing Hp Hpre Hexp) as [Hcols Hrun].
  rewrite Hrun; cbn [coerce_dtypes]; rewrite Hcols, Hint, Hvalues; cbn [negb rbind].
  rewrite Hnum; cbn [rbind].
  destruct (to_numeric_null floatify _ _ Hnum Hnull) as [v [-> Hv]].
  cbn [astype_int64]; rewrite (nan_not_finite _ Hv); reflexivity.
Qed.

(** C5, as the code has it.  The declared dtypes are visited in the order
    of the signature.  An entry for a column that is not an expected
    feature is passed over: the run is that of the model without the entry.
    For a payload that passes the identifier, label and column checks and
    whose earlier entries were coerced, an entry for an expected column
    stops the validation if its dtype is none of int*, float*, category,
    with the validation error that names the dtype and the column; and if
    its dtype is int* or float* and a cell of the column is not a number,
    the validation fails: no features are returned. *)
Theorem declared_dtype_failures :
  forall (self : CreditDefaultModel) (frame : DataFrame)
         (pre post : list (string * string)) (column dtype : string),
    _dtype_map self = pre ++ (column, dtype) :: post ->
    (mem column (_expected_columns self) = false ->
     _prepare_features floatify float_repr self frame
     = _prepare_features floatify float_repr (with_dtype_map self (pre ++ post)) frame) /\
    (forall projected coerced,
        mem (_id_column self) (columns frame) = true ->
        mem "default" (columns frame) = false ->
        missing_columns self frame = [] ->
        getitem_list frame (_expected_columns self) = Ok projected ->
        coerce_dtypes floatify pre (replace_blank projected) = Ok coerced ->
        mem column (_expected_columns self) = true ->
        (startswith dtype "int" = false ->
         startswith dtype "float" = false ->
         String.eqb dtype "category" = false ->
         outcome (_prepare_features floatify float_repr self frame)
         = Raise (ValidationError (unsupported_dtype_message dtype column))) /\
        (forall values,
            startswith dtype "int" || startswith dtype "float" = true ->
            getitem coerced column = Ok values ->
            (exists c, In c values /\ convert_cell floatify c = None) ->
            exists e, outcome (_prepare_features floatify float_repr self frame)
                      = Raise e)).
Proof.
  intros self frame pre post column dtype Hmap; split.
  - intros Hnot; unfold _prepare_features.
    change (_id_column (with_dtype_map self (pre ++ post))) with (_id_column self).
    change (_expected_columns (with_dtype_map self (pre ++ post)))
      with (_expected_columns self).
    change (missing_columns (with_dtype_map self (pre ++ post)) frame)
      with (missing_columns self frame).
    change (extra_columns (with_dtype_map self (pre ++ post)) frame)
      with (extra_columns self frame).
    change (_dtype_map (with_dtype_map self (pre ++ post))) with (pre ++ post).
    destruct (negb (mem (_id_column self) (columns frame))); [ reflexivity | ].
    destruct (mem "default" (columns frame)); [ reflexivity | ].
    destruct (nonempty (missing_columns self frame)); [ reflexivity | ].
    f_equal.
    destruct (getitem_list frame (_expected_columns self)) as [projected | e] eqn:Hp;
      [ | reflexivity ].
    cbn [bind lift].
    rewrite Hmap, coerce_dtypes_skip; [ reflexivity | ].
    apply getitem_list_shape in Hp as [Hcols _].
    rewrite replace_blank_columns, Hcols; exact Hnot.
  - intros projected coerced Hid Hlabel Hmissing Hp Hpre Hexp.
    destruct (outcome_prepare_at_entry self frame pre post column dtype projected coerced
                Hmap Hid Hlabel Hmissing Hp Hpre Hexp) as [Hcols Hrun].
    rewrite Hrun; cbn [coerce_dtypes]; rewrite Hcols; cbn [negb].
    split.
    + intros -> -> ->; reflexivity.
    + intros values Hnum Hvalues Hbad; rewrite Hvalues; cbn [rbind].
      destruct (to_numeric_unparsable values Hbad) as [m Hm]; rewrite Hm.
      destruct (startswith dtype "int"); [ cbn [rbind]; eauto | ].
      cbn [orb] in Hnum; rewrite Hnum; cbn [rbind]; eauto.
Qed.

End DeclaredDtypes.

(** A first AGE that reads "abc" ends the validation in the [ValueError] of
    pandas, which names the string and its position, and is not a
    [ModelError]; the dtype declared for NOTE, which is not a feature, does
    not raise anything; and an AGE of 35.7, which is no integer, is accepted
    and becomes 35. *)
Lemma declared_dtype_counterexample :
  outcome (_prepare_features Scenario.floatify Scenario.float_repr Scenario.model
             Scenario.batch_bad_age)
  = Raise (ValueError ("Unable to parse string " +++ dquote +++ "abc" +++ dquote
                       +++ " at position 0")) /\
  isinstance_ModelError
    (ValueError ("Unable to parse string " +++ dquote +++ "abc" +++ dquote
                 +++ " at position 0")) = false /\
  outcome (_prepare_features Scenario.floatify Scenario.float_repr
             (with_dtype_map Scenario.model Scenario.dtypes_with_note) Scenario.batch)
  = Ok (mkDataFrame [0; 1] [("LIMIT_BAL", [Float 200000; Float 50000]);
                            ("AGE", [Int 35; Int 41])],
        [Str "1001"; Str "1002"]) /\
  outcome (_prepare_features Scenario.floatify Scenario.float_repr Scenario.model
             (mkDataFrame [0] [("ID", [Int 1001]); ("LIMIT_BAL", [Int 200000]);
                               ("AGE", [Float 35.7])]))
  = Ok (mkDataFrame [0] [("LIMIT_BAL", [Float 200000]); ("AGE", [Int 35])],
        [Str "1001"]).
Proof. repeat split; vm_compute; reflexivity. Qed.

(** The three cases on the batch of the scenario: the entry for NOTE is
    passed over, the dtype "string" declared for AGE is refused by name,
    and the AGE that reads "abc" makes the validation fail. *)
Lemma declared_dtype_failures_scenario :
  _prepare_features Scenario.floatify Scenario.float_repr
    (with_dtype_map Scenario.model Scenario.dtypes_with_note) Scenario.batch
  = _prepare_features Scenario.floatify Scenario.float_repr
      (with_dtype_map (with_dtype_map Scenario.model Scenario.dtypes_with_note)
                      ([("LIMIT_BAL", "float"); ("AGE", "int")] ++ []))
      Scenario.batch /\
  outcome (_prepare_features Scenario.floatify Scenario.float_repr
             (with_dtype_map Scenario.model Scenario.dtypes_string_age) Scenario.batch)
  = Raise (ValidationError (unsupported_dtype_message "string" "AGE")) /\
  (exists e,
      outcome (_prepare_features Scenario.floatify Scenario.float_repr Scenario.model
                 Scenario.batch_bad_age) = Raise e).
Proof.
  split; [ | split ].
  - exact (proj1 (declared_dtype_failures Scenario.floatify Scenario.float_repr
                    (with_dtype_map Scenario.model Scenario.dtypes_with_note)
                    Scenario.batch [("LIMIT_BAL", "float"); ("AGE", "int")] []
                    "NOTE" "string" eq_refl) eq_refl).
  - exact (proj1 (proj2 (declared_dtype_failures Scenario.floatify Scenario.float_repr
                           (with_dtype_map Scenario.model Scenario.dtypes_string_age)
                           Scenario.batch [("LIMIT_BAL", "float")] []
                           "AGE" "string" eq_refl)
                        _ _ eq_refl eq_refl eq_refl eq_refl eq_refl eq_refl)
                 eq_refl eq_refl eq_refl).
  - refine (proj2 (proj2 (declared_dtype_failures Scenario.floatify Scenario.float_repr
                            Scenario.model Scenario.batch_bad_age
                            [("LIMIT_BAL", "float")] [] "AGE" "int" eq_refl)
                         _ _ eq_refl eq_refl eq_refl eq_refl eq_refl eq_refl)
                  [Str "abc"; Int 41] eq_refl eq_refl _).
    exists (Str "abc"); split; [ left; reflexivity | reflexivity ].
Defined.

(** ** Empty cells in numeric columns *)

(** C4.  The batch of the scenario with an empty AGE in its second row:
    AGE is declared int, the blank has become a null, the conversion yields
    NaN and the cast to int64 raises before the check for missing values is
    reached; the service lets that exception through as it is.  The same
    blank in LIMIT_BAL, declared float, reaches the check and is refused
    with the missing-values message.  Read from a CSV file, the empty AGE
    is a NaN in a float column from the start, and ends the same way. *)
Theorem score_empty_int_cell :
  score Scenario.floatify Scenario.float_repr Scenario.model Scenario.batch_empty_age
  = ([], Raise (IntCastingNaNError
                  "Cannot convert non-finite values (NA or inf) to integer")) /\
  predict_batch Scenario.floatify Scenario.float_repr
                (fun _ => Ok Scenario.batch_empty_age)
                (fun _ => Raise (ValueError "not a spreadsheet"))
                (fun _ => ".csv") (mkAppSettings 60000)
                (mkService Scenario.model) "rows" "batch.csv"
  = ([], Raise (IntCastingNaNError
                  "Cannot convert non-finite values (NA or inf) to integer")) /\
  score Scenario.floatify Scenario.float_repr Scenario.model
        (mkDataFrame [0; 1]
           [("ID", [Int 1001; Int 1002]);
            ("LIMIT_BAL", [Int 200000; Str EmptyString]);
            ("AGE", [Int 35; Int 41])])
  = ([], Raise (ValidationError "Input payload contains missing values.")) /\
  score Scenario.floatify Scenario.float_repr Scenario.model
        (mkDataFrame [0; 1]
           [("ID", [Int 1001; Int 1002]);
            ("LIMIT_BAL", [Int 200000; Int 50000]);
            ("AGE", [Float 35; Float PrimFloat.nan])])
  = ([], Raise (IntCastingNaNError
                  "Cannot convert non-finite values (NA or inf) to integer")).
Proof. repeat split; vm_compute; reflexivity. Qed.

(** * Further properties *)

(** ** Which exceptions validation raises *)

Section ValidationExceptions.

Variable floatify : string -> option number.
Variable float_repr : float -> string.





End ValidationExceptions.


(** ** Validation failures and the estimator *)

Section EstimatorCalls.

Variable floatify : string -> option number.
Variable float_repr : float -> string.

Lemma prepare_features_logs_only (self : CreditDefaultModel) (frame : DataFrame) :
  filter is_PredictProba (trace (_prepare_features floatify float_repr self frame)) = [].
Proof.
  destruct (trace_prepare_features floatify float_repr self frame) as [-> | [-> _]];
    reflexivity.
Qed.

(** A failed validation is the whole run of [score] and of [predict_proba]. *)
Lemma score_stops_at_validation (self : CreditDefaultModel) (frame : DataFrame) (e : exn) :
  outcome (_prepare_features floatify float_repr self frame) = Raise e ->
  score floatify float_repr self frame
  = (trace (_prepare_features floatify float_repr self frame), Raise e) /\
  predict_proba floatify float_repr self frame
  = (trace (_prepare_features floatify float_repr self frame), Raise e).
Proof.
  unfold score, predict_proba.
  destruct (_prepare_features floatify float_repr self frame) as [tr r];
    cbn [outcome trace fst snd]; intros ->; split; reflexivity.
Qed.

(** X2.  [score] calls the estimator at most once: not at all when the
    validation raises, in which case [score] and [predict_proba] end with
    the exception of the validation and nothing but its log records; and
    exactly once, on the prepared features, when the validation passes,
    whatever the estimator then answers. *)
Theorem score_calls_estimator_once_after_validation :
  forall (self : CreditDefaultModel) (frame : DataFrame),
    (forall e,
        outcome (_prepare_features floatify float_repr self frame) = Raise e ->
        outcome (score floatify float_repr self frame) = Raise e /\
        outcome (predict_proba floatify float_repr self frame) = Raise e /\
        filter is_PredictProba (trace (score floatify float_repr self frame)) = [] /\
        filter is_PredictProba (trace (predict_proba floatify float_repr self frame)) = []) /\
    (forall features identifiers,
        outcome (_prepare_features floatify float_repr self frame)
        = Ok (features, identifiers) ->
        filter is_PredictProba (trace (score floatify float_repr self frame))
        = [PredictProba features]).
Proof.
  intros self frame; split.
  - intros e He.
    destruct (score_stops_at_validation self frame e He) as [Hs Hp].
    rewrite Hs, Hp; cbn [outcome trace fst snd].
    rewrite prepare_features_logs_only; repeat split; reflexivity.
  - intros features identifiers H.
    rewrite trace_score, H, filter_app, prepare_features_logs_only; reflexivity.
Qed.

End EstimatorCalls.

(** A payload without identifier column never reaches the estimator; the
    batch of the scenario reaches it once. *)
Lemma score_calls_estimator_once_after_validation_scenario :
  (outcome (score Scenario.floatify Scenario.float_repr Scenario.model
              (mkDataFrame [0] [("LIMIT_BAL", [Int 200000])]))
   = Raise (ValidationError "Missing identifier column: ID.") /\
   outcome (predict_proba Scenario.floatify Scenario.float_repr Scenario.model
              (mkDataFrame [0] [("LIMIT_BAL", [Int 200000])]))
   = Raise (ValidationError "Missing identifier column: ID.") /\
   filter is_PredictProba
     (trace (score Scenario.floatify Scenario.float_repr Scenario.model
               (mkDataFrame [0] [("LIMIT_BAL", [Int 200000])]))) = [] /\
   filter is_PredictProba
     (trace (predict_proba Scenario.floatify Scenario.float_repr Scenario.model
               (mkDataFrame [0] [("LIMIT_BAL", [Int 200000])]))) = []) /\
  filter is_PredictProba
    (trace (score Scenario.floatify Scenario.float_repr Scenario.model Scenario.batch))
  = [PredictProba (mkDataFrame [0; 1] [("LIMIT_BAL", [Float 200000; Float 50000]);
                                       ("AGE", [Int 35; Int 41])])].
Proof.
  split.
  - exact (proj1 (score_calls_estimator_once_after_validation
                    Scenario.floatify Scenario.float_repr Scenario.model
                    (mkDataFrame [0] [("LIMIT_BAL", [Int 200000])])) _ eq_refl).
  - exact (proj2 (score_calls_estimator_once_after_validation
                    Scenario.floatify Scenario.float_repr Scenario.model
                    Scenario.batch) _ _ eq_refl).
Defined.

(** ** The label column and the identifier values *)

Section LabelAndIdentifier.

Variable floatify : string -> option number.
Variable float_repr : float -> string.

(** What the service methods make of a run of [score] that raised. *)
Lemma predict_single_of_score_raise (svc : PredictionService)
      (payload : list (string * cell)) (tr : list event) (e : exn) :
  score floatify float_repr (_model svc) (frame_of_payload payload) = (tr, Raise e) ->
  predict_single floatify float_repr svc payload
  = match e with
    | ValidationError m => (tr, Raise (PredictionError m))
    | ModelError m =>
        (tr ++ [Log EXCEPTION "Model failed to process single payload." []],
         Raise (ModelError m))
    | _ => (tr, Raise e)
    end.
Proof.
  intros H; unfold predict_single; rewrite H; destruct e; reflexivity.
Qed.

(** X3.  A payload that has the identifier column and a column named
    "default" is refused for that column, whatever else it holds or lacks:
    [score] and [predict_proba] raise the validation error of the label
    column without a log record or a call of the estimator, and
    [predict_single] raises [PredictionError] with the same text. *)
Theorem label_column_rejected :
  forall (self : CreditDefaultModel) (frame : DataFrame),
    mem (_id_column self) (columns frame) = true ->
    mem "default" (columns frame) = true ->
    score floatify float_repr self frame
    = ([], Raise (ValidationError
                    "Column 'default' is not allowed in inference payloads.")) /\
    predict_proba floatify float_repr self frame
    = ([], Raise (ValidationError
                    "Column 'default' is not allowed in inference payloads.")) /\
    (forall payload,
        frame = frame_of_payload payload ->
        predict_single floatify float_repr (mkService self) payload
        = ([], Raise (PredictionError
                        "Column 'default' is not allowed in inference payloads."))).
Proof.
  intros self frame Hid Hlabel.
  assert (Hprep : _prepare_features floatify float_repr self frame
                  = ([], Raise (ValidationError
                                  "Column 'default' is not allowed in inference payloads.")))
    by (unfold _prepare_features; rewrite Hid, Hlabel; reflexivity).
  destruct (score_stops_at_validation floatify float_repr self frame _
              (f_equal snd Hprep)) as [Hs Hp].
  rewrite Hprep in Hs, Hp; cbn [trace fst] in Hs, Hp.
  split; [ exact Hs | split; [ exact Hp | ] ].
  intros payload ->.
  rewrite (predict_single_of_score_raise (mkService self) payload _ _ Hs); reflexivity.
Qed.

(** How validation ends when the identifier cells of an accepted payload
    are replaced, the identifier not being a feature. *)
Lemma prepare_outcome_setitem_identifier (self : CreditDefaultModel)
      (frame features : DataFrame) (identifiers ids : Series) :
  mem (_id_column self) (_expected_columns self) = false ->
  prepare_outcome floatify float_repr self frame = Ok (features, identifiers) ->
  prepare_outcome floatify float_repr self (setitem frame (_id_column self) ids)
  = if existsb isnull ids
    then Raise (ValidationError "Identifier column contains missing values.")
    else Ok (features, astype_str float_repr ids).
Proof.
  intros Hfeat Hprep.
  apply prepare_outcome_ok_inv in Hprep
    as [Hid [Hlabel [Hmissing [p [raw [Hp [Hc [Hnull _]]]]]]]].
  unfold prepare_outcome.
  assert (Hcols : columns (setitem frame (_id_column self) ids) = columns frame)
    by (apply setitem_columns; exact Hid).
  assert (Hmiss : missing_columns self (setitem frame (_id_column self) ids) = [])
    by (unfold missing_columns in *; rewrite Hcols; exact Hmissing).
  rewrite Hmiss, Hcols, Hid, Hlabel; cbn [negb nonempty].
  unfold getitem_list, getitem in *; cbn [setitem data index].
  rewrite getitem_data_setitem_other by exact Hfeat.
  rewrite Hp; cbn [rbind]; rewrite Hc; cbn [rbind]; rewrite Hnull.
  rewrite lookup_setitem_same; reflexivity.
Qed.

(** X4.  Take a payload that [score] accepts, the identifier not being a
    feature, and put a null among its identifier cells: [score] raises the
    validation error of the identifier values, and the estimator is not
    called. *)
Theorem null_identifier_rejected :
  forall (self : CreditDefaultModel) (frame : DataFrame) (scored : ScoredFrame)
         (ids : Series),
    mem (_id_column self) (_expected_columns self) = false ->
    outcome (score floatify float_repr self frame) = Ok scored ->
    existsb isnull ids = true ->
    outcome (score floatify float_repr self (setitem frame (_id_column self) ids))
    = Raise (ValidationError "Identifier column contains missing values.") /\
    filter is_PredictProba
      (trace (score floatify float_repr self (setitem frame (_id_column self) ids)))
    = [].
Proof.
  intros self frame scored ids Hfeat H Hnull.
  apply score_ok_inv in H as [features [identifiers [a [column [Hprep _]]]]].
  pose proof (prepare_outcome_setitem_identifier self frame features identifiers ids
                Hfeat Hprep) as Hnew.
  rewrite Hnull, <- outcome_prepare_features in Hnew.
  destruct (score_stops_at_validation floatify float_repr self _ _ Hnew) as [Hs _].
  rewrite Hs; cbn [outcome trace fst snd]; split; [ reflexivity | ].
  apply prepare_features_logs_only.
Qed.

End LabelAndIdentifier.

(** The batch of the scenario with one more column named "default". *)
Lemma label_column_rejected_scenario :
  score Scenario.floatify Scenario.float_repr Scenario.model
        (with_column Scenario.batch "default" [Int 0; Int 1])
  = ([], Raise (ValidationError
                  "Column 'default' is not allowed in inference payloads.")) /\
  predict_single Scenario.floatify Scenario.float_repr (mkService Scenario.model)
                 (Scenario.payload ++ [("default", Int 1)])
  = ([], Raise (PredictionError
                  "Column 'default' is not allowed in inference payloads.")).
Proof.
  split.
  - exact (proj1 (label_column_rejected Scenario.floatify Scenario.float_repr
                    Scenario.model (with_column Scenario.batch "default" [Int 0; Int 1])
                    eq_refl eq_refl)).
  - exact (proj2 (proj2 (label_column_rejected Scenario.floatify Scenario.float_repr
                           Scenario.model
                           (frame_of_payload (Scenario.payload ++ [("default", Int 1)]))
                           eq_refl eq_refl)) _ eq_refl).
Defined.

(** The batch of the scenario with no identifier in its second row. *)
Lemma null_identifier_rejected_scenario :
  outcome (score Scenario.floatify Scenario.float_repr Scenario.model
             (setitem Scenario.batch "ID" [Int 1001; PyNone]))
  = Raise (ValidationError "Identifier column contains missing values.") /\
  filter is_PredictProba
    (trace (score Scenario.floatify Scenario.float_repr Scenario.model
              (setitem Scenario.batch "ID" [Int 1001; PyNone])))
  = [].
Proof.
  exact (null_identifier_rejected Scenario.floatify Scenario.float_repr Scenario.model
           Scenario.batch
           (mkScored [0; 1] [Str "1001"; Str "1002"] [0.73%float; 0.73%float]
                     [true; true])
           [Int 1001; PyNone] eq_refl eq_refl eq_refl).
Defined.

(** ** The service around the model *)

Lemma frame_of_payload_getitem (payload : list (string * cell)) (col : string)
      (raw : Series) :
  getitem (frame_of_payload payload) col = Ok raw ->
  exists c, raw = [c] /\ In (col, c) payload.
Proof.
  unfold getitem, frame_of_payload; cbn [data].
  induction payload as [| [k v] payload IH]; cbn [map lookup fst snd]; [ discriminate | ].
  destruct (String.eqb_spec col k) as [-> | _].
  - intros H; injection H as <-; exists v; split; [ reflexivity | left; reflexivity ].
  - intros H; destruct (IH H) as [c [Hc Hin]]; exists c; split; [ | right ]; assumption.
Qed.

Section ServiceMethods.

Variable floatify : string -> option number.
Variable float_repr : float -> string.
Variable read_csv : string -> result DataFrame.
Variable read_excel : string -> result DataFrame.
Variable suffix_lower : string -> string.
Variable settings : Settings.

Lemma predict_batch_of_score (svc : PredictionService) (file_bytes filename : string)
      (dataframe : DataFrame) :
  _read_input_file read_csv read_excel suffix_lower file_bytes filename = Ok dataframe ->
  Z.of_nat (len dataframe) <= max_batch_rows settings ->
  predict_batch floatify float_repr read_csv read_excel suffix_lower settings
                svc file_bytes filename
  = (scored <- except_model_errors "Model failed to process batch payload."
                 (score floatify float_repr (_model svc) dataframe) ;;
     ret (reset_index scored)).
Proof.
  intros Hread Hle; unfold predict_batch; rewrite Hread; cbn [lift bind].
  destruct (Z.gtb_spec (Z.of_nat (len dataframe)) (max_batch_rows settings));
    [ lia | ].
  destruct (except_model_errors "Model failed to process batch payload."
              (score floatify float_repr (_model svc) dataframe)) as [tr [scored | e]];
    cbn [bind ret app]; reflexivity.
Qed.



End ServiceMethods.


Section ServiceResults.

Variable floatify : string -> option number.
Variable float_repr : float -> string.
Variable read_csv : string -> result DataFrame.
Variable read_excel : string -> result DataFrame.
Variable suffix_lower : string -> string.
Variable settings : Settings.

(** What a frame returned by [score] looks like on a well-formed input. *)
Lemma score_ok_rows (self : CreditDefaultModel) (frame : DataFrame) (scored : ScoredFrame) :
  wf_frame frame ->
  outcome (score floatify float_repr self frame) = Ok scored ->
  s_index scored = index frame /\
  List.length (id scored) = len frame /\
  List.length (probability scored) = len frame /\
  List.length (is_default scored) = len frame.
Proof.
  intros Hwf H.
  apply score_ok_inv in H
    as [features [identifiers [a [column [Hprep [_ [_ [Hlen ->]]]]]]]].
  pose proof (prepare_outcome_shape _ _ _ _ _ _ Hprep) as [_ Hidx].
  apply prepare_outcome_ok_inv in Hprep
    as [_ [_ [_ [projected [raw [_ [_ [_ [Hraw [_ ->]]]]]]]]]].
  assert (Hlen' : len features = len frame) by (unfold len; rewrite Hidx; reflexivity).
  cbn [s_index id probability is_default]; unfold astype_str.
  rewrite !length_map, (getitem_length _ _ _ Hwf Hraw), Hlen, Hlen'.
  repeat split; try assumption; reflexivity.
Qed.

Lemma length_range_from (n : nat) : forall start, List.length (range_from start n) = n.
Proof. induction n as [| n IH]; intros start; cbn; [ | rewrite IH ]; reflexivity. Qed.

(** X6.  A file within the limit, the limit itself included: [predict_batch]
    returns what [score] returns on the frame read, with the index
    renumbered from zero and nothing else changed; so on a well-formed
    frame the result has one row per row of the file. *)
Theorem predict_batch_within_limit :
  forall (svc : PredictionService) (file_bytes filename : string) (dataframe : DataFrame),
    _read_input_file read_csv read_excel suffix_lower file_bytes filename = Ok dataframe ->
    Z.of_nat (len dataframe) <= max_batch_rows settings ->
    wf_frame dataframe ->
    (forall scored,
        outcome (score floatify float_repr (_model svc) dataframe) = Ok scored ->
        outcome (predict_batch floatify float_repr read_csv read_excel suffix_lower
                               settings svc file_bytes filename)
        = Ok (mkScored (RangeIndex (len dataframe)) (id scored) (probability scored)
                       (is_default scored))) /\
    (forall out,
        outcome (predict_batch floatify float_repr read_csv read_excel suffix_lower
                               settings svc file_bytes filename) = Ok out ->
        s_index out = RangeIndex (len dataframe) /\
        List.length (s_index out) = len dataframe /\
        List.length (id out) = len dataframe /\
        List.length (probability out) = len dataframe /\
        List.length (is_default out) = len dataframe).
Proof.
  intros svc file_bytes filename dataframe Hread Hle Hwf.
  rewrite (predict_batch_of_score floatify float_repr read_csv read_excel suffix_lower
             settings svc file_bytes filename dataframe Hread Hle).
  split.
  - intros scored Hs; rewrite outcome_bind.
    rewrite (proj2 (outcome_except_ok "Model failed to process batch payload." _ _) Hs).
    cbn [rbind outcome ret snd]; unfold reset_index.
    destruct (score_ok_rows _ _ _ Hwf Hs) as [Hidx _].
    rewrite Hidx; reflexivity.
  - intros out H; rewrite outcome_bind in H.
    apply rbind_ok_inv in H as [scored [Hs H]].
    apply outcome_except_ok in Hs; injection H as <-.
    destruct (score_ok_rows _ _ _ Hwf Hs) as [Hidx [Hid [Hp Hd]]].
    unfold reset_index; cbn [s_index id probability is_default].
    rewrite Hidx; fold (len dataframe); unfold RangeIndex.
    rewrite length_range_from; repeat split; assumption.
Qed.

(** X7.  The file name alone decides how an upload is read.  A suffix
    other than ".csv" and ".xls" ends [predict_batch] with the
    [PredictionError] of unsupported files, whatever the bytes, the model
    and the limit; with ".csv" the frame is the one [read_csv] yields and
    with ".xls" the one [read_excel] yields; and an exception of the reader
    is the outcome of [predict_batch], unchanged and unlogged. *)
Theorem predict_batch_file_intake :
  forall (svc : PredictionService) (file_bytes filename : string),
    (String.eqb (suffix_lower filename) ".csv" = false ->
     String.eqb (suffix_lower filename) ".xls" = false ->
     predict_batch floatify float_repr read_csv read_excel suffix_lower settings
                   svc file_bytes filename
     = ([], Raise (PredictionError "Only CSV and XLS files are supported."))) /\
    (suffix_lower filename = ".csv" ->
     _read_input_file read_csv read_excel suffix_lower file_bytes filename
     = read_csv file_bytes) /\
    (suffix_lower filename = ".xls" ->
     _read_input_file read_csv read_excel suffix_lower file_bytes filename
     = read_excel file_bytes) /\
    (forall e,
        _read_input_file read_csv read_excel suffix_lower file_bytes filename = Raise e ->
        predict_batch floatify float_repr read_csv read_excel suffix_lower settings
                      svc file_bytes filename
        = ([], Raise e)).
Proof.
  intros svc file_bytes filename; repeat split.
  - intros Hcsv Hxls; unfold predict_batch, _read_input_file.
    rewrite Hcsv, Hxls; reflexivity.
  - intros H; unfold _read_input_file; rewrite H; reflexivity.
  - intros H; unfold _read_input_file; rewrite H; reflexivity.
  - intros e H; unfold predict_batch; rewrite H; reflexivity.
Qed.

End ServiceResults.

(** A file of two rows against a limit of two. *)
Lemma predict_batch_within_limit_scenario :
  outcome (predict_batch Scenario.floatify Scenario.float_repr
             (fun _ => Ok (mkDataFrame [7; 3] (data Scenario.batch)))
             (fun _ => Raise (ValueError "not a spreadsheet"))
             (fun _ => ".csv") (mkAppSettings 2)
             (mkService Scenario.model) "rows" "batch.csv")
  = Ok (mkScored (RangeIndex (len (mkDataFrame [7; 3] (data Scenario.batch))))
                 [Str "1001"; Str "1002"] [0.73%float; 0.73%float] [true; true]).
Proof.
  refine (proj1 (predict_batch_within_limit Scenario.floatify Scenario.float_repr
                   (fun _ => Ok (mkDataFrame [7; 3] (data Scenario.batch)))
                   (fun _ => Raise (ValueError "not a spreadsheet"))
                   (fun _ => ".csv") (mkAppSettings 2)
                   (mkService Scenario.model) "rows" "batch.csv"
                   (mkDataFrame [7; 3] (data Scenario.batch)) eq_refl _ _)
                (mkScored [7; 3] [Str "1001"; Str "1002"] [0.73%float; 0.73%float]
                          [true; true]) eq_refl).
  - vm_compute; discriminate.
  - repeat constructor.
Defined.

(** A text file is refused unread; a reader that fails is the failure of the
    request. *)
Lemma predict_batch_file_intake_scenario :
  predict_batch Scenario.floatify Scenario.float_repr
                (fun _ => Ok Scenario.batch)
                (fun _ => Raise (ValueError "not a spreadsheet"))
                (fun name => if String.eqb name "batch.xls" then ".xls" else ".txt")
                (mkAppSettings 60000) (mkService Scenario.model) "rows" "batch.txt"
  = ([], Raise (PredictionError "Only CSV and XLS files are supported.")) /\
  predict_batch Scenario.floatify Scenario.float_repr
                (fun _ => Ok Scenario.batch)
                (fun _ => Raise (ValueError "not a spreadsheet"))
                (fun name => if String.eqb name "batch.xls" then ".xls" else ".txt")
                (mkAppSettings 60000) (mkService Scenario.model) "rows" "batch.xls"
  = ([], Raise (ValueError "not a spreadsheet")).
Proof.
  split.
  - exact (proj1 (predict_batch_file_intake Scenario.floatify Scenario.float_repr
                    (fun _ => Ok Scenario.batch)
                    (fun _ => Raise (ValueError "not a spreadsheet"))
                    (fun name => if String.eqb name "batch.xls" then ".xls" else ".txt")
                    (mkAppSettings 60000) (mkService Scenario.model) "rows" "batch.txt")
                 eq_refl eq_refl).
  - exact (proj2 (proj2 (proj2 (predict_batch_file_intake
                                  Scenario.floatify Scenario.float_repr
                                  (fun _ => Ok Scenario.batch)
                                  (fun _ => Raise (ValueError "not a spreadsheet"))
                                  (fun name => if String.eqb name "batch.xls"
                                               then ".xls" else ".txt")
                                  (mkAppSettings 60000) (mkService Scenario.model)
                                  "rows" "batch.xls")))
                 _ eq_refl).
Defined.

Section SingleRecord.

Variable floatify : string -> option number.
Variable float_repr : float -> string.

(** X8.  The record that [predict_single] returns always carries an
    identifier: the text of the identifier value of the payload, which is
    not null.  Its probability is the entry of column 1 of the single row
    that the estimator returned for the prepared features, its threshold is
    that of the model and its flag compares the two. *)
Theorem predict_single_record :
  forall (svc : PredictionService) (payload : list (string * cell)) (r : Prediction),
    outcome (predict_single floatify float_repr svc payload) = Ok r ->
    (exists c,
        In (_id_column (_model svc), c) payload /\
        isnull c = false /\
        r_id r = Some (str_cell float_repr c)) /\
    (exists features identifiers a,
        outcome (_prepare_features floatify float_repr (_model svc)
                                   (frame_of_payload payload))
        = Ok (features, identifiers) /\
        _estimator (_model svc) features = Ok a /\
        take_column_1 a = Ok [r_probability r]) /\
    r_threshold r = _threshold (_model svc) /\
    r_is_default r = float_ge (r_probability r) (_threshold (_model svc)).
Proof.
  intros svc payload r H; unfold predict_single in H.
  rewrite outcome_bind in H; apply rbind_ok_inv in H as [scored [Hs H]].
  apply outcome_except_ok, score_ok_inv in Hs
    as [features [identifiers [a [column [Hprep [Hest [Hcol [Hlen ->]]]]]]]].
  pose proof (prepare_outcome_shape _ _ _ _ _ _ Hprep) as [_ Hidx].
  pose proof Hprep as Hinv.
  apply prepare_outcome_ok_inv in Hinv
    as [_ [_ [_ [projected [raw [_ [_ [_ [Hraw [Hnull ->]]]]]]]]]].
  destruct (frame_of_payload_getitem _ _ _ Hraw) as [c [-> Hin]].
  assert (Hone : List.length column = 1%nat)
    by (rewrite Hlen; unfold len; rewrite Hidx; reflexivity).
  destruct column as [| p [| q column]]; try discriminate Hone.
  cbn in H; injection H as <-; cbn [r_id r_probability r_threshold r_is_default].
  cbn [existsb] in Hnull; rewrite orb_false_r in Hnull.
  repeat split.
  - exists c; repeat split; assumption.
  - exists features, (astype_str float_repr [c]), a; repeat split; try assumption.
    rewrite outcome_prepare_features; exact Hprep.
Qed.

End SingleRecord.

(** The single row of the scenario: identifier 1001, probability 0.73. *)
Lemma predict_single_record_scenario :
  (exists c,
      In ("ID", c) Scenario.payload /\ isnull c = false /\
      Some "1001" = Some (str_cell Scenario.float_repr c)) /\
  (exists features identifiers a,
      outcome (_prepare_features Scenario.floatify Scenario.float_repr Scenario.model
                                 (frame_of_payload Scenario.payload))
      = Ok (features, identifiers) /\
      Scenario.binary_estimator features = Ok a /\
      take_column_1 a = Ok [0.73%float]) /\
  0.5%float = 0.5%float /\
  true = float_ge 0.73%float 0.5%float.
Proof.
  exact (predict_single_record Scenario.floatify Scenario.float_repr
           (mkService Scenario.model) Scenario.payload
           (mkPrediction 0.73%float true 0.5%float (Some "1001")) eq_refl).
Defined.

(** ** Loading the artifacts *)



(** ** A signature without expected columns *)

Lemma lookup_Some_is_mem (col : string) (d : list (string * Series)) (v : Series) :
  lookup col d = Some v -> mem col (map fst d) = true.
Proof.
  intros H; apply mem_In, (in_map fst _ (col, v)), lookup_In, H.
Qed.

Section NoExpectedColumns.

Variable floatify : string -> option number.
Variable float_repr : float -> string.

(** The loop passes over every entry of a frame that has no column. *)
Lemma coerce_dtypes_no_columns (dtype_map : list (string * string)) (features : DataFrame) :
  columns features = [] -> coerce_dtypes floatify dtype_map features = Ok features.
Proof.
  intros Hcols; induction dtype_map as [| [column dtype] rest IH]; [ reflexivity | ].
  cbn [coerce_dtypes]; rewrite Hcols; exact IH.
Qed.

(** X10.  A model loaded from a signature that has no [expected_columns]
    key checks nothing about the features: every payload with the
    identifier column, without a column named "default" and without a null
    identifier is accepted, whatever its other columns hold and whatever
    dtypes the signature declares, and the features handed on have no
    column at all. *)
Theorem no_expected_columns_accepts_any_features :
  forall (settings : ModelSettings) (disk : Artifacts) (self : CreditDefaultModel)
         (sg : SignatureJson),
    outcome (init settings disk) = Ok self ->
    signature_file disk = Some sg ->
    sig_expected_columns sg = None ->
    forall (frame : DataFrame) (raw : Series),
      getitem frame (_id_column self) = Ok raw ->
      mem "default" (columns frame) = false ->
      existsb isnull raw = false ->
      outcome (_prepare_features floatify float_repr self frame)
      = Ok (mkDataFrame (index frame) [], astype_str float_repr raw).
Proof.
  intros settings disk self sg Hinit Hsg Hnone frame raw Hraw Hlabel Hnull.
  apply init_ok_inv in Hinit as [est [sg' [md [_ [Hsg' [_ [_ [_ [Hexp _]]]]]]]]].
  rewrite Hsg in Hsg'; injection Hsg' as <-.
  rewrite Hnone in Hexp; cbn [get_default] in Hexp.
  rewrite outcome_prepare_features; unfold prepare_outcome, missing_columns.
  assert (Hid : mem (_id_column self) (columns frame) = true).
  { unfold getitem in Hraw.
    destruct (lookup (_id_column self) (data frame)) as [v |] eqn:Hl; [ | discriminate ].
    apply (lookup_Some_is_mem _ _ _ Hl). }
  rewrite Hid, Hlabel, Hexp; cbn [negb filter nonempty getitem_list getitem_data rbind].
  rewrite coerce_dtypes_no_columns by reflexivity; cbn [rbind].
  rewrite Hraw; cbn [rbind any_null replace_blank data map existsb index].
  rewrite Hnull; reflexivity.
Qed.

End NoExpectedColumns.

(** A signature that only declares dtypes: a payload of text is accepted. *)
Lemma no_expected_columns_accepts_any_features_scenario :
  outcome (_prepare_features Scenario.floatify Scenario.float_repr
             (mkModel Scenario.binary_estimator [] [("AGE", "int")] 0.5%float "ID")
             (mkDataFrame [0] [("ID", [Int 1001]); ("AGE", [Str "abc"])]))
  = Ok (mkDataFrame [0] [], [Str "1001"]).
Proof.
  exact (no_expected_columns_accepts_any_features
           Scenario.floatify Scenario.float_repr Scenario.model_settings
           (mkArtifacts (Some Scenario.binary_estimator)
                        (Some (mkSignature None (Some [("AGE", "int")]) None))
                        (Some (mkMetadata (Some 0.5%float))))
           (mkModel Scenario.binary_estimator [] [("AGE", "int")] 0.5%float "ID")
           (mkSignature None (Some [("AGE", "int")]) None)
           eq_refl eq_refl eq_refl
           (mkDataFrame [0] [("ID", [Int 1001]); ("AGE", [Str "abc"])])
           [Int 1001] eq_refl eq_refl eq_refl).
Defined.

(** ** The loop over the declared dtypes, column by column *)

Lemma setitem_data_comm (d : list (string * Series)) (k1 k2 : string) (v1 v2 : Series) :
  String.eqb k1 k2 = false ->
  mem k1 (map fst d) = true ->
  mem k2 (map fst d) = true ->
  setitem_data (setitem_data d k1 v1) k2 v2 = setitem_data (setitem_data d k2 v2) k1 v1.
Proof.
  intros Hne; induction d as [| [k w] d IH]; [ discriminate | ].
  intros H1 H2; cbn [setitem_data].
  destruct (String.eqb_spec k1 k) as [-> | Hk1].
  - rewrite String.eqb_sym in Hne; cbn [setitem_data]; rewrite Hne; cbn [setitem_data].
    rewrite String.eqb_refl; reflexivity.
  - destruct (String.eqb_spec k2 k) as [-> | Hk2]; cbn [setitem_data].
    + rewrite String.eqb_refl, Hne; reflexivity.
    + apply String.eqb_neq in Hk1, Hk2; rewrite Hk1, Hk2; f_equal.
      unfold mem in *; cbn [map fst existsb] in H1, H2.
      rewrite Hk1 in H1; rewrite Hk2 in H2; apply IH; assumption.
Qed.

Lemma setitem_data_again (d : list (string * Series)) (col : string) (x y : Series) :
  setitem_data (setitem_data d col x) col y = setitem_data d col y.
Proof.
  induction d as [| [k w] d IH]; cbn [setitem_data].
  - rewrite String.eqb_refl; reflexivity.
  - destruct (String.eqb col k) eqn:Hk; cbn [setitem_data]; rewrite Hk;
      [ reflexivity | f_equal; exact IH ].
Qed.

Lemma setitem_comm (f : DataFrame) (k1 k2 : string) (v1 v2 : Series) :
  String.eqb k1 k2 = false ->
  mem k1 (columns f) = true ->
  mem k2 (columns f) = true ->
  setitem (setitem f k1 v1) k2 v2 = setitem (setitem f k2 v2) k1 v1.
Proof.
  intros Hne H1 H2; unfold setitem; cbn [index data]; f_equal.
  apply setitem_data_comm; assumption.
Qed.

Lemma map_values_setitem_data (g : Series -> Series) (d : list (string * Series))
      (col : string) (x : Series) :
  map (fun kv => (fst kv, g (snd kv))) (setitem_data d col x)
  = setitem_data (map (fun kv => (fst kv, g (snd kv))) d) col (g x).
Proof.
  induction d as [| [k w] d IH]; cbn [setitem_data map fst snd]; [ reflexivity | ].
  destruct (String.eqb col k); cbn [map fst snd]; [ reflexivity | ].
  rewrite IH; reflexivity.
Qed.

Lemma replace_blank_setitem (f : DataFrame) (col : string) (x : Series) :
  replace_blank (setitem f col x)
  = setitem (replace_blank f) col (map replace_blank_cell x).
Proof.
  unfold replace_blank, setitem; cbn [index data]; f_equal.
  apply (map_values_setitem_data (map replace_blank_cell)).
Qed.

Lemma getitem_data_setitem (d p : list (string * Series)) (cols : list string)
      (col : string) (x : Series) :
  NoDup cols -> In col cols ->
  getitem_data d cols = Ok p ->
  getitem_data (setitem_data d col x) cols = Ok (setitem_data p col x).
Proof.
  intros Hnodup; revert p; induction Hnodup as [| a cols Hnotin Hnodup IH];
    intros p Hin H; [ contradiction | ].
  cbn [getitem_data] in *.
  destruct (lookup a d) as [v |] eqn:Hv; [ | discriminate ].
  destruct (getitem_data d cols) as [rest | e] eqn:Hrest; cbn [rbind] in H;
    [ | discriminate ].
  injection H as <-.
  destruct (String.eqb_spec col a) as [-> | Hne].
  - rewrite lookup_setitem_same, getitem_data_setitem_other, Hrest.
    + cbn [rbind setitem_data]; rewrite String.eqb_refl; reflexivity.
    + destruct (mem a cols) eqn:Hm; [ | reflexivity ].
      apply mem_In in Hm; contradiction.
  - destruct Hin as [<- | Hin]; [ contradiction | ].
    assert (Hac : String.eqb a col = false)
      by (apply String.eqb_neq; intros ->; apply Hne; reflexivity).
    rewrite lookup_setitem_other, Hv by exact Hac.
    rewrite (IH rest Hin eq_refl); cbn [rbind setitem_data].
    apply String.eqb_neq in Hne; rewrite Hne; reflexivity.
Qed.

Section Columnwise.

Variable floatify : string -> option number.

(** One turn of the loop on a column that the frame has. *)
Lemma coerce_dtypes_turn (column dtype : string) (rest : list (string * string))
      (features : DataFrame) (values : Series) :
  lookup column (data features) = Some values ->
  coerce_dtypes floatify ((column, dtype) :: rest) features
  = (let? v := coerce_column floatify column dtype values in
     coerce_dtypes floatify rest (setitem features column v)).
Proof.
  intros Hl; cbn [coerce_dtypes]; unfold columns.
  rewrite (lookup_Some_is_mem _ _ _ Hl); cbn [negb].
  unfold getitem, coerce_column; rewrite Hl; cbn [rbind].
  destruct (startswith dtype "int").
  { destruct (to_numeric floatify values) as [numeric | e]; cbn [rbind]; [ | reflexivity ].
    destruct (astype_int64 numeric); reflexivity. }
  destruct (startswith dtype "float").
  { destruct (to_numeric floatify values); reflexivity. }
  destruct (String.eqb dtype "category"); reflexivity.
Qed.

(** A column without a declared dtype is not looked at: changing it in the
    input changes it in the output, and nothing else. *)
Lemma coerce_dtypes_setitem_undeclared (col : string) (x : Series)
      (dtype_map : list (string * string)) :
  ~ In col (map fst dtype_map) ->
  forall features,
    mem col (columns features) = true ->
    coerce_dtypes floatify dtype_map (setitem features col x)
    = rmap (fun g => setitem g col x) (coerce_dtypes floatify dtype_map features).
Proof.
  induction dtype_map as [| [k dk] rest IH]; intros Hnot features Hcol;
    [ reflexivity | ].
  assert (Hne : String.eqb k col = false)
    by (apply String.eqb_neq; intros ->; apply Hnot; left; reflexivity).
  assert (Hrest : ~ In col (map fst rest)) by (intros H; apply Hnot; right; exact H).
  destruct (lookup k (data features)) as [values |] eqn:Hk.
  - assert (Hk' : lookup k (data (setitem features col x)) = Some values)
      by (cbn [setitem data]; rewrite lookup_setitem_other; assumption).
    rewrite (coerce_dtypes_turn _ _ _ _ _ Hk'), (coerce_dtypes_turn _ _ _ _ _ Hk).
    destruct (coerce_column floatify k dk values) as [v | e]; cbn [rbind];
      [ | reflexivity ].
    rewrite setitem_comm.
    + apply IH; [ exact Hrest | ].
      rewrite setitem_columns; [ exact Hcol | apply (lookup_Some_is_mem _ _ _ Hk) ].
    + rewrite String.eqb_sym; exact Hne.
    + exact Hcol.
    + apply (lookup_Some_is_mem _ _ _ Hk).
  - assert (Hmem : mem k (columns features) = false).
    { destruct (mem k (columns features)) eqn:Hm; [ | reflexivity ].
      destruct (lookup_Some_mem _ _ Hm) as [v Hv]; congruence. }
    cbn [coerce_dtypes]; rewrite setitem_columns, Hmem by exact Hcol; cbn [negb].
    apply IH; assumption.
Qed.

Lemma coerce_dtypes_lookup_undeclared (col : string) (dtype_map : list (string * string)) :
  ~ In col (map fst dtype_map) ->
  forall features coerced,
    coerce_dtypes floatify dtype_map features = Ok coerced ->
    lookup col (data coerced) = lookup col (data features).
Proof.
  induction dtype_map as [| [k dk] rest IH]; intros Hnot features coerced H.
  - injection H as <-; reflexivity.
  - assert (Hne : String.eqb col k = false)
      by (apply String.eqb_neq; intros ->; apply Hnot; left; reflexivity).
    assert (Hrest : ~ In col (map fst rest)) by (intros H'; apply Hnot; right; exact H').
    destruct (lookup k (data features)) as [values |] eqn:Hk.
    + rewrite (coerce_dtypes_turn _ _ _ _ _ Hk) in H.
      apply rbind_ok_inv in H as [v [_ H]].
      rewrite (IH Hrest _ _ H); cbn [setitem data].
      apply lookup_setitem_other; exact Hne.
    + cbn [coerce_dtypes] in H.
      destruct (mem k (columns features)) eqn:Hm; cbn [negb] in H;
        [ | apply (IH Hrest _ _ H) ].
      destruct (lookup_Some_mem _ _ Hm) as [v Hv]; congruence.
Qed.

(** With one dtype per column, as in a dictionary, a declared column comes
    out as its own turn of the loop left it. *)
Lemma coerce_dtypes_lookup_declared (col dtype : string)
      (dtype_map : list (string * string)) :
  NoDup (map fst dtype_map) ->
  In (col, dtype) dtype_map ->
  forall features coerced values,
    lookup col (data features) = Some values ->
    coerce_dtypes floatify dtype_map features = Ok coerced ->
    exists v,
      coerce_column floatify col dtype values = Ok v /\
      lookup col (data coerced) = Some v.
Proof.
  induction dtype_map as [| [k dk] rest IH]; intros Hnodup Hin features coerced values Hl H;
    [ contradiction | ].
  cbn [map fst] in Hnodup; inversion Hnodup as [| ? ? Hnotin Hnodup']; subst.
  destruct Hin as [Heq | Hin].
  - injection Heq as -> ->.
    rewrite (coerce_dtypes_turn _ _ _ _ _ Hl) in H.
    apply rbind_ok_inv in H as [v [Hv H]].
    exists v; split; [ exact Hv | ].
    rewrite (coerce_dtypes_lookup_undeclared _ _ Hnotin _ _ H); cbn [setitem data].
    apply lookup_setitem_same.
  - assert (Hne : String.eqb col k = false).
    { apply String.eqb_neq; intros ->; apply Hnotin.
      apply (in_map fst _ (k, dtype)); exact Hin. }
    destruct (lookup k (data features)) as [kvalues |] eqn:Hk.
    + rewrite (coerce_dtypes_turn _ _ _ _ _ Hk) in H.
      apply rbind_ok_inv in H as [v [_ H]].
      apply (IH Hnodup' Hin _ _ values) in H; [ exact H | ].
      cbn [setitem data]; rewrite lookup_setitem_other; assumption.
    + cbn [coerce_dtypes] in H.
      destruct (mem k (columns features)) eqn:Hm; cbn [negb] in H;
        [ | apply (IH Hnodup' Hin _ _ values Hl H) ].
      destruct (lookup_Some_mem _ _ Hm) as [v Hv]; congruence.
Qed.

(** Changing a declared column of an input that the loop accepts: the turns
    of the other columns go as before, and its own turn decides. *)
Lemma coerce_dtypes_setitem_declared (col dtype : string) (x : Series)
      (dtype_map : list (string * string)) :
  NoDup (map fst dtype_map) ->
  In (col, dtype) dtype_map ->
  forall features coerced,
    mem col (columns features) = true ->
    coerce_dtypes floatify dtype_map features = Ok coerced ->
    coerce_dtypes floatify dtype_map (setitem features col x)
    = (let? v := coerce_column floatify col dtype x in Ok (setitem coerced col v)).
Proof.
  induction dtype_map as [| [k dk] rest IH]; intros Hnodup Hin features coerced Hcol H;
    [ contradiction | ].
  cbn [map fst] in Hnodup; inversion Hnodup as [| ? ? Hnotin Hnodup']; subst.
  destruct Hin as [Heq | Hin].
  - injection Heq as -> ->.
    destruct (lookup_Some_mem _ _ Hcol) as [values Hl].
    rewrite (coerce_dtypes_turn _ _ _ _ _ Hl) in H.
    apply rbind_ok_inv in H as [v0 [_ H]].
    assert (Hl' : lookup col (data (setitem features col x)) = Some x)
      by (cbn [setitem data]; apply lookup_setitem_same).
    rewrite (coerce_dtypes_turn _ _ _ _ _ Hl').
    destruct (coerce_column floatify col dtype x) as [v | e]; cbn [rbind];
      [ | reflexivity ].
    assert (Hagain : forall y, setitem (setitem features col y) col v
                               = setitem features col v).
    { intros y; unfold setitem; cbn [index data]; f_equal; apply setitem_data_again. }
    rewrite Hagain, <- (Hagain v0).
    rewrite (coerce_dtypes_setitem_undeclared col v rest Hnotin), H; [ reflexivity | ].
    rewrite setitem_columns; assumption.
  - assert (Hne : String.eqb k col = false).
    { apply String.eqb_neq; intros ->; apply Hnotin.
      apply (in_map fst _ (col, dtype)); exact Hin. }
    destruct (lookup k (data features)) as [kvalues |] eqn:Hk.
    + assert (Hk' : lookup k (data (setitem features col x)) = Some kvalues)
        by (cbn [setitem data]; rewrite lookup_setitem_other; assumption).
      rewrite (coerce_dtypes_turn _ _ _ _ _ Hk) in H.
      apply rbind_ok_inv in H as [v [Hv H]].
      rewrite (coerce_dtypes_turn _ _ _ _ _ Hk'), Hv; cbn [rbind].
      rewrite setitem_comm.
      * apply (IH Hnodup' Hin); [ | exact H ].
        rewrite setitem_columns; [ exact Hcol | apply (lookup_Some_is_mem _ _ _ Hk) ].
      * rewrite String.eqb_sym; exact Hne.
      * exact Hcol.
      * apply (lookup_Some_is_mem _ _ _ Hk).
    + assert (Hmem : mem k (columns features) = false).
      { destruct (mem k (columns features)) eqn:Hm; [ | reflexivity ].
        destruct (lookup_Some_mem _ _ Hm) as [v Hv]; congruence. }
      cbn [coerce_dtypes] in *; rewrite setitem_columns by exact Hcol.
      rewrite Hmem in *; cbn [negb] in *.
      apply (IH Hnodup' Hin _ _ Hcol H).
Qed.

End Columnwise.

(** ** What the estimator is given *)




Lemma any_null_lookup (frame : DataFrame) (col : string) (cells : Series) :
  any_null frame = false -> lookup col (data frame) = Some cells ->
  existsb isnull cells = false.
Proof.
  intros Hnull Hl; destruct (existsb isnull cells) eqn:H; [ | reflexivity ].
  assert (Hhas : has_null col frame) by (exists cells; split; assumption).
  apply any_null_of_has_null in Hhas; congruence.
Qed.

Section PreparedValues.

Variable floatify : string -> option number.
Variable float_repr : float -> string.





Lemma coerce_column_typed (column dtype : string) (values v : Series) :
  coerce_column floatify column dtype values = Ok v -> typed dtype v.
Proof.
  unfold coerce_column, typed.
  destruct (startswith dtype "int").
  { intros H; apply rbind_ok_inv in H as [numeric [_ H]].
    apply rbind_ok_inv in H as [ints [_ H]]; injection H as <-.
    apply Forall_forall; intros c Hc; apply in_map_iff in Hc as [z [<- _]].
    exists z; reflexivity. }
  destruct (startswith dtype "float"); [ | trivial ].
  intros H; apply rbind_ok_inv in H as [numeric [_ H]]; injection H as <-.
  apply Forall_forall; intros c Hc; apply in_map_iff in Hc as [f [<- _]].
  exists f; reflexivity.
Qed.

(** Where an accepted payload stands just before the loop. *)
Lemma accepted_column (self : CreditDefaultModel) (frame features : DataFrame)
      (identifiers : Series) (col : string) (cells : Series) :
  prepare_outcome floatify float_repr self frame = Ok (features, identifiers) ->
  In col (_expected_columns self) ->
  lookup col (data frame) = Some cells ->
  exists projected,
    getitem_list frame (_expected_columns self) = Ok projected /\
    lookup col (data (replace_blank projected)) = Some (map replace_blank_cell cells) /\
    coerce_dtypes floatify (_dtype_map self) (replace_blank projected) = Ok features /\
    any_null features = false.
Proof.
  intros H Hexp Hl.
  apply prepare_outcome_ok_inv in H
    as [_ [_ [_ [projected [raw [Hp [Hc [Hnull _]]]]]]]].
  exists projected; repeat split; try assumption.
  unfold getitem_list in Hp; apply rbind_ok_inv in Hp as [d [Hd Hp]].
  injection Hp as <-; unfold replace_blank; cbn [data].
  rewrite (lookup_map_values (map replace_blank_cell)),
    (getitem_data_lookup _ _ _ _ Hd Hexp), Hl; reflexivity.
Qed.

(** X11.  In the features of an accepted payload, the signature declaring
    one dtype per column, a column declared int* holds integers only and a
    column declared float* holds floats only; and none of their cells is
    null, so none is NaN. *)
Theorem prepared_columns_have_declared_kind :
  forall (self : CreditDefaultModel) (frame features : DataFrame) (identifiers : Series)
         (col dtype : string),
    NoDup (map fst (_dtype_map self)) ->
    outcome (_prepare_features floatify float_repr self frame)
    = Ok (features, identifiers) ->
    In (col, dtype) (_dtype_map self) ->
    In col (_expected_columns self) ->
    exists cells,
      lookup col (data features) = Some cells /\
      typed dtype cells /\
      existsb isnull cells = false.
Proof.
  intros self frame features identifiers col dtype Hnodup H Hin Hexp.
  rewrite outcome_prepare_features in H.
  pose proof (prepare_outcome_ok_inv _ _ _ _ _ _ H) as [_ [_ [Hmissing _]]].
  assert (Hcol : mem col (columns frame) = true).
  { destruct (mem col (columns frame)) eqn:Hm; [ reflexivity | exfalso ].
    assert (Habs : In col (missing_columns self frame)).
    { apply missing_columns_spec; split; [ exact Hexp | ].
      intros Hc; apply mem_In in Hc; congruence. }
    rewrite Hmissing in Habs; contradiction. }
  destruct (lookup_Some_mem _ _ Hcol) as [cells Hl].
  destruct (accepted_column _ _ _ _ _ _ H Hexp Hl) as [projected [_ [Hlp [Hc Hnull]]]].
  destruct (coerce_dtypes_lookup_declared floatify col dtype _ Hnodup Hin _ _ _ Hlp Hc)
    as [v [Hv Hlv]].
  exists v; repeat split.
  - exact Hlv.
  - apply (coerce_column_typed _ _ _ _ Hv).
  - apply (any_null_lookup _ _ _ Hnull Hlv).
Qed.


End PreparedValues.

(** The batch of the scenario: LIMIT_BAL, declared float, holds floats; AGE,
    declared int, holds integers. *)
Lemma prepared_columns_have_declared_kind_scenario :
  exists cells,
    lookup "AGE" [("LIMIT_BAL", [Float 200000; Float 50000]); ("AGE", [Int 35; Int 41])]
    = Some cells /\
    typed "int" cells /\
    existsb isnull cells = false.
Proof.
  refine (prepared_columns_have_declared_kind Scenario.floatify Scenario.float_repr
            Scenario.model Scenario.batch
            (mkDataFrame [0; 1] [("LIMIT_BAL", [Float 200000; Float 50000]);
                                 ("AGE", [Int 35; Int 41])])
            [Str "1001"; Str "1002"] "AGE" "int" _ eq_refl _ _).
  - repeat constructor; cbn; intuition discriminate.
  - right; left; reflexivity.
  - right; left; reflexivity.
Defined.


(** ** Blanking a cell of an accepted payload *)

Section BlankedCell.

Variable floatify : string -> option number.
Variable float_repr : float -> string.

Lemma convert_cell_blanked (c : cell) :
  null_or_blank c = true ->
  exists f, convert_cell floatify (replace_blank_cell c) = Some (NFloat f).
Proof.
  destruct c as [| | z | f | s]; cbn [null_or_blank isnull replace_blank_cell];
    intros H; try discriminate.
  - exists PrimFloat.nan; reflexivity.
  - exists PrimFloat.nan; reflexivity.
  - exists f; reflexivity.
  - rewrite H; exists PrimFloat.nan; reflexivity.
Qed.

Lemma maybe_convert_numeric_blanked (cells cells' : Series) :
  Forall2 kept_or_blanked cells cells' ->
  forall pos ns,
    maybe_convert_numeric floatify pos (map replace_blank_cell cells) = Ok ns ->
    exists ns', maybe_convert_numeric floatify pos (map replace_blank_cell cells') = Ok ns'.
Proof.
  induction 1 as [| old new cells cells' Hcell _ IH]; intros pos ns H; [ eauto | ].
  cbn [map maybe_convert_numeric] in *.
  destruct (convert_cell floatify (replace_blank_cell old)) as [n |] eqn:Hold;
    [ | discriminate ].
  apply rbind_ok_inv in H as [ns0 [Hrest _]].
  destruct (IH _ _ Hrest) as [ns' ->].
  destruct Hcell as [-> | Hblank].
  - rewrite Hold; cbn [rbind]; eauto.
  - destruct (convert_cell_blanked _ Hblank) as [f ->]; cbn [rbind]; eauto.
Qed.

Lemma to_numeric_blanked (cells cells' : Series) (numeric : numeric_column) :
  Forall2 kept_or_blanked cells cells' ->
  existsb null_or_blank cells' = true ->
  to_numeric floatify (map replace_blank_cell cells) = Ok numeric ->
  exists v,
    to_numeric floatify (map replace_blank_cell cells') = Ok (Float64 v) /\
    existsb PrimFloat.is_nan v = true.
Proof.
  intros Hcells Hblank H; unfold to_numeric in H.
  apply rbind_ok_inv in H as [ns [Hns _]].
  destruct (maybe_convert_numeric_blanked _ _ Hcells _ _ Hns) as [ns' Hns'].
  assert (Hnum : exists numeric',
             to_numeric floatify (map replace_blank_cell cells') = Ok numeric')
    by (unfold to_numeric; rewrite Hns'; cbn [rbind]; eauto).
  destruct Hnum as [numeric' Hnum].
  assert (Hnull : existsb isnull (map replace_blank_cell cells') = true).
  { rewrite existsb_exists in *; destruct Hblank as [c [Hin Hc]].
    exists (replace_blank_cell c); split; [ apply in_map; exact Hin | ].
    rewrite null_or_blank_replaced; exact Hc. }
  destruct (to_numeric_null floatify _ _ Hnum Hnull) as [v [-> Hv]].
  exists v; split; assumption.
Qed.

Lemma any_null_setitem (features : DataFrame) (col : string) (v : Series) :
  existsb isnull v = true -> any_null (setitem features col v) = true.
Proof.
  intros Hv; apply (any_null_of_has_null col); exists v; split; [ | exact Hv ].
  cbn [setitem data]; apply lookup_setitem_same.
Qed.

(** X13.  Blank out, or null out, cells of one feature column of an accepted
    payload, expected columns and declared columns being each listed once.
    If the column is declared int*, the validation ends in the
    [IntCastingNaNError] of the cast; in every other case (declared float*,
    declared category, not declared) it ends in the validation error of
    missing values. *)
Theorem blanked_feature_cell :
  forall (self : CreditDefaultModel) (frame features : DataFrame) (identifiers : Series)
         (col : string) (cells cells' : Series),
    NoDup (_expected_columns self) ->
    NoDup (map fst (_dtype_map self)) ->
    outcome (_prepare_features floatify float_repr self frame)
    = Ok (features, identifiers) ->
    In col (_expected_columns self) ->
    lookup col (data frame) = Some cells ->
    Forall2 kept_or_blanked cells cells' ->
    existsb null_or_blank cells' = true ->
    ((forall dtype, In (col, dtype) (_dtype_map self) -> startswith dtype "int" = false) ->
     outcome (_prepare_features floatify float_repr self (setitem frame col cells'))
     = Raise (ValidationError "Input payload contains missing values.")) /\
    (forall dtype,
        In (col, dtype) (_dtype_map self) ->
        startswith dtype "int" = true ->
        outcome (_prepare_features floatify float_repr self (setitem frame col cells'))
        = Raise (IntCastingNaNError
                   "Cannot convert non-finite values (NA or inf) to integer")).
Proof.
  intros self frame features identifiers col cells cells' Hexpected Hkeys H Hexp Hl
         Hcells Hblank.
  rewrite outcome_prepare_features in H.
  destruct (accepted_column _ _ _ _ _ _ _ _ H Hexp Hl)
    as [projected [Hp [Hlp [Hc Hnull]]]].
  pose proof (prepare_outcome_ok_inv _ _ _ _ _ _ H) as [Hid [Hlabel [Hmissing _]]].
  assert (Hcol : mem col (columns frame) = true)
    by (apply (lookup_Some_is_mem _ _ _ Hl)).
  assert (Hcol' : mem col (columns (replace_blank projected)) = true)
    by (apply (lookup_Some_is_mem _ _ _ Hlp)).
  assert (Hxnull : existsb isnull (map replace_blank_cell cells') = true).
  { rewrite existsb_exists in *; destruct Hblank as [c [Hin Hc0]].
    exists (replace_blank_cell c); split; [ apply in_map; exact Hin | ].
    rewrite null_or_blank_replaced; exact Hc0. }
  assert (Hrun : outcome (_prepare_features floatify float_repr self
                            (setitem frame col cells'))
                 = (let? features' :=
                      coerce_dtypes floatify (_dtype_map self)
                        (setitem (replace_blank projected) col
                                 (map replace_blank_cell cells')) in
                    if any_null features'
                    then Raise (ValidationError "Input payload contains missing values.")
                    else
                      let? ids := getitem (setitem frame col cells') (_id_column self) in
                      if existsb isnull ids
                      then Raise (ValidationError
                                    "Identifier column contains missing values.")
                      else Ok (features', astype_str float_repr ids))).
  { rewrite outcome_prepare_features; unfold prepare_outcome, missing_columns in *.
    rewrite setitem_columns by exact Hcol.
    rewrite Hid, Hlabel, Hmissing; cbn [negb nonempty].
    unfold getitem_list in *; cbn [setitem data index].
    apply rbind_ok_inv in Hp as [d [Hd Hp]]; injection Hp as <-.
    rewrite (getitem_data_setitem _ _ _ _ _ Hexpected Hexp Hd); cbn [rbind].
    change (mkDataFrame (index frame) (setitem_data d col cells'))
      with (setitem (mkDataFrame (index frame) d) col cells').
    rewrite replace_blank_setitem; reflexivity. }
  rewrite Hrun; split.
  - intros Hnotint.
    destruct (in_dec string_dec col (map fst (_dtype_map self))) as [Hdecl | Hnot].
    + apply in_map_iff in Hdecl as [[k dtype] [Hk Hdecl]]; cbn in Hk; subst k.
      rewrite (coerce_dtypes_setitem_declared floatify col dtype _ _ Hkeys Hdecl
                 _ _ Hcol' Hc).
      destruct (coerce_dtypes_lookup_declared floatify col dtype _ Hkeys Hdecl
                  _ _ _ Hlp Hc) as [v0 [Hv0 _]].
      unfold coerce_column in *; rewrite (Hnotint _ Hdecl) in *.
      destruct (startswith dtype "float").
      * apply rbind_ok_inv in Hv0 as [numeric [Hnum _]].
        destruct (to_numeric_blanked _ _ _ Hcells Hblank Hnum) as [v [-> Hv]].
        cbn [rbind astype_float64]; rewrite any_null_setitem; [ reflexivity | ].
        rewrite existsb_isnull_Float; exact Hv.
      * destruct (String.eqb dtype "category"); [ | discriminate ].
        cbn [rbind astype_category]; rewrite any_null_setitem; [ reflexivity | exact Hxnull ].
    + rewrite (coerce_dtypes_setitem_undeclared floatify col _ _ Hnot _ Hcol'), Hc.
      cbn [rmap rbind]; rewrite any_null_setitem; [ reflexivity | exact Hxnull ].
  - intros dtype Hdecl Hint.
    rewrite (coerce_dtypes_setitem_declared floatify col dtype _ _ Hkeys Hdecl
               _ _ Hcol' Hc).
    destruct (coerce_dtypes_lookup_declared floatify col dtype _ Hkeys Hdecl
                _ _ _ Hlp Hc) as [v0 [Hv0 _]].
    unfold coerce_column in *; rewrite Hint in *.
    apply rbind_ok_inv in Hv0 as [numeric [Hnum _]].
    destruct (to_numeric_blanked _ _ _ Hcells Hblank Hnum) as [v [-> Hv]].
    cbn [rbind astype_int64]; rewrite (nan_not_finite _ Hv); reflexivity.
Qed.

End BlankedCell.

(** The batch of the scenario: an empty AGE ends in the cast error, an empty
    LIMIT_BAL in the error of missing values. *)
Lemma blanked_feature_cell_scenario :
  outcome (_prepare_features Scenario.floatify Scenario.float_repr Scenario.model
             (setitem Scenario.batch "AGE" [Int 35; Str EmptyString]))
  = Raise (IntCastingNaNError "Cannot convert non-finite values (NA or inf) to integer") /\
  outcome (_prepare_features Scenario.floatify Scenario.float_repr Scenario.model
             (setitem Scenario.batch "LIMIT_BAL" [NA; Int 50000]))
  = Raise (ValidationError "Input payload contains missing values.").
Proof.
  assert (Hexpected : NoDup (_expected_columns Scenario.model))
    by (repeat constructor; cbn; intuition discriminate).
  assert (Hkeys : NoDup (map fst (_dtype_map Scenario.model)))
    by (repeat constructor; cbn; intuition discriminate).
  split.
  - refine (proj2 (blanked_feature_cell Scenario.floatify Scenario.float_repr
                     Scenario.model Scenario.batch _ _ "AGE" [Int 35; Int 41]
                     [Int 35; Str EmptyString] Hexpected Hkeys eq_refl _ eq_refl _ eq_refl)
                  "int" _ eq_refl).
    + right; left; reflexivity.
    + apply Forall2_cons; [ left; reflexivity | ].
      apply Forall2_cons; [ right; reflexivity | apply Forall2_nil ].
    + right; left; reflexivity.
  - refine (proj1 (blanked_feature_cell Scenario.floatify Scenario.float_repr
                     Scenario.model Scenario.batch _ _ "LIMIT_BAL"
                     [Int 200000; Int 50000] [NA; Int 50000]
                     Hexpected Hkeys eq_refl _ eq_refl _ eq_refl) _).
    + left; reflexivity.
    + apply Forall2_cons; [ right; reflexivity | ].
      apply Forall2_cons; [ left; reflexivity | apply Forall2_nil ].
    + intros dtype [Heq | [Heq | []]];
        [ injection Heq as <-; reflexivity | discriminate Heq ].
Defined.

(** ** The order of the columns of a payload *)

Lemma lookup_Permutation (d d' : list (string * Series)) (col : string) :
  Permutation d d' -> NoDup (map fst d) -> lookup col d = lookup col d'.
Proof.
  induction 1 as [| [k v] l l' Hperm IH | [k1 v1] [k2 v2] l | l l' l'' H1 IH1 H2 IH2];
    intros Hnodup.
  - reflexivity.
  - cbn [lookup]; destruct (String.eqb col k); [ reflexivity | ].
    apply IH; cbn [map fst] in Hnodup; inversion Hnodup; assumption.
  - cbn [lookup map fst] in *.
    destruct (String.eqb_spec col k1) as [E1 | _];
      destruct (String.eqb_spec col k2) as [E2 | _]; try reflexivity.
    inversion Hnodup as [| ? ? Hnotin _]; subst.
    exfalso; apply Hnotin; left; reflexivity.
  - rewrite IH1 by assumption; apply IH2.
    apply (Permutation_NoDup (Permutation_map fst H1)); assumption.
Qed.

Lemma mem_Permutation (l l' : list string) (col : string) :
  Permutation l l' -> mem col l = mem col l'.
Proof.
  intros Hperm; apply eq_true_iff_eq; rewrite !mem_In; split; apply Permutation_in;
    [ assumption | apply Permutation_sym; assumption ].
Qed.

Lemma getitem_data_ext (d d' : list (string * Series)) (cols : list string) :
  (forall col, lookup col d = lookup col d') ->
  getitem_data d cols = getitem_data d' cols.
Proof.
  intros Hext; induction cols as [| c cols IH]; [ reflexivity | ].
  cbn [getitem_data]; rewrite Hext, IH; reflexivity.
Qed.

Section ColumnOrder.

Variable floatify : string -> option number.
Variable float_repr : float -> string.

Lemma prepare_outcome_Permutation (self : CreditDefaultModel) (frame frame' : DataFrame) :
  index frame = index frame' ->
  Permutation (data frame) (data frame') ->
  NoDup (columns frame) ->
  prepare_outcome floatify float_repr self frame
  = prepare_outcome floatify float_repr self frame'.
Proof.
  intros Hidx Hperm Hnodup.
  assert (Hcols : forall col, mem col (columns frame) = mem col (columns frame'))
    by (intros col; apply mem_Permutation, Permutation_map, Hperm).
  assert (Hlookup : forall col, lookup col (data frame) = lookup col (data frame'))
    by (intros col; apply lookup_Permutation; assumption).
  unfold prepare_outcome, missing_columns, getitem_list, getitem.
  rewrite (getitem_data_ext _ _ _ Hlookup), Hidx, !Hcols, Hlookup.
  rewrite (filter_ext _ (fun col => negb (mem col (columns frame'))))
    by (intros col; rewrite Hcols; reflexivity).
  reflexivity.
Qed.

(** X14.  The order in which a payload lists its columns, their labels being
    distinct, has no bearing on the result: the validation ends the same
    way, with the same features in the order of the signature, and [score]
    and [predict_proba] return or raise the same. *)
Theorem column_order_irrelevant :
  forall (self : CreditDefaultModel) (frame frame' : DataFrame),
    index frame = index frame' ->
    Permutation (data frame) (data frame') ->
    NoDup (columns frame) ->
    outcome (_prepare_features floatify float_repr self frame)
    = outcome (_prepare_features floatify float_repr self frame') /\
    outcome (score floatify float_repr self frame)
    = outcome (score floatify float_repr self frame') /\
    outcome (predict_proba floatify float_repr self frame)
    = outcome (predict_proba floatify float_repr self frame').
Proof.
  intros self frame frame' Hidx Hperm Hnodup.
  pose proof (prepare_outcome_Permutation self frame frame' Hidx Hperm Hnodup) as Hprep.
  assert (Hscore : outcome (score floatify float_repr self frame)
                   = outcome (score floatify float_repr self frame'))
    by (rewrite !outcome_score; unfold score_outcome; rewrite Hprep; reflexivity).
  split; [ rewrite !outcome_prepare_features; exact Hprep | split; [ exact Hscore | ] ].
  unfold predict_proba; rewrite !outcome_bind, !outcome_prepare_features, Hprep.
  reflexivity.
Qed.

End ColumnOrder.

(** The batch of the scenario with AGE first and ID last. *)
Lemma column_order_irrelevant_scenario :
  outcome (score Scenario.floatify Scenario.float_repr Scenario.model
             (mkDataFrame [0; 1]
                [("AGE", [Int 35; Int 41]);
                 ("LIMIT_BAL", [Int 200000; Int 50000]);
                 ("ID", [Int 1001; Int 1002])]))
  = outcome (score Scenario.floatify Scenario.float_repr Scenario.model Scenario.batch).
Proof.
  refine (proj1 (proj2 (column_order_irrelevant Scenario.floatify Scenario.float_repr
                          Scenario.model
                          (mkDataFrame [0; 1]
                             [("AGE", [Int 35; Int 41]);
                              ("LIMIT_BAL", [Int 200000; Int 50000]);
                              ("ID", [Int 1001; Int 1002])])
                          Scenario.batch eq_refl _ _))).
  - cbn [data Scenario.batch].
    apply (Permutation_cons_app [("ID", [Int 1001; Int 1002]);
                                 ("LIMIT_BAL", [Int 200000; Int 50000])] []).
    apply (Permutation_cons_app [("ID", [Int 1001; Int 1002])] []).
    apply Permutation_refl.
  - repeat constructor; cbn; intuition discriminate.
Defined.

(** ** What the estimator returns *)

Section EstimatorOutput.

Variable floatify : string -> option number.
Variable float_repr : float -> string.

Lemma score_outcome_of_features (self : CreditDefaultModel) (frame features : DataFrame)
      (identifiers : Series) :
  outcome (_prepare_features floatify float_repr self frame) = Ok (features, identifiers) ->
  outcome (score floatify float_repr self frame)
  = (let? probabilities := proba_outcome self features in
     Ok (mkScored (index features) (astype_str float_repr identifiers)
                  (p_values probabilities)
                  (map (fun p => float_ge p (_threshold self)) (p_values probabilities)))) /\
  outcome (predict_proba floatify float_repr self frame)
  = (let? probabilities := proba_outcome self features in
     Ok (Series_reindex probabilities (index features))).
Proof.
  intros Hprep; split.
  - rewrite outcome_score; unfold score_outcome.
    rewrite <- outcome_prepare_features, Hprep; reflexivity.
  - unfold predict_proba; rewrite outcome_bind, Hprep; cbn [rbind fst].
    rewrite outcome_bind, outcome__predict_proba.
    destruct (proba_outcome self features); reflexivity.
Qed.

(** X15.  Once the payload is validated, the estimator decides.  An exception
    of the estimator is the exception of [score] and of [predict_proba],
    as it is.  An array with at least two columns whose number of rows is
    not that of the features ends both with the [ValueError] of pandas on
    the two lengths.  And [score] returns a frame only when the estimator
    returned a two-dimensional array of at least two columns with one row
    per row of the features, whose entries of column 1 are then the
    probabilities. *)
Theorem estimator_output_decides :
  forall (self : CreditDefaultModel) (frame features : DataFrame) (identifiers : Series),
    outcome (_prepare_features floatify float_repr self frame) = Ok (features, identifiers) ->
    (forall e,
        _estimator self features = Raise e ->
        outcome (score floatify float_repr self frame) = Raise e /\
        outcome (predict_proba floatify float_repr self frame) = Raise e) /\
    (forall ncols rows,
        _estimator self features = Ok (Array2 ncols rows) ->
        (2 <= ncols)%nat ->
        List.length rows <> len features ->
        outcome (score floatify float_repr self frame)
        = Raise (ValueError ("Length of values ("
                             +++ str_int (Z.of_nat (List.length rows))
                             +++ ") does not match length of index ("
                             +++ str_int (Z.of_nat (len features)) +++ ")")) /\
        outcome (predict_proba floatify float_repr self frame)
        = Raise (ValueError ("Length of values ("
                             +++ str_int (Z.of_nat (List.length rows))
                             +++ ") does not match length of index ("
                             +++ str_int (Z.of_nat (len features)) +++ ")"))) /\
    (forall scored,
        outcome (score floatify float_repr self frame) = Ok scored ->
        exists ncols rows,
          _estimator self features = Ok (Array2 ncols rows) /\
          (2 <= ncols)%nat /\
          List.length rows = len features /\
          probability scored = map (fun r => nth 1 r PrimFloat.nan) rows).
Proof.
  intros self frame features identifiers Hprep.
  destruct (score_outcome_of_features self frame features identifiers Hprep) as [Hs Hp].
  rewrite Hs, Hp; unfold proba_outcome; split; [ | split ].
  - intros e ->; split; reflexivity.
  - intros ncols rows -> Hcols Hrows; cbn [rbind take_column_1].
    destruct (Nat.leb_spec ncols 1) as [Hle | _]; [ lia | ].
    cbn [rbind]; unfold Series_of_array; rewrite length_map; fold (len features).
    destruct (Nat.eqb_spec (List.length rows) (len features)) as [Heq | _];
      [ contradiction | ].
    split; reflexivity.
  - intros scored H.
    apply rbind_ok_inv in H as [s [H Hscored]]; injection Hscored as <-.
    apply rbind_ok_inv in H as [a [Ha H]].
    apply rbind_ok_inv in H as [column [Hcol H]].
    destruct a as [v | ncols rows]; cbn [take_column_1] in Hcol; [ discriminate | ].
    destruct (Nat.leb_spec ncols 1) as [_ | Hlt]; [ discriminate | ].
    injection Hcol as <-.
    unfold Series_of_array in H; rewrite length_map in H.
    destruct (Nat.eqb_spec (List.length rows) (List.length (index features)))
      as [Heq | _]; [ | discriminate ].
    injection H as <-.
    exists ncols, rows; repeat split; try assumption; lia.
Qed.

End EstimatorOutput.

(** An estimator that raises, and one that answers two rows with a single
    one. *)
Lemma estimator_output_decides_scenario :
  outcome (score Scenario.floatify Scenario.float_repr
             (Scenario.model_with (fun _ => Raise (EstimatorException "not fitted")))
             Scenario.batch)
  = Raise (EstimatorException "not fitted") /\
  outcome (score Scenario.floatify Scenario.float_repr
             (Scenario.model_with
                (fun _ => Ok (Array2 2 [[0.27%float; 0.73%float]])))
             Scenario.batch)
  = Raise (ValueError "Length of values (1) does not match length of index (2)").
Proof.
  split.
  - exact (proj1 (proj1 (estimator_output_decides
                           Scenario.floatify Scenario.float_repr
                           (Scenario.model_with
                              (fun _ => Raise (EstimatorException "not fitted")))
                           Scenario.batch _ _ eq_refl)
                        (EstimatorException "not fitted") eq_refl)).
  - refine (proj1 (proj1 (proj2 (estimator_output_decides
                                   Scenario.floatify Scenario.float_repr
                                   (Scenario.model_with
                                      (fun _ => Ok (Array2 2 [[0.27%float; 0.73%float]])))
                                   Scenario.batch _ _ eq_refl))
                         2%nat [[0.27%float; 0.73%float]] eq_refl _ _)).
    + apply le_n.
    + cbn; discriminate.
Defined.

(** ** The endpoints *)

Lemma except_http_raise {A} (rejected unexpected failed : string) (m : M A) (e : exn) :
  outcome m = Raise e ->
  except_http rejected unexpected failed m
  = match e with
    | PredictionError msg =>
        (map Emitted (trace m) ++ [LogWarning rejected [ArgStr msg]],
         HTTPException 422 msg)
    | _ =>
        (map Emitted (trace m) ++ [Emitted (Log EXCEPTION unexpected [])],
         HTTPException 500 failed)
    end.
Proof.
  destruct m as [tr [a | e']]; cbn [outcome snd trace fst]; [ discriminate | ].
  intros H; injection H as ->; destruct e; reflexivity.
Qed.

Lemma except_http_ok {A} (rejected unexpected failed : string) (m : M A) (a : A) :
  outcome m = Ok a ->
  except_http rejected unexpected failed m = (map Emitted (trace m), Reply a).
Proof.
  destruct m as [tr [a' | e]]; cbn [outcome snd trace fst]; [ | discriminate ].
  intros H; injection H as ->; reflexivity.
Qed.

Section SingleEndpoint.

Variable floatify : string -> option number.
Variable float_repr : float -> string.

(** X16.  What [POST /predictions] answers.  A payload that the validation
    refuses with a [ValidationError] gets a 422 whose detail is the text of
    that error, after a warning with the same text and without a call of
    the estimator.  When [score] raises anything else, the answer is a 500
    with the fixed detail "Prediction failed.", whatever the text of the
    exception.  And when [score] returns, the answer is the record of its
    single row: the probability, the flag that compares it with the
    threshold, the threshold, and the identifier as text. *)
Theorem single_endpoint_answers :
  forall (service : PredictionService) (payload : list (string * cell)),
    (forall m,
        outcome (_prepare_features floatify float_repr (_model service)
                                   (frame_of_payload payload))
        = Raise (ValidationError m) ->
        Controller.predict_single floatify float_repr service payload
        = (map Emitted (trace (_prepare_features floatify float_repr (_model service)
                                                 (frame_of_payload payload)))
             ++ [LogWarning "Single prediction rejected: %s" [ArgStr m]],
           HTTPException 422 m)) /\
    (forall e,
        outcome (score floatify float_repr (_model service) (frame_of_payload payload))
        = Raise e ->
        (forall m, e <> ValidationError m) ->
        (forall m, e <> PredictionError m) ->
        snd (Controller.predict_single floatify float_repr service payload)
        = HTTPException 500 "Prediction failed.") /\
    (forall scored,
        outcome (score floatify float_repr (_model service) (frame_of_payload payload))
        = Ok scored ->
        exists p i,
          probability scored = [p] /\
          id scored = [Str i] /\
          Controller.predict_single floatify float_repr service payload
          = (map Emitted (trace (score floatify float_repr (_model service)
                                       (frame_of_payload payload))),
             Reply (mkPrediction p (float_ge p (_threshold (_model service)))
                                 (_threshold (_model service)) (Some i)))).
Proof.
  intros service payload; split; [ | split ].
  - intros m He.
    destruct (score_stops_at_validation floatify float_repr (_model service) _ _ He)
      as [Hs _].
    unfold Controller.predict_single.
    rewrite (predict_single_of_score_raise floatify float_repr service payload _ _ Hs).
    reflexivity.
  - intros e He Hv Hp; unfold Controller.predict_single.
    destruct (score floatify float_repr (_model service) (frame_of_payload payload))
      as [tr r] eqn:Hs; cbn [outcome snd] in He; subst r.
    rewrite (predict_single_of_score_raise floatify float_repr service payload _ _ Hs).
    destruct e; try reflexivity; [ destruct (Hv _ eq_refl) | destruct (Hp _ eq_refl) ].
  - intros scored Hs.
    pose proof Hs as Hinv.
    apply score_ok_inv in Hinv
      as [features [identifiers [a [column [Hprep [_ [_ [Hlen ->]]]]]]]].
    pose proof (prepare_outcome_shape _ _ _ _ _ _ Hprep) as [_ Hidx].
    apply prepare_outcome_ok_inv in Hprep
      as [_ [_ [_ [projected [raw [_ [_ [_ [Hraw [_ ->]]]]]]]]]].
    destruct (frame_of_payload_getitem _ _ _ Hraw) as [c [-> _]].
    assert (Hone : List.length column = 1%nat)
      by (rewrite Hlen; unfold len; rewrite Hidx; reflexivity).
    destruct column as [| p [| q column]]; try discriminate Hone.
    exists p, (str_cell float_repr c); split; [ reflexivity | split; [ reflexivity | ] ].
    unfold Controller.predict_single, predict_single.
    destruct (score floatify float_repr (_model service) (frame_of_payload payload))
      as [tr r] eqn:Hrun; cbn [outcome snd] in Hs; subst r.
    cbn; rewrite app_nil_r; reflexivity.
Qed.

End SingleEndpoint.

(** A payload without identifier, an estimator that raises, and the row of
    the scenario. *)
Lemma single_endpoint_answers_scenario :
  Controller.predict_single Scenario.floatify Scenario.float_repr
                            (mkService Scenario.model)
                            [("LIMIT_BAL", Int 200000); ("AGE", Int 35)]
  = ([LogWarning "Single prediction rejected: %s"
                 [ArgStr "Missing identifier column: ID."]],
     HTTPException 422 "Missing identifier column: ID.") /\
  snd (Controller.predict_single
         Scenario.floatify Scenario.float_repr
         (mkService (Scenario.model_with
                       (fun _ => Raise (EstimatorException "not fitted"))))
         Scenario.payload)
  = HTTPException 500 "Prediction failed." /\
  (exists p i,
      [0.73%float] = [p] /\
      [Str "1001"] = [Str i] /\
      Controller.predict_single Scenario.floatify Scenario.float_repr
                                (mkService Scenario.model) Scenario.payload
      = (map Emitted (trace (score Scenario.floatify Scenario.float_repr Scenario.model
                                   (frame_of_payload Scenario.payload))),
         Reply (mkPrediction p (float_ge p 0.5%float) 0.5%float (Some i)))).
Proof.
  split; [ | split ].
  - exact (proj1 (single_endpoint_answers Scenario.floatify Scenario.float_repr
                    (mkService Scenario.model)
                    [("LIMIT_BAL", Int 200000); ("AGE", Int 35)])
                 "Missing identifier column: ID." eq_refl).
  - refine (proj1 (proj2 (single_endpoint_answers
                            Scenario.floatify Scenario.float_repr
                            (mkService (Scenario.model_with
                                          (fun _ => Raise (EstimatorException "not fitted"))))
                            Scenario.payload))
                  (EstimatorException "not fitted") eq_refl _ _);
      intros m; discriminate.
  - exact (proj2 (proj2 (single_endpoint_answers Scenario.floatify Scenario.float_repr
                           (mkService Scenario.model) Scenario.payload))
                 (mkScored [0] [Str "1001"] [0.73%float] [true]) eq_refl).
Defined.

Section BatchEndpoint.

Variable floatify : string -> option number.
Variable float_repr : float -> string.
Variable read_csv : string -> result DataFrame.
Variable read_excel : string -> result DataFrame.
Variable suffix_lower : string -> string.
Variable settings : Settings.
Variable to_csv : ScoredFrame -> string.

(** X17.  What [POST /predictions/batch] answers, the upload being read under
    its file name, or under "batch.csv" when it has none or an empty one.
    A suffix other than ".csv" and ".xls" gets a 422 with the text of
    unsupported files; an exception of the reader gets a 500 with the fixed
    detail "Batch prediction failed."; more rows than the limit get a 422
    that names both numbers, nothing being validated or scored.  Within the
    limit, a [ValidationError] of the model gets a 422 with its text, any
    other exception of [score] a 500 with the fixed detail, and a frame
    returned by [score] is sent as text/csv, renumbered from zero, as an
    attachment named after the clock. *)
Theorem batch_endpoint_answers :
  forall (service : PredictionService) (file_bytes : string) (filename : option string)
         (utcnow : string),
    let name := or_default filename "batch.csv" in
    let answer := Controller.predict_batch floatify float_repr read_csv read_excel
                    suffix_lower settings to_csv service file_bytes filename utcnow in
    (String.eqb (suffix_lower name) ".csv" = false ->
     String.eqb (suffix_lower name) ".xls" = false ->
     answer = ([LogWarning "Batch prediction rejected: %s"
                           [ArgStr "Only CSV and XLS files are supported."]],
               HTTPException 422 "Only CSV and XLS files are supported.")) /\
    (forall e,
        _read_input_file read_csv read_excel suffix_lower file_bytes name = Raise e ->
        (forall m, e <> PredictionError m) ->
        answer = ([Emitted (Log EXCEPTION "Unexpected error during batch prediction." [])],
                  HTTPException 500 "Batch prediction failed.")) /\
    (forall dataframe,
        _read_input_file read_csv read_excel suffix_lower file_bytes name = Ok dataframe ->
        (max_batch_rows settings < Z.of_nat (len dataframe) ->
         answer = ([LogWarning "Batch prediction rejected: %s"
                               [ArgStr (batch_too_large_message settings (len dataframe))]],
                   HTTPException 422 (batch_too_large_message settings (len dataframe)))) /\
        (Z.of_nat (len dataframe) <= max_batch_rows settings ->
         (forall m,
             outcome (_prepare_features floatify float_repr (_model service) dataframe)
             = Raise (ValidationError m) ->
             snd answer = HTTPException 422 m) /\
         (forall e,
             outcome (score floatify float_repr (_model service) dataframe) = Raise e ->
             (forall m, e <> ValidationError m) ->
             (forall m, e <> PredictionError m) ->
             snd answer = HTTPException 500 "Batch prediction failed.") /\
         (forall scored,
             outcome (score floatify float_repr (_model service) dataframe) = Ok scored ->
             snd answer
             = Reply (mkStreamingResponse
                        "text/csv"
                        ("attachment; filename=" +++ dquote
                           +++ ("predictions_" +++ utcnow +++ ".csv") +++ dquote)
                        (to_csv (reset_index scored)))))).
Proof.
  intros service file_bytes filename utcnow name answer; subst answer.
  unfold Controller.predict_batch; fold name.
  split; [ | split ].
  - intros Hcsv Hxls; unfold predict_batch, _read_input_file.
    rewrite Hcsv, Hxls; reflexivity.
  - intros e Hread Hp; unfold predict_batch; rewrite Hread.
    destruct e; try reflexivity; destruct (Hp _ eq_refl).
  - intros dataframe Hread; split.
    + intros Hgt; unfold predict_batch; rewrite Hread; cbn [lift bind].
      destruct (Z.gtb_spec (Z.of_nat (len dataframe)) (max_batch_rows settings));
        [ reflexivity | lia ].
    + intros Hle.
      rewrite (predict_batch_of_score floatify float_repr read_csv read_excel suffix_lower
                 settings service file_bytes name dataframe Hread Hle).
      split; [ | split ].
      * intros m He.
        destruct (score_stops_at_validation floatify float_repr (_model service) _ _ He)
          as [Hs _].
        rewrite Hs; reflexivity.
      * intros e He Hv Hp.
        destruct (score floatify float_repr (_model service) dataframe) as [tr r];
          cbn [outcome snd] in He; subst r.
        destruct e; try reflexivity; [ destruct (Hv _ eq_refl) | destruct (Hp _ eq_refl) ].
      * intros scored Hs.
        destruct (score floatify float_repr (_model service) dataframe) as [tr r];
          cbn [outcome snd] in Hs; subst r.
        reflexivity.
Qed.

End BatchEndpoint.

(** A text file; a spreadsheet that cannot be read; two rows against a limit
    of one; and an upload without a name, read as CSV and scored. *)
Lemma batch_endpoint_answers_scenario :
  Controller.predict_batch
    Scenario.floatify Scenario.float_repr
    (fun _ => Ok Scenario.batch) (fun _ => Raise (ValueError "not a spreadsheet"))
    (fun name => if String.eqb name "batch.csv" then ".csv"
                 else if String.eqb name "rows.xls" then ".xls" else ".txt")
    (mkAppSettings 60000) (fun _ => "id,probability,is_default")
    (mkService Scenario.model) "rows" (Some "notes.txt") "20240101T000000"
  = ([LogWarning "Batch prediction rejected: %s"
                 [ArgStr "Only CSV and XLS files are supported."]],
     HTTPException 422 "Only CSV and XLS files are supported.") /\
  Controller.predict_batch
    Scenario.floatify Scenario.float_repr
    (fun _ => Ok Scenario.batch) (fun _ => Raise (ValueError "not a spreadsheet"))
    (fun name => if String.eqb name "batch.csv" then ".csv"
                 else if String.eqb name "rows.xls" then ".xls" else ".txt")
    (mkAppSettings 60000) (fun _ => "id,probability,is_default")
    (mkService Scenario.model) "rows" (Some "rows.xls") "20240101T000000"
  = ([Emitted (Log EXCEPTION "Unexpected error during batch prediction." [])],
     HTTPException 500 "Batch prediction failed.") /\
  Controller.predict_batch
    Scenario.floatify Scenario.float_repr
    (fun _ => Ok Scenario.batch) (fun _ => Raise (ValueError "not a spreadsheet"))
    (fun name => if String.eqb name "batch.csv" then ".csv"
                 else if String.eqb name "rows.xls" then ".xls" else ".txt")
    (mkAppSettings 1) (fun _ => "id,probability,is_default")
    (mkService Scenario.model) "rows" None "20240101T000000"
  = ([LogWarning "Batch prediction rejected: %s"
                 [ArgStr (batch_too_large_message (mkAppSettings 1) (len Scenario.batch))]],
     HTTPException 422 (batch_too_large_message (mkAppSettings 1) (len Scenario.batch))) /\
  snd (Controller.predict_batch
         Scenario.floatify Scenario.float_repr
         (fun _ => Ok Scenario.batch) (fun _ => Raise (ValueError "not a spreadsheet"))
         (fun name => if String.eqb name "batch.csv" then ".csv"
                      else if String.eqb name "rows.xls" then ".xls" else ".txt")
         (mkAppSettings 60000) (fun _ => "id,probability,is_default")
         (mkService Scenario.model) "rows" (Some EmptyString) "20240101T000000")
  = Reply (mkStreamingResponse
             "text/csv"
             ("attachment; filename=" +++ dquote
                +++ ("predictions_" +++ "20240101T000000" +++ ".csv") +++ dquote)
             "id,probability,is_default").
Proof.
  split; [ | split; [ | split ] ].
  - exact (proj1 (batch_endpoint_answers
                    Scenario.floatify Scenario.float_repr
                    (fun _ => Ok Scenario.batch)
                    (fun _ => Raise (ValueError "not a spreadsheet"))
                    (fun name => if String.eqb name "batch.csv" then ".csv"
                                 else if String.eqb name "rows.xls" then ".xls" else ".txt")
                    (mkAppSettings 60000) (fun _ => "id,probability,is_default")
                    (mkService Scenario.model) "rows" (Some "notes.txt") "20240101T000000")
                 eq_refl eq_refl).
  - refine (proj1 (proj2 (batch_endpoint_answers
                            Scenario.floatify Scenario.float_repr
                            (fun _ => Ok Scenario.batch)
                            (fun _ => Raise (ValueError "not a spreadsheet"))
                            (fun name => if String.eqb name "batch.csv" then ".csv"
                                         else if String.eqb name "rows.xls" then ".xls"
                                              else ".txt")
                            (mkAppSettings 60000) (fun _ => "id,probability,is_default")
                            (mkService Scenario.model) "rows" (Some "rows.xls")
                            "20240101T000000"))
                  (ValueError "not a spreadsheet") eq_refl _).
    intros m; discriminate.
  - refine (proj1 (proj2 (proj2 (batch_endpoint_answers
                                   Scenario.floatify Scenario.float_repr
                                   (fun _ => Ok Scenario.batch)
                                   (fun _ => Raise (ValueError "not a spreadsheet"))
                                   (fun name => if String.eqb name "batch.csv" then ".csv"
                                                else if String.eqb name "rows.xls"
                                                     then ".xls" else ".txt")
                                   (mkAppSettings 1) (fun _ => "id,probability,is_default")
                                   (mkService Scenario.model) "rows" None
                                   "20240101T000000"))
                         Scenario.batch eq_refl) _).
    vm_compute; reflexivity.
  - refine (proj2 (proj2 (proj2 (proj2 (proj2 (batch_endpoint_answers
                                   Scenario.floatify Scenario.float_repr
                                   (fun _ => Ok Scenario.batch)
                                   (fun _ => Raise (ValueError "not a spreadsheet"))
                                   (fun name => if String.eqb name "batch.csv" then ".csv"
                                                else if String.eqb name "rows.xls"
                                                     then ".xls" else ".txt")
                                   (mkAppSettings 60000)
                                   (fun _ => "id,probability,is_default")
                                   (mkService Scenario.model) "rows" (Some EmptyString)
                                   "20240101T000000"))
                                Scenario.batch eq_refl) _))
                  (mkScored [0; 1] [Str "1001"; Str "1002"] [0.73%float; 0.73%float]
                            [true; true]) eq_refl).
    vm_compute; discriminate.
Defined.

(** ** The columns that the validation reads *)

Lemma mem_columns_lookup (frame : DataFrame) (col : string) :
  mem col (columns frame)
  = match lookup col (data frame) with Some _ => true | None => false end.
Proof.
  unfold mem, columns; induction (data frame) as [| [k v] d IH]; [ reflexivity | ].
  cbn [map fst existsb lookup]; destruct (String.eqb col k); [ reflexivity | exact IH ].
Qed.

Lemma getitem_data_ext_in (d d' : list (string * Series)) (cols : list string) :
  (forall col, In col cols -> lookup col d = lookup col d') ->
  getitem_data d cols = getitem_data d' cols.
Proof.
  induction cols as [| c cols IH]; intros Hext; [ reflexivity | ].
  cbn [getitem_data]; rewrite (Hext c (or_introl eq_refl)), IH; [ reflexivity | ].
  intros col Hin; apply Hext; right; exact Hin.
Qed.

Section ColumnsRead.

Variable floatify : string -> option number.
Variable float_repr : float -> string.

Lemma prepare_outcome_agree (self : CreditDefaultModel) (frame frame' : DataFrame) :
  index frame = index frame' ->
  (forall col,
      In col ("default" :: _id_column self :: _expected_columns self) ->
      lookup col (data frame) = lookup col (data frame')) ->
  prepare_outcome floatify float_repr self frame
  = prepare_outcome floatify float_repr self frame'.
Proof.
  intros Hidx Hagree.
  assert (Hmem : forall col,
             In col ("default" :: _id_column self :: _expected_columns self) ->
             mem col (columns frame) = mem col (columns frame'))
    by (intros col Hin; rewrite !mem_columns_lookup, (Hagree col Hin); reflexivity).
  assert (Hmissing : missing_columns self frame = missing_columns self frame').
  { unfold missing_columns; apply filter_ext_in; intros col Hin.
    rewrite (Hmem col); [ reflexivity | right; right; exact Hin ]. }
  assert (Hid : mem (_id_column self) (columns frame)
                = mem (_id_column self) (columns frame'))
    by (apply Hmem; right; left; reflexivity).
  assert (Hlabel : mem "default" (columns frame) = mem "default" (columns frame'))
    by (apply Hmem; left; reflexivity).
  assert (Hraw : lookup (_id_column self) (data frame)
                 = lookup (_id_column self) (data frame'))
    by (apply Hagree; right; left; reflexivity).
  assert (Hproj : getitem_data (data frame) (_expected_columns self)
                  = getitem_data (data frame') (_expected_columns self))
    by (apply getitem_data_ext_in; intros col Hin; apply Hagree; right; right; exact Hin).
  unfold prepare_outcome, getitem_list, getitem.
  rewrite Hmissing, Hidx, Hid, Hlabel, Hraw, Hproj; reflexivity.
Qed.

(** X18.  The validation reads the identifier column, the expected columns
    and the presence of a column named "default", and nothing else of a
    payload: two frames with distinct column labels and the same index
    that agree on these are validated alike, reach the estimator with the
    same features or not at all, and get the same result or the same
    exception from [score] and [predict_proba].  So columns that are
    neither expected nor the identifier can be added, dropped or changed
    at will. *)
Theorem undeclared_columns_ignored :
  forall (self : CreditDefaultModel) (frame frame' : DataFrame),
    NoDup (columns frame) -> NoDup (columns frame') ->
    index frame = index frame' ->
    (forall col,
        In col ("default" :: _id_column self :: _expected_columns self) ->
        lookup col (data frame) = lookup col (data frame')) ->
    outcome (_prepare_features floatify float_repr self frame)
    = outcome (_prepare_features floatify float_repr self frame') /\
    outcome (score floatify float_repr self frame)
    = outcome (score floatify float_repr self frame') /\
    outcome (predict_proba floatify float_repr self frame)
    = outcome (predict_proba floatify float_repr self frame') /\
    filter is_PredictProba (trace (score floatify float_repr self frame))
    = filter is_PredictProba (trace (score floatify float_repr self frame')).
Proof.
  intros self frame frame' _ _ Hidx Hagree.
  pose proof (prepare_outcome_agree self frame frame' Hidx Hagree) as Hprep.
  split; [ rewrite !outcome_prepare_features; exact Hprep | split; [ | split ] ].
  - rewrite !outcome_score; unfold score_outcome; rewrite Hprep; reflexivity.
  - unfold predict_proba; rewrite !outcome_bind, !outcome_prepare_features, Hprep.
    reflexivity.
  - rewrite !trace_score, !filter_app, !prepare_features_logs_only,
      !outcome_prepare_features, Hprep; reflexivity.
Qed.

End ColumnsRead.

(** The batch of the scenario against the same batch with a column NOTE
    in front and a column BRANCH at the end. *)
Lemma undeclared_columns_ignored_scenario :
  outcome (score Scenario.floatify Scenario.float_repr Scenario.model
             (mkDataFrame [0; 1]
                (("NOTE", [Str "new"; NA]) :: data Scenario.batch
                   ++ [("BRANCH", [Int 12; Int 7])])))
  = outcome (score Scenario.floatify Scenario.float_repr Scenario.model Scenario.batch).
Proof.
  refine (proj1 (proj2 (undeclared_columns_ignored
                          Scenario.floatify Scenario.float_repr Scenario.model
                          (mkDataFrame [0; 1]
                             (("NOTE", [Str "new"; NA]) :: data Scenario.batch
                                ++ [("BRANCH", [Int 12; Int 7])]))
                          Scenario.batch _ _ eq_refl _))).
  - repeat constructor; cbn; intuition discriminate.
  - repeat constructor; cbn; intuition discriminate.
  - intros col [<- | [<- | [<- | [<- | []]]]]; reflexivity.
Defined.

(** ** Probabilities and thresholds that are not numbers *)

Lemma SFcompare_refl_or_nan (x : spec_float) :
  x = S754_nan \/ SFcompare x x = Some Eq.
Proof.
  destruct x as [s | s | | s m e];
    [ right; destruct s; reflexivity | right; destruct s; reflexivity
    | left; reflexivity | right ].
  unfold SFcompare.
  destruct s; rewrite Z.compare_refl; fold (Pos.compare m m);
    rewrite Pos.compare_refl; reflexivity.
Qed.

Lemma Prim2SF_nan (x : float) : PrimFloat.is_nan x = true -> Prim2SF x = S754_nan.
Proof.
  unfold PrimFloat.is_nan; rewrite eqb_spec; unfold SFeqb; intros H.
  destruct (SFcompare_refl_or_nan (Prim2SF x)) as [E | E]; [ exact E | ].
  rewrite E in H; discriminate.
Qed.

(** [a >= b] is false as soon as one side is NaN. *)
Lemma float_ge_nan (a b : float) :
  PrimFloat.is_nan a = true \/ PrimFloat.is_nan b = true -> float_ge a b = false.
Proof.
  unfold float_ge; rewrite leb_spec; unfold SFleb.
  intros [H | H]; rewrite (Prim2SF_nan _ H); [ | reflexivity ].
  destruct (Prim2SF b) as [[] | [] | | [] ? ?]; reflexivity.
Qed.

Section NotANumber.

Variable floatify : string -> option number.
Variable float_repr : float -> string.

(** X19.  [score] takes the probabilities of the estimator as they come: a
    row whose probability is NaN is returned with the others, flagged as
    not in default; and a model whose threshold is NaN flags no row at
    all. *)
Theorem nan_is_never_flagged :
  forall (self : CreditDefaultModel) (frame : DataFrame) (scored : ScoredFrame),
    outcome (score floatify float_repr self frame) = Ok scored ->
    (forall (i : nat) (p : float),
        nth_error (probability scored) i = Some p ->
        PrimFloat.is_nan p = true ->
        nth_error (is_default scored) i = Some false) /\
    (PrimFloat.is_nan (_threshold self) = true ->
     is_default scored = map (fun _ => false) (probability scored)).
Proof.
  intros self frame scored H.
  apply score_ok_inv in H as [f [i [a [column [_ [_ [_ [_ ->]]]]]]]].
  cbn [probability is_default]; split.
  - intros n p Hp Hnan; rewrite nth_error_map, Hp; cbn [option_map].
    rewrite float_ge_nan; [ reflexivity | left; exact Hnan ].
  - intros Hnan; apply map_ext; intros p.
    apply float_ge_nan; right; exact Hnan.
Qed.

End NotANumber.

(** An estimator that answers NaN for every row. *)
Lemma nan_is_never_flagged_scenario :
  nth_error (is_default (mkScored [0; 1] [Str "1001"; Str "1002"]
                                  [PrimFloat.nan; PrimFloat.nan] [false; false])) 1
  = Some false.
Proof.
  exact (proj1 (nan_is_never_flagged
                  Scenario.floatify Scenario.float_repr
                  (Scenario.model_with
                     (fun features =>
                        Ok (Array2 2 (map (fun _ => [PrimFloat.nan; PrimFloat.nan])
                                          (index features)))))
                  Scenario.batch
                  (mkScored [0; 1] [Str "1001"; Str "1002"]
                            [PrimFloat.nan; PrimFloat.nan] [false; false])
                  eq_refl)
               1%nat PrimFloat.nan eq_refl eq_refl).
Defined.

(** ** A batch without rows *)

Lemma setitem_data_same (d : list (string * Series)) (col : string) (v : Series) :
  lookup col d = Some v -> setitem_data d col v = d.
Proof.
  induction d as [| [k w] d IH]; cbn [lookup setitem_data]; [ discriminate | ].
  destruct (String.eqb_spec col k) as [-> | _].
  - intros H; injection H as ->; reflexivity.
  - intros H; rewrite (IH H); reflexivity.
Qed.

Lemma lookup_rowless (cols : list string) (col : string) :
  In col cols -> lookup col (map (fun c => (c, @nil cell)) cols) = Some [].
Proof.
  induction cols as [| c cols IH]; cbn [In map lookup]; [ contradiction | ].
  destruct (String.eqb_spec col c) as [_ | Hne]; [ reflexivity | ].
  intros [Heq | Hin]; [ symmetry in Heq; contradiction | exact (IH Hin) ].
Qed.

Lemma lookup_rowless_frame (d : list (string * Series)) (col : string) :
  Forall (fun kv => snd kv = []) d ->
  mem col (map fst d) = true -> lookup col d = Some [].
Proof.
  intros Hrows Hmem; destruct (lookup_Some_mem _ _ Hmem) as [v Hv].
  rewrite Hv; f_equal.
  exact (proj1 (Forall_forall _ _) Hrows _ (lookup_In _ _ _ Hv)).
Qed.

Lemma getitem_data_rowless (d : list (string * Series)) (cols : list string) :
  Forall (fun kv => snd kv = []) d ->
  (forall col, In col cols -> mem col (map fst d) = true) ->
  getitem_data d cols = Ok (map (fun c => (c, [])) cols).
Proof.
  intros Hrows; induction cols as [| c cols IH]; intros Hall; [ reflexivity | ].
  cbn [getitem_data map].
  rewrite (lookup_rowless_frame d c Hrows (Hall c (or_introl eq_refl))), IH;
    [ reflexivity | intros col Hin; apply Hall; right; exact Hin ].
Qed.

Lemma any_null_rowless (idx : list Z) (cols : list string) :
  any_null (mkDataFrame idx (map (fun c => (c, [])) cols)) = false.
Proof.
  unfold any_null; cbn [data]; induction cols as [| c cols IH]; [ reflexivity | exact IH ].
Qed.

Section Rowless.

Variable floatify : string -> option number.
Variable float_repr : float -> string.
Variable read_csv : string -> result DataFrame.
Variable read_excel : string -> result DataFrame.
Variable suffix_lower : string -> string.
Variable settings : Settings.

Lemma coerce_column_rowless (column dtype : string) :
  supported dtype = true -> coerce_column floatify column dtype [] = Ok [].
Proof.
  unfold supported, coerce_column; intros H.
  destruct (startswith dtype "int"); [ reflexivity | ].
  destruct (startswith dtype "float"); [ reflexivity | ].
  destruct (String.eqb dtype "category"); [ reflexivity | discriminate ].
Qed.

Lemma coerce_dtypes_rowless (idx : list Z) (cols : list string)
      (dtype_map : list (string * string)) :
  (forall column dtype,
      In (column, dtype) dtype_map -> In column cols -> supported dtype = true) ->
  coerce_dtypes floatify dtype_map (mkDataFrame idx (map (fun c => (c, [])) cols))
  = Ok (mkDataFrame idx (map (fun c => (c, [])) cols)).
Proof.
  induction dtype_map as [| [column dtype] rest IH]; intros Hsup; [ reflexivity | ].
  assert (Hrest : forall column dtype,
             In (column, dtype) rest -> In column cols -> supported dtype = true)
    by (intros c t Hin; apply Hsup; right; exact Hin).
  destruct (mem column cols) eqn:Hmem.
  - apply mem_In in Hmem.
    rewrite (coerce_dtypes_turn floatify column dtype rest
               (mkDataFrame idx (map (fun c => (c, [])) cols)) []
               (lookup_rowless cols column Hmem)).
    rewrite (coerce_column_rowless column dtype (Hsup _ _ (or_introl eq_refl) Hmem)).
    cbn [rbind]; unfold setitem; cbn [index data].
    rewrite (setitem_data_same _ _ _ (lookup_rowless cols column Hmem)).
    exact (IH Hrest).
  - cbn [coerce_dtypes]; unfold columns; cbn [data].
    rewrite map_map; cbn [fst]; rewrite map_id, Hmem; cbn [negb].
    exact (IH Hrest).
Qed.

(** X20.  Nothing refuses a batch for having no rows.  A frame without rows
    that has the identifier column and every expected column, and no column
    "default", passes the validation as soon as the dtypes declared for the
    expected columns are supported: the features are the expected columns,
    empty.  When the estimator answers them with an array of no rows,
    [score] returns the empty frame, and so does [predict_batch] under any
    limit that is not negative. *)
Theorem rowless_batch_is_scored :
  forall (self : CreditDefaultModel) (frame : DataFrame),
    empty_frame frame ->
    mem (_id_column self) (columns frame) = true ->
    mem "default" (columns frame) = false ->
    missing_columns self frame = [] ->
    (forall column dtype,
        In (column, dtype) (_dtype_map self) -> In column (_expected_columns self) ->
        supported dtype = true) ->
    outcome (_prepare_features floatify float_repr self frame)
    = Ok (mkDataFrame [] (map (fun c => (c, [])) (_expected_columns self)), []) /\
    (forall ncols,
        (2 <= ncols)%nat ->
        _estimator self (mkDataFrame [] (map (fun c => (c, [])) (_expected_columns self)))
        = Ok (Array2 ncols []) ->
        outcome (score floatify float_repr self frame) = Ok (mkScored [] [] [] []) /\
        (forall file_bytes filename,
            _read_input_file read_csv read_excel suffix_lower file_bytes filename
            = Ok frame ->
            0 <= max_batch_rows settings ->
            outcome (predict_batch floatify float_repr read_csv read_excel suffix_lower
                                   settings (mkService self) file_bytes filename)
            = Ok (mkScored [] [] [] []))).
Proof.
  intros self frame [Hidx Hrows] Hid Hlabel Hmissing Hsup.
  assert (Hall : forall col, In col (_expected_columns self) ->
                             mem col (map fst (data frame)) = true).
  { intros col Hin; destruct (mem col (map fst (data frame))) eqn:Hm; [ reflexivity | ].
    assert (Hin' : In col (missing_columns self frame)).
    { apply missing_columns_spec; split; [ exact Hin | ].
      intros Hc; apply mem_In in Hc; unfold columns in Hc; congruence. }
    rewrite Hmissing in Hin'; destruct Hin'. }
  assert (Hprep : prepare_outcome floatify float_repr self frame
                  = Ok (mkDataFrame [] (map (fun c => (c, [])) (_expected_columns self)),
                        [])).
  { unfold prepare_outcome, getitem_list, getitem.
    rewrite Hid, Hlabel, Hmissing, Hidx; cbn [negb nonempty].
    rewrite (getitem_data_rowless _ _ Hrows Hall); cbn [rbind].
    unfold replace_blank; cbn [index data]; rewrite map_map; cbn [fst snd map].
    rewrite (coerce_dtypes_rowless [] (_expected_columns self) (_dtype_map self) Hsup).
    cbn [rbind]; rewrite any_null_rowless.
    rewrite (lookup_rowless_frame _ _ Hrows Hid); reflexivity. }
  split; [ rewrite outcome_prepare_features; exact Hprep | ].
  intros ncols Hcols Hest.
  assert (Hscore : outcome (score floatify float_repr self frame)
                   = Ok (mkScored [] [] [] [])).
  { rewrite outcome_score; unfold score_outcome, proba_outcome.
    rewrite Hprep; cbn [rbind fst snd]; rewrite Hest; cbn [rbind take_column_1].
    destruct (Nat.leb_spec ncols 1) as [Hle | _]; [ lia | reflexivity ]. }
  split; [ exact Hscore | ].
  intros file_bytes filename Hread Hmax.
  assert (Hle : Z.of_nat (len frame) <= max_batch_rows settings)
    by (unfold len; rewrite Hidx; exact Hmax).
  rewrite (predict_batch_of_score floatify float_repr read_csv read_excel suffix_lower
             settings (mkService self) file_bytes filename frame Hread Hle).
  rewrite outcome_bind; cbn [_model].
  rewrite (proj2 (outcome_except_ok "Model failed to process batch payload." _ _) Hscore).
  reflexivity.
Qed.

End Rowless.

(** A file with the header of the scenario and no row. *)
Lemma rowless_batch_is_scored_scenario :
  outcome (predict_batch Scenario.floatify Scenario.float_repr
             (fun _ => Ok (mkDataFrame [] [("ID", []); ("LIMIT_BAL", []); ("AGE", [])]))
             (fun _ => Raise (ValueError "not a spreadsheet"))
             (fun _ => ".csv") (mkAppSettings 60000)
             (mkService Scenario.model) "ID,LIMIT_BAL,AGE" "batch.csv")
  = Ok (mkScored [] [] [] []).
Proof.
  refine (proj2 (proj2 (rowless_batch_is_scored
                          Scenario.floatify Scenario.float_repr
                          (fun _ => Ok (mkDataFrame []
                                          [("ID", []); ("LIMIT_BAL", []); ("AGE", [])]))
                          (fun _ => Raise (ValueError "not a spreadsheet"))
                          (fun _ => ".csv") (mkAppSettings 60000)
                          Scenario.model
                          (mkDataFrame [] [("ID", []); ("LIMIT_BAL", []); ("AGE", [])])
                          _ eq_refl eq_refl eq_refl _)
                       2%nat (le_n 2) eq_refl)
                "ID,LIMIT_BAL,AGE" "batch.csv" eq_refl _).
  - split; [ reflexivity | repeat constructor ].
  - intros column dtype [Heq | [Heq | []]] _; injection Heq as _ <-; reflexivity.
  - vm_compute; discriminate.
Defined.
